(** * bis-streamlit-app: the chat pages and the dashboard, embedded and verified

    The repository holds three Streamlit page scripts:
    - [pages/03_SimpleChat.py]: a chat page in front of a model-serving endpoint;
    - [pages/04_GenieAI.py]: a chat page in front of a Genie agent;
    - [pages/Dashboard.py]: a dashboard over five cached SQL loaders.

    A page script is re-run from its first line on every interaction.  One run
    is embedded as a function in a state-and-exception monad: the state holds
    what survives the run (the session state, the process-wide cache) and the
    trace of the effects the run performed, in the order it performed them.
    What the collaborators answer in a run (environment variables, headers,
    the widgets, the remote services) is the run's input record. *)

From Stdlib Require Import String Ascii List ZArith Lia Bool.
From Stdlib Require Import DecimalString Decimal SpecFloat.
Import ListNotations.
Open Scope string_scope.
Set Warnings "-register-all".

(** ** The Python values and builtins the scripts use *)

Module Py.

(** The exceptions that occur.  [RemoteError] stands for whatever a remote
    collaborator raises (network, timeout, authentication). *)
Inductive exn : Set :=
| KeyError (key : string)
| AssertionError (msg : string)
| IndexError (msg : string)
| TypeError (msg : string)
| ValueError (msg : string)
| AttributeError (msg : string)
| OverflowError (msg : string)
| RemoteError (msg : string).

Inductive result (A : Type) : Type :=
| Ok (a : A)
| Raise (e : exn).
Arguments Ok {A} a.
Arguments Raise {A} e.

Definition is_ok {A} (r : result A) : bool :=
  match r with Ok _ => true | Raise _ => false end.

(** Plain data: [None], [str], [int], [float] (binary64), [list] and [dict]
    with [str] keys.  A [dict] keeps its insertion order, which [items()]
    exposes, so it is an association list. *)
Inductive value : Type :=
| VNone
| VStr (s : string)
| VInt (z : Z)
| VFloat (f : spec_float)
| VList (l : list value)
| VDict (d : list (string * value)).

Fixpoint dict_get (k : string) (d : list (string * value)) : option value :=
  match d with
  | [] => None
  | (k', v) :: rest => if String.eqb k k' then Some v else dict_get k rest
  end.

Definition type_name (v : value) : string :=
  match v with
  | VNone => "NoneType"
  | VStr _ => "str"
  | VInt _ => "int"
  | VFloat _ => "float"
  | VList _ => "list"
  | VDict _ => "dict"
  end.

(** [v[k]] for a [str] key [k]. *)
Definition getitem (v : value) (k : string) : result value :=
  match v with
  | VDict d =>
      match dict_get k d with
      | Some x => Ok x
      | None => Raise (KeyError k)
      end
  | VStr _ => Raise (TypeError "string indices must be integers, not 'str'")
  | VList _ => Raise (TypeError "list indices must be integers or slices, not str")
  | _ => Raise (TypeError ("'" ++ type_name v ++ "' object is not subscriptable"))
  end.

(** [v.items()]. *)
Definition items (v : value) : result (list (string * value)) :=
  match v with
  | VDict d => Ok d
  | _ => Raise (AttributeError
                  ("'" ++ type_name v ++ "' object has no attribute 'items'"))
  end.

Definition chars (s : string) : list value :=
  map (fun c => VStr (String c EmptyString)) (list_ascii_of_string s).

(** Iterating over [v] (a [dict] yields its keys, a [str] its characters). *)
Definition iter (v : value) : result (list value) :=
  match v with
  | VList l => Ok l
  | VDict d => Ok (map (fun kv => VStr (fst kv)) d)
  | VStr s => Ok (chars s)
  | _ => Raise (TypeError ("'" ++ type_name v ++ "' object is not iterable"))
  end.

(** [len(v)]. *)
Definition len (v : value) : result Z :=
  match v with
  | VList l => Ok (Z.of_nat (List.length l))
  | VDict d => Ok (Z.of_nat (List.length d))
  | VStr s => Ok (Z.of_nat (String.length s))
  | _ => Raise (TypeError ("object of type '" ++ type_name v ++ "' has no len()"))
  end.

(** Truthiness of an optional string ([None] and [""] are falsy). *)
Definition truthy (o : option string) : bool :=
  match o with
  | Some s => negb (String.eqb s "")
  | None => false
  end.

(** *** Decimal rendering *)

Definition decimal_N (n : N) : string := NilZero.string_of_uint (N.to_uint n).
Definition decimal_Z (z : Z) : string := NilZero.string_of_int (Z.to_int z).

Fixpoint zeros (n : nat) : string :=
  match n with O => "" | S n' => "0" ++ zeros n' end.

(** A comma after every third digit, over the reversed digits. *)
Fixpoint commas_rev (cs : list ascii) (k : nat) : list ascii :=
  match cs with
  | [] => []
  | c :: rest =>
      c :: match rest with
           | [] => []
           | _ :: _ => if Nat.eqb k 2 then ","%char :: commas_rev rest 0
                       else commas_rev rest (S k)
           end
  end.

Definition group_thousands (digits : string) : string :=
  string_of_list_ascii
    (List.rev (commas_rev (List.rev (list_ascii_of_string digits)) 0)).

(** [n] units of [10^-p] as fixed-point text with [p] decimals. *)
Definition fixed_text (comma : bool) (p : nat) (n : Z) : string :=
  let scale := (10 ^ Z.of_nat p)%Z in
  let whole := decimal_N (Z.to_N (n / scale)) in
  let frac := decimal_N (Z.to_N (n mod scale)) in
  (if comma then group_thousands whole else whole)
  ++ match p with
     | O => ""
     | S _ => "." ++ zeros (p - String.length frac) ++ frac
     end.

(** [m * 2^e * 10^p] rounded to the nearest integer, ties to even: the
    correctly rounded decimal that the [f] presentation type prints. *)
Definition scaled_round (p : nat) (m : positive) (e : Z) : Z :=
  let n := (Z.pos m * 10 ^ Z.of_nat p)%Z in
  if (0 <=? e)%Z then (n * 2 ^ e)%Z
  else
    let d := (2 ^ (- e))%Z in
    let q := (n / d)%Z in
    let r := (n mod d)%Z in
    match (2 * r ?= d)%Z with
    | Lt => q
    | Gt => (q + 1)%Z
    | Eq => if Z.even q then q else (q + 1)%Z
    end.

Definition sign_text (s : bool) : string := if s then "-" else "".

Definition format_float (comma : bool) (p : nat) (f : spec_float) : string :=
  match f with
  | S754_nan => "nan"
  | S754_infinity s => sign_text s ++ "inf"
  | S754_zero s => sign_text s ++ fixed_text comma p 0
  | S754_finite s m e => sign_text s ++ fixed_text comma p (scaled_round p m e)
  end.

(** [format(v, ",.pf")] when [comma], [format(v, ".pf")] otherwise.  An [int]
    is converted to [float] first. *)
Definition format_fixed (comma : bool) (p : nat) (v : value) : result string :=
  match v with
  | VFloat f => Ok (format_float comma p f)
  | VInt z =>
      match binary_normalize 53 1024 z 0 false with
      | S754_infinity _ => Raise (OverflowError "int too large to convert to float")
      | f => Ok (format_float comma p f)
      end
  | VStr _ => Raise (ValueError "Unknown format code 'f' for object of type 'str'")
  | _ => Raise (TypeError ("unsupported format string passed to "
                           ++ type_name v ++ ".__format__"))
  end.

(** *** [repr] and [str]

    How the runtime prints a [str] in quotes and a [float] in shortest form
    is left to the runtime: two parameters. *)
Section Repr.
Variable repr_str : string -> string.
Variable repr_float : spec_float -> string.

Fixpoint repr (v : value) : string :=
  match v with
  | VNone => "None"
  | VStr s => repr_str s
  | VInt z => decimal_Z z
  | VFloat f => repr_float f
  | VList l => "[" ++ String.concat ", " (map repr l) ++ "]"
  | VDict d =>
      "{" ++ String.concat ", "
               (map (fun kv => repr_str (fst kv) ++ ": " ++ repr (snd kv)) d)
          ++ "}"
  end.

(** [str(v)], which is also what a replacement field without a format
    specification prints. *)
Definition str (v : value) : string :=
  match v with
  | VStr s => s
  | _ => repr v
  end.
End Repr.

End Py.

Import Py.

(** ** Effects: state, exceptions and the trace *)

Class Monad (m : Type -> Type) : Type := {
  ret : forall {A}, A -> m A;
  bind : forall {A B}, m A -> (A -> m B) -> m B
}.

Notation "x <- c1 ;; c2" := (bind c1 (fun x => c2))
  (at level 61, c1 at next level, right associativity).
Notation "c1 ;; c2" := (bind c1 (fun _ => c2))
  (at level 61, right associativity).

#[export] Instance result_monad : Monad result := {
  ret := fun A a => Ok a;
  bind := fun A B r k => match r with Ok a => k a | Raise e => Raise e end
}.

(** A computation over a world [W]: it may change the world and then either
    returns or raises; what it changed before raising stays changed. *)
Definition M (W A : Type) : Type := W -> result A * W.

#[export] Instance M_monad (W : Type) : Monad (M W) := {
  ret := fun A a w => (Ok a, w);
  bind := fun A B c k w =>
    match c w with
    | (Ok a, w') => k a w'
    | (Raise e, w') => (Raise e, w')
    end
}.

Definition lift {W A} (r : result A) : M W A := fun w => (r, w).
Definition raise {W A} (e : exn) : M W A := fun w => (Raise e, w).
Definition get {W} : M W W := fun w => (Ok w, w).
Definition modify {W} (f : W -> W) : M W unit := fun w => (Ok tt, f w).

Fixpoint mapM {m} `{Monad m} {A B} (f : A -> m B) (l : list A) : m (list B) :=
  match l with
  | [] => ret []
  | x :: rest => y <- f x ;; ys <- mapM f rest ;; ret (y :: ys)
  end.

Fixpoint forM_ {m} `{Monad m} {A} (l : list A) (f : A -> m unit) : m unit :=
  match l with
  | [] => ret tt
  | x :: rest => f x ;; forM_ rest f
  end.

(** [assert v, msg] on an optional string. *)
Definition assert_truthy {W} (v : option string) (msg : string) : M W string :=
  match v with
  | Some s => if String.eqb s "" then raise (AssertionError msg) else ret s
  | None => raise (AssertionError msg)
  end.

Definition nl : string := String (ascii_of_nat 10) EmptyString.

(** [sub] occurs in [s]. *)
Definition contains (s sub : string) : Prop :=
  exists pre post, s = pre ++ sub ++ post.

(** ** What the two chat pages share *)

Module Chat.

Inductive role : Set := User | Assistant.

Definition role_name (r : role) : string :=
  match r with User => "user" | Assistant => "assistant" end.

(** A message of the history, [{"role": r, "content": c}]. *)
Record message : Type := { msg_role : role; msg_content : value }.

(** [st.session_state]: the keys the pages use; [None] is a key not set. *)
Record session_state : Type := {
  messages : option (list message);
  visibility : option string;
  disabled : option bool
}.

Definition fresh_session : session_state :=
  {| messages := None; visibility := None; disabled := None |}.

(** What one run does that is visible outside it. *)
Inductive event : Type :=
| SetPageConfig (layout : string)
| Title (text : string)
| ErrorBox (text : string)
| Markdown (body : value)
| SidebarMarkdown (text : string)
| SidebarWrite (v : value)
| ChatMessageBox (r : role)
| ChatInput (placeholder : string)
| PrintLine (text : string)
| LogRecord (text : string)
| IsEndpointSupported (endpoint : string)
| QueryEndpoint (endpoint : string) (history : list message)
                (max_tokens : Z) (system_prompt : string)
| BuildAgent (space_id name description : string)
| AgentInvoke (prompt : string).

Record world : Type := { session : session_state; trace : list event }.

Definition emit (e : event) : M world unit :=
  modify (fun w => {| session := session w; trace := (trace w ++ [e])%list |}).

Definition update_session (f : session_state -> session_state) : M world unit :=
  modify (fun w => {| session := f (session w); trace := trace w |}).

(** [Conversation.all()]: the history, empty while the key is not set. *)
Definition conversation (s : session_state) : list message :=
  match messages s with Some l => l | None => [] end.

(** [get_user_info()], the same in both pages. *)
Definition header_value (o : option string) : value :=
  match o with Some s => VStr s | None => VNone end.

Definition get_user_info (headers : string -> option string) : value :=
  VDict [ ("user_name", header_value (headers "X-Forwarded-Preferred-Username"));
          ("user_email", header_value (headers "X-Forwarded-Email"));
          ("user_id", header_value (headers "X-Forwarded-User")) ].

(** [if "visibility" not in st.session_state: ...] *)
Definition init_visibility : M world unit :=
  w <- get ;;
  match visibility (session w) with
  | Some _ => ret tt
  | None =>
      update_session (fun s => {| messages := messages s;
                                  visibility := Some "visible";
                                  disabled := Some false |})
  end.

(** [if "messages" not in st.session_state: st.session_state.messages = []] *)
Definition init_messages : M world unit :=
  w <- get ;;
  match messages (session w) with
  | Some _ => ret tt
  | None =>
      update_session (fun s => {| messages := Some [];
                                  visibility := visibility s;
                                  disabled := disabled s |})
  end.

(** [st.session_state.messages] *)
Definition get_messages : M world (list message) :=
  w <- get ;;
  match messages (session w) with
  | Some l => ret l
  | None => raise (AttributeError "st.session_state has no attribute 'messages'")
  end.

(** [st.session_state.messages.append(m)] *)
Definition append_message (m : message) : M world unit :=
  l <- get_messages ;;
  update_session (fun s => {| messages := Some (l ++ [m])%list;
                              visibility := visibility s;
                              disabled := disabled s |}).

(** [for message in st.session_state.messages: with st.chat_message(...): ...] *)
Definition replay_history : M world unit :=
  l <- get_messages ;;
  forM_ l (fun m => emit (ChatMessageBox (msg_role m)) ;;
                    emit (Markdown (msg_content m))).

(** A run from a session state: how it ended, the session state it leaves
    and the effects it performed, in order. *)
Record run_result : Type := {
  outcome : result unit;
  session_after : session_state;
  effects : list event
}.

(** The outcome of one submitted turn, and the messages it leaves. *)
Inductive turn : Type :=
| Replied (prompt : string) (reply : value)
| NoReply (prompt : string).

Definition turn_messages (t : turn) : list message :=
  match t with
  | Replied p r => [ {| msg_role := User; msg_content := VStr p |};
                     {| msg_role := Assistant; msg_content := r |} ]
  | NoReply p => [ {| msg_role := User; msg_content := VStr p |} ]
  end.

Definition is_query_endpoint (e : event) : bool :=
  match e with QueryEndpoint _ _ _ _ => true | _ => false end.

Definition is_agent_invoke (e : event) : bool :=
  match e with AgentInvoke _ => true | _ => false end.

Definition is_chat_input (e : event) : bool :=
  match e with ChatInput _ => true | _ => false end.

Definition is_capability_check (e : event) : bool :=
  match e with IsEndpointSupported _ => true | _ => false end.

Definition is_log_record (e : event) : bool :=
  match e with LogRecord _ => true | _ => false end.

Definition count (p : event -> bool) (tr : list event) : nat :=
  List.length (filter p tr).

Definition turn_prompt (t : turn) : string :=
  match t with Replied p _ => p | NoReply p => p end.

Definition has_reply (t : turn) : bool :=
  match t with Replied _ _ => true | NoReply _ => false end.

Definition render_turns (ts : list turn) : list message :=
  flat_map turn_messages ts.

Definition count_replied (ts : list turn) : nat :=
  List.length (filter has_reply ts).

Definition count_unreplied (ts : list turn) : nat :=
  List.length (filter (fun t => negb (has_reply t)) ts).

Definition user_message (p : string) : message :=
  {| msg_role := User; msg_content := VStr p |}.

Definition assistant_message (r : value) : message :=
  {| msg_role := Assistant; msg_content := r |}.

(** What [replay_history] shows for a history, and the session state once
    its keys are initialised. *)
Definition replay_events (l : list message) : list event :=
  flat_map (fun m => [ChatMessageBox (msg_role m); Markdown (msg_content m)]) l.

Definition with_visibility (s : session_state) : session_state :=
  match visibility s with
  | Some _ => s
  | None => {| messages := messages s; visibility := Some "visible";
               disabled := Some false |}
  end.

Definition with_messages (l : list message) (s : session_state)
  : session_state :=
  {| messages := Some l; visibility := visibility s; disabled := disabled s |}.


End Chat.

(** ** pages/03_SimpleChat.py *)

Module SimpleChat.
Import Chat.

(** What the collaborators answer in one run of the script.  The module
    [model_serving_utils] is not part of the sources at hand: what its two
    functions return or raise in the run is an input. *)
Record run_input : Type := {
  environ : string -> option string;
  headers : string -> option string;
  is_endpoint_supported_answer : result bool;
  chat_input_answer : option string;
  query_endpoint_answer : result value
}.

Definition assert_message : string :=
  "Unable to determine serving endpoint to use for chatbot app. If developing locally, "
  ++ "set the SERVING_ENDPOINT environment variable to the name of your serving endpoint. If "
  ++ "deploying to a Databricks app, include a serving endpoint resource named "
  ++ "'serving_endpoint' with CAN_QUERY permissions, as described in "
  ++ "https://docs.databricks.com/aws/en/generative-ai/agent-framework/chat-app#deploy-the-databricks-app".

Definition unsupported_title : string := "⚠️ Unsupported Endpoint Type".

Definition unsupported_notice (endpoint : string) : string :=
  "The endpoint `" ++ endpoint
  ++ "` is not compatible with this basic chatbot template." ++ nl ++ nl
  ++ "This template only supports chat completions-compatible endpoints." ++ nl ++ nl
  ++ "👉 **For a richer chatbot template** that supports all conversational endpoints on Databricks, "
  ++ "please see the [Databricks documentation](https://docs.databricks.com/aws/en/generative-ai/agent-framework/chat-app).".

Definition supported_notice : string :=
  "ℹ️ This is a simple example. See "
  ++ "[Databricks docs](https://docs.databricks.com/aws/en/generative-ai/agent-framework/chat-app) "
  ++ "for a more comprehensive example with streaming output and more.".

Definition is_endpoint_supported (i : run_input) (endpoint : string)
  : M world bool :=
  emit (IsEndpointSupported endpoint) ;;
  lift (is_endpoint_supported_answer i).

Definition chat_input (i : run_input) (placeholder : string)
  : M world (option string) :=
  emit (ChatInput placeholder) ;;
  ret (chat_input_answer i).

Definition query_endpoint (i : run_input) (endpoint : string)
    (history : list message) (max_tokens : Z) (system_prompt : string)
  : M world value :=
  emit (QueryEndpoint endpoint history max_tokens system_prompt) ;;
  lift (query_endpoint_answer i).

(** The run gets as far as its chat input. *)
Definition reaches_chat_input (i : run_input) : bool :=
  truthy (environ i "SERVING_ENDPOINT")
  && match is_endpoint_supported_answer i with
     | Ok b => b
     | Raise _ => false
     end.

Section Runtime.
Variable repr_str : string -> string.
Variable repr_float : spec_float -> string.

Definition str (v : value) : string := Py.str repr_str repr_float v.

(** [f"- {k}: €{v:,.2f}"] *)
Definition account_line (kv : string * value) : result string :=
  amount <- format_fixed true 2 (snd kv) ;;
  ret ("- " ++ fst kv ++ ": €" ++ amount).

(** [f"{i+1}. {t['merchant']} - €{t['amount']:.2f}"] *)
Definition transaction_line (it : nat * value) : result string :=
  merchant <- getitem (snd it) "merchant" ;;
  amount <- getitem (snd it) "amount" ;;
  amount_text <- format_fixed false 2 amount ;;
  ret (decimal_N (N.of_nat (fst it + 1)) ++ ". " ++ str merchant
       ++ " - €" ++ amount_text).

Definition enumerate {A} (l : list A) : list (nat * A) :=
  combine (seq 0 (List.length l)) l.

Definition build_system_prompt (user_info : value) : result string :=
  accounts <- getitem user_info "accounts" ;;
  account_items <- items accounts ;;
  account_lines <- mapM account_line account_items ;;
  let accounts_str := String.concat nl account_lines in
  recent_transactions <- getitem user_info "recent_transactions" ;;
  transactions <- iter recent_transactions ;;
  transaction_lines <- mapM transaction_line (enumerate transactions) ;;
  let transactions_str := String.concat nl transaction_lines in
  name <- getitem user_info "name" ;;
  email <- getitem user_info "email" ;;
  user_id <- getitem user_info "user_id" ;;
  accounts' <- getitem user_info "accounts" ;;
  n_accounts <- len accounts' ;;
  preferences <- getitem user_info "preferences" ;;
  contact_method <- getitem preferences "contact_method" ;;
  preferences' <- getitem user_info "preferences" ;;
  budgeting_style <- getitem preferences' "budgeting_style" ;;
  ret (String.concat nl
    [ "";
      "You are a helpful assistant. Always respond clearly, concisely, and provide actionable information when appropriate.";
      "";
      "# User Information";
      "Name: " ++ str name;
      "Email: " ++ str email;
      "User ID: " ++ str user_id;
      "";
      "Number of banking accounts: " ++ decimal_Z n_accounts;
      "Account balances:";
      accounts_str;
      "";
      "Recent Transactions:";
      transactions_str;
      "";
      "# Banking Preferences";
      "Preferred Contact Method: " ++ str contact_method;
      "Budgeting Style: " ++ str budgeting_style;
      "";
      "# Context for RAG";
      "You have access to the user's banking info above. When answering questions, reference this data when relevant. ";
      "If the user asks about account balances, recent transactions, or budgeting advice, provide the info from above. ";
      "Do not make up other sensitive data.";
      "" ]).

(** Lines 113-126: the assistant's box, the call, the reply appended. *)
Definition respond (i : run_input) (endpoint system_prompt : string)
  : M world unit :=
  emit (ChatMessageBox Assistant) ;;
  history <- get_messages ;;
  response <- query_endpoint i endpoint history 400 system_prompt ;;
  assistant_response <- lift (getitem response "content") ;;
  emit (Markdown assistant_response) ;;
  append_message {| msg_role := Assistant; msg_content := assistant_response |}.

(** The page with the prompt composer as a parameter [compose]; the script
    is the page with [build_system_prompt] (see [page]). *)
Section Composer.
Variable compose : value -> result string.

(** Lines 70-126: the body of [if prompt := st.chat_input(...)]. *)
Definition submit_with (i : run_input) (endpoint prompt : string)
  : M world unit :=
  append_message {| msg_role := User; msg_content := VStr prompt |} ;;
  emit (ChatMessageBox User) ;;
  emit (Markdown (VStr prompt)) ;;
  let user_info := get_user_info (headers i) in
  system_prompt <- lift (compose user_info) ;;
  emit (PrintLine system_prompt) ;;
  respond i endpoint system_prompt.

(** One run of the script. *)
Definition page_with (i : run_input) : M world unit :=
  emit (SetPageConfig "centered") ;;
  SERVING_ENDPOINT <- assert_truthy (environ i "SERVING_ENDPOINT")
                        assert_message ;;
  endpoint_supported <- is_endpoint_supported i SERVING_ENDPOINT ;;
  init_visibility ;;
  emit (Title "🧱 Chatbot App") ;;
  if negb endpoint_supported then
    emit (ErrorBox unsupported_title) ;;
    emit (Markdown (VStr (unsupported_notice SERVING_ENDPOINT)))
  else
    emit (Markdown (VStr supported_notice)) ;;
    init_messages ;;
    replay_history ;;
    prompt <- chat_input i "What is up?" ;;
    if truthy prompt then
      match prompt with
      | Some p => submit_with i SERVING_ENDPOINT p
      | None => ret tt
      end
    else ret tt.

Definition run_with (i : run_input) (s : session_state) : run_result :=
  let '(r, w) := page_with i {| session := s; trace := [] |} in
  {| outcome := r; session_after := session w; effects := trace w |}.

(** The turn a run takes in, when its chat input returns a prompt: it
    has a reply when the endpoint was asked and answered with a
    content. *)
Definition turn_with (i : run_input) : option turn :=
  if reaches_chat_input i && truthy (chat_input_answer i) then
    match chat_input_answer i with
    | Some p =>
        Some match compose (get_user_info (headers i)) with
             | Ok _ =>
                 match query_endpoint_answer i with
                 | Ok response =>
                     match getitem response "content" with
                     | Ok reply => Replied p reply
                     | Raise _ => NoReply p
                     end
                 | Raise _ => NoReply p
                 end
             | Raise _ => NoReply p
             end
    | None => None
    end
  else None.

(** A session: the script re-run once per interaction; the session
    state it ends in and everything it did. *)
Fixpoint run_session_with (inputs : list run_input) (s : session_state)
  : session_state :=
  match inputs with
  | [] => s
  | i :: rest => run_session_with rest (session_after (run_with i s))
  end.

Fixpoint session_effects_with (inputs : list run_input)
    (s : session_state) : list event :=
  match inputs with
  | [] => []
  | i :: rest =>
      (effects (run_with i s)
       ++ session_effects_with rest (session_after (run_with i s)))%list
  end.

(** The run in closed form: what a submitted prompt leads to from the
    history [l], and the whole run ([run_with_summary] proves them equal
    to the run). *)
Definition submitted (i : run_input) (endpoint prompt : string)
    (l : list message) : result unit * list message * list event :=
  let l1 := (l ++ [user_message prompt])%list in
  let shown := [ChatMessageBox User; Markdown (VStr prompt)] in
  match compose (get_user_info (headers i)) with
  | Raise e => (Raise e, l1, shown)
  | Ok system_prompt =>
      let asked := (shown ++ [PrintLine system_prompt; ChatMessageBox Assistant;
                              QueryEndpoint endpoint l1 400 system_prompt])%list in
      match query_endpoint_answer i with
      | Raise e => (Raise e, l1, asked)
      | Ok response =>
          match getitem response "content" with
          | Raise e => (Raise e, l1, asked)
          | Ok reply => (Ok tt, (l1 ++ [assistant_message reply])%list,
                         (asked ++ [Markdown reply])%list)
          end
      end
  end.

Definition summary (i : run_input) (s : session_state) : run_result :=
  if truthy (environ i "SERVING_ENDPOINT") then
    match environ i "SERVING_ENDPOINT" with
    | None => {| outcome := Ok tt; session_after := s; effects := [] |}
    | Some endpoint =>
        let checked := [SetPageConfig "centered";
                        IsEndpointSupported endpoint] in
        match is_endpoint_supported_answer i with
        | Raise e =>
            {| outcome := Raise e; session_after := s; effects := checked |}
        | Ok false =>
            {| outcome := Ok tt;
               session_after := with_visibility s;
               effects := (checked
                           ++ [Title "🧱 Chatbot App";
                               ErrorBox unsupported_title;
                               Markdown (VStr (unsupported_notice endpoint))])%list |}
        | Ok true =>
            let l := conversation s in
            let shown := (checked
                          ++ [Title "🧱 Chatbot App";
                              Markdown (VStr supported_notice)]
                          ++ replay_events l
                          ++ [ChatInput "What is up?"])%list in
            if truthy (chat_input_answer i) then
              match chat_input_answer i with
              | Some prompt =>
                  let '(r, l', evs) := submitted i endpoint prompt l in
                  {| outcome := r;
                     session_after := with_messages l' (with_visibility s);
                     effects := (shown ++ evs)%list |}
              | None =>
                  {| outcome := Ok tt; session_after := s; effects := [] |}
              end
            else
              {| outcome := Ok tt;
                 session_after := with_messages l (with_visibility s);
                 effects := shown |}
        end
    end
  else
    {| outcome := Raise (AssertionError assert_message);
       session_after := s;
       effects := [SetPageConfig "centered"] |}.
End Composer.

Definition submit := submit_with build_system_prompt.
Definition page := page_with build_system_prompt.
Definition run := run_with build_system_prompt.
Definition turn_of := turn_with build_system_prompt.
Definition run_session := run_session_with build_system_prompt.
Definition session_effects := session_effects_with build_system_prompt.

Definition session_turns (inputs : list run_input) : list turn :=
  flat_map (fun i => match turn_of i with Some t => [t] | None => [] end)
           inputs.

End Runtime.

End SimpleChat.

(** ** pages/04_GenieAI.py *)

Module GenieAI.
Import Chat.

(** The LangChain message classes the page tells apart. *)
Inductive message_class : Set := HumanMessage | AIMessage | OtherMessage.

(** The content of a LangChain message: a text or a list of parts. *)
Inductive content : Type :=
| Text (s : string)
| Parts (l : list value).

Definition content_value (c : content) : value :=
  match c with Text s => VStr s | Parts l => VList l end.

(** What [agent.invoke] may return: a [dict], whose entries are lists of
    objects (messages among them) or plain data, or any plain value. *)
Inductive item : Type :=
| Message (c : message_class) (body : content)
| Plain (v : value).

Inductive entry : Type :=
| Turns (l : list item)
| Data (v : value).

Inductive agent_result : Type :=
| ResultDict (d : list (string * entry))
| ResultOther (v : value).

Fixpoint entry_get (k : string) (d : list (string * entry)) : option entry :=
  match d with
  | [] => None
  | (k', e) :: rest => if String.eqb k k' then Some e else entry_get k rest
  end.

Record run_input : Type := {
  environ : string -> option string;
  dotenv : string -> option string;
  headers : string -> option string;
  build_agent_answer : result unit;
  chat_input_answer : option string;
  invoke_answer : result agent_result
}.

(** [os.getenv] once [load_dotenv()] has run: a variable of the process
    environment wins over the one of the [.env] file. *)
Definition getenv (i : run_input) (k : string) : option string :=
  match environ i k with
  | Some v => Some v
  | None => dotenv i k
  end.

Definition sidebar_user : string :=
  nl ++ "👤 **User information**  " ++ nl
  ++ "(Only available when the app is deployed)" ++ nl.

Definition sidebar_about : string :=
  nl ++ "---" ++ nl
  ++ "📦 **About this app**" ++ nl
  ++ nl
  ++ "This page uses the **`databricks-langchain`** package.  " ++ nl
  ++ nl
  ++ "🔗 Useful links:  " ++ nl
  ++ "- [LangChain Databricks integration docs](https://python.langchain.com/docs/integrations/providers/databricks/)  " ++ nl
  ++ "- [PyPI package: databricks-langchain](https://pypi.org/project/databricks-langchain/)" ++ nl.

Definition assert_message : string := "GENIE_ID must be set in app.yaml.".

Definition build_agent (i : run_input) (space_id name description : string)
  : M world unit :=
  emit (BuildAgent space_id name description) ;;
  lift (build_agent_answer i).

Definition chat_input (i : run_input) (placeholder : string)
  : M world (option string) :=
  emit (ChatInput placeholder) ;;
  ret (chat_input_answer i).

(** [agent.invoke({"messages": [HumanMessage(content=prompt)]})] *)
Definition agent_invoke (i : run_input) (prompt : string)
  : M world agent_result :=
  emit (AgentInvoke prompt) ;;
  lift (invoke_answer i).

Definition is_ai (x : item) : bool :=
  match x with
  | Message AIMessage _ => true
  | _ => false
  end.

(** [m.content] of an element kept by the [isinstance(m, AIMessage)] test. *)
Definition item_content (x : item) : result value :=
  match x with
  | Message _ body => Ok (content_value body)
  | Plain v => Raise (AttributeError
                        ("'" ++ type_name v ++ "' object has no attribute 'content'"))
  end.

Section Runtime.
Variable repr_str : string -> string.
Variable repr_float : spec_float -> string.
Variable repr_message : message_class -> content -> string.

Definition item_repr (x : item) : string :=
  match x with
  | Message c body => repr_message c body
  | Plain v => Py.repr repr_str repr_float v
  end.

Definition entry_repr (e : entry) : string :=
  match e with
  | Turns l => "[" ++ String.concat ", " (map item_repr l) ++ "]"
  | Data v => Py.repr repr_str repr_float v
  end.

(** [str(result)] *)
Definition result_str (r : agent_result) : string :=
  match r with
  | ResultDict d =>
      "{" ++ String.concat ", "
               (map (fun ke => repr_str (fst ke) ++ ": " ++ entry_repr (snd ke)) d)
          ++ "}"
  | ResultOther v => Py.str repr_str repr_float v
  end.

(** [result["messages"]] when [isinstance(result, dict) and "messages" in
    result], as the sequence the comprehension walks. *)
Definition messages_entry (r : agent_result) : option (result (list item)) :=
  match r with
  | ResultDict d =>
      match entry_get "messages" d with
      | Some (Turns l) => Some (Ok l)
      | Some (Data v) => Some (l <- iter v ;; ret (map Plain l))
      | None => None
      end
  | ResultOther (VDict d) =>
      match dict_get "messages" d with
      | Some v => Some (l <- iter v ;; ret (map Plain l))
      | None => None
      end
  | ResultOther _ => None
  end.

(** Lines 79-84: the last AI message's content, or the whole result as
    text. *)
Definition pick_reply (r : agent_result) : result value :=
  match messages_entry r with
  | Some walked =>
      all <- walked ;;
      let ai_msgs := filter is_ai all in
      match ai_msgs with
      | [] => Ok (VStr (result_str r))
      | first :: others => item_content (last others first)
      end
  | None => Ok (VStr (result_str r))
  end.

(** Lines 72-89: the body of [if prompt := st.chat_input(...)]. *)
Definition submit (i : run_input) (prompt : string) : M world unit :=
  append_message {| msg_role := User; msg_content := VStr prompt |} ;;
  emit (ChatMessageBox User) ;;
  emit (Markdown (VStr prompt)) ;;
  result <- agent_invoke i prompt ;;
  reply <- lift (pick_reply result) ;;
  emit (ChatMessageBox Assistant) ;;
  emit (Markdown reply) ;;
  append_message {| msg_role := Assistant; msg_content := reply |}.

(** One run of the script. *)
Definition page (i : run_input) : M world unit :=
  emit (SetPageConfig "centered") ;;
  let user_info := get_user_info (headers i) in
  emit (SidebarMarkdown sidebar_user) ;;
  emit (SidebarWrite user_info) ;;
  emit (SidebarMarkdown sidebar_about) ;;
  GENIE_ID <- assert_truthy (getenv i "GENIE_ID") assert_message ;;
  build_agent i GENIE_ID "Genie"
    "This Genie space has access to sales data in Europe" ;;
  init_messages ;;
  replay_history ;;
  prompt <- chat_input i "Ask me about data…" ;;
  if truthy prompt then
    match prompt with
    | Some p => submit i p
    | None => ret tt
    end
  else ret tt.

Definition run (i : run_input) (s : session_state) : run_result :=
  let '(r, w) := page i {| session := s; trace := [] |} in
  {| outcome := r; session_after := session w; effects := trace w |}.

Fixpoint run_session (inputs : list run_input) (s : session_state)
  : session_state :=
  match inputs with
  | [] => s
  | i :: rest => run_session rest (session_after (run i s))
  end.

(** The turn a run takes in, when its chat input returns a prompt: it has
    a reply when the agent returned and a reply was picked. *)
Definition reaches_chat_input (i : run_input) : bool :=
  truthy (getenv i "GENIE_ID") && is_ok (build_agent_answer i).

Definition turn_of (i : run_input) : option turn :=
  if reaches_chat_input i && truthy (chat_input_answer i) then
    match chat_input_answer i with
    | Some p =>
        Some match invoke_answer i with
             | Ok result =>
                 match pick_reply result with
                 | Ok reply => Replied p reply
                 | Raise _ => NoReply p
                 end
             | Raise _ => NoReply p
             end
    | None => None
    end
  else None.

Definition session_turns (inputs : list run_input) : list turn :=
  flat_map (fun i => match turn_of i with Some t => [t] | None => [] end)
           inputs.

(** The run in closed form ([run_summary] proves it equal to [run]). *)
Definition sidebar (i : run_input) : list event :=
  [ SetPageConfig "centered";
    SidebarMarkdown sidebar_user;
    SidebarWrite (get_user_info (headers i));
    SidebarMarkdown sidebar_about ].

Definition submitted (i : run_input) (prompt : string) (l : list message)
  : result unit * list message * list event :=
  let l1 := (l ++ [user_message prompt])%list in
  let asked := [ChatMessageBox User; Markdown (VStr prompt);
                AgentInvoke prompt] in
  match invoke_answer i with
  | Raise e => (Raise e, l1, asked)
  | Ok result =>
      match pick_reply result with
      | Raise e => (Raise e, l1, asked)
      | Ok reply => (Ok tt, (l1 ++ [assistant_message reply])%list,
                     (asked ++ [ChatMessageBox Assistant; Markdown reply])%list)
      end
  end.

Definition summary (i : run_input) (s : session_state) : run_result :=
  if truthy (getenv i "GENIE_ID") then
    match getenv i "GENIE_ID" with
    | None => {| outcome := Ok tt; session_after := s; effects := [] |}
    | Some genie_id =>
        let built := (sidebar i
                      ++ [BuildAgent genie_id "Genie"
                            "This Genie space has access to sales data in Europe"])%list in
        match build_agent_answer i with
        | Raise e =>
            {| outcome := Raise e; session_after := s; effects := built |}
        | Ok _ =>
            let l := conversation s in
            let shown := (built ++ replay_events l
                          ++ [ChatInput "Ask me about data…"])%list in
            if truthy (chat_input_answer i) then
              match chat_input_answer i with
              | Some prompt =>
                  let '(r, l', evs) := submitted i prompt l in
                  {| outcome := r;
                     session_after := with_messages l' s;
                     effects := (shown ++ evs)%list |}
              | None =>
                  {| outcome := Ok tt; session_after := s; effects := [] |}
              end
            else
              {| outcome := Ok tt;
                 session_after := with_messages l s;
                 effects := shown |}
        end
    end
  else
    {| outcome := Raise (AssertionError assert_message);
       session_after := s;
       effects := sidebar i |}.

End Runtime.

End GenieAI.

(** ** pages/Dashboard.py *)

Module Dashboard.

Definition CATALOG : string := "business_intelligence_systems".
Definition SCHEMA : string := "03_Gold_Retail_Banking".

Definition assert_message : string :=
  "DATABRICKS_WAREHOUSE_ID must be set in app.yaml or .env".

Definition demographics_query : string :=
  nl ++ "    SELECT *" ++ nl
  ++ "    FROM " ++ CATALOG ++ "." ++ SCHEMA
  ++ ".kpi_client_demographics_geographics" ++ nl
  ++ "    ".

Definition cards_query : string :=
  nl ++ "    SELECT " ++ nl
  ++ "        card_type, " ++ nl
  ++ "        COUNT(1) as card_count " ++ nl
  ++ "    FROM " ++ CATALOG ++ "." ++ SCHEMA ++ ".kpi_client_card_profile" ++ nl
  ++ "    GROUP BY card_type" ++ nl
  ++ "    ORDER BY card_count DESC" ++ nl
  ++ "    ".

Definition transactions_query : string :=
  nl ++ "    SELECT *" ++ nl
  ++ "    FROM " ++ CATALOG ++ "." ++ SCHEMA ++ ".kpi_completedtrans_monthly" ++ nl
  ++ "    ORDER BY kpi_month" ++ nl
  ++ "    ".

Definition crm_query : string :=
  nl ++ "    SELECT *" ++ nl
  ++ "    FROM " ++ CATALOG ++ "." ++ SCHEMA ++ ".crm_calls_by_hour" ++ nl
  ++ "    ORDER BY hour" ++ nl
  ++ "    ".

Definition complaints_query : string :=
  nl ++ "    SELECT *" ++ nl
  ++ "    FROM " ++ CATALOG ++ "." ++ SCHEMA ++ ".crm_complaints_by_product" ++ nl
  ++ "    ORDER BY count DESC" ++ nl
  ++ "    ".

(** What a run shows or asks. *)
Inductive event : Type :=
| SqlQuery (http_path query : string)
| Render (widget text : string)
| Metric (label text : string)
| Chart (title : string).

Definition is_sql (e : event) : bool :=
  match e with SqlQuery _ _ => true | _ => false end.

Definition sql_calls (tr : list event) : nat := List.length (filter is_sql tr).

(** The cells of a table are whatever the warehouse returns.  What pandas
    and Python compute from cells is theirs: the fields of this record, each
    free to raise where the library can.  The embedding follows a table
    through every step that needs a column to exist or a row to be there;
    what a chart draws is not represented. *)
Record frame_ops (cell : Type) : Type := {
  null : cell;
  cell_eqb : cell -> cell -> bool;
  to_datetime : cell -> result (option Z);
  sorted_unique : list cell -> result (list cell);
  col_sum : list cell -> result cell;
  format_cell : string -> cell -> result string
}.
Arguments null {cell} f.
Arguments cell_eqb {cell} f _ _.
Arguments to_datetime {cell} f _.
Arguments sorted_unique {cell} f _.
Arguments col_sum {cell} f _.
Arguments format_cell {cell} f _ _.

Section Frames.
Context {cell : Type}.
Variable ops : frame_ops cell.

Record table : Type := {
  columns : list string;
  rows : list (list cell)
}.

Fixpoint index_of (name : string) (cols : list string) : option nat :=
  match cols with
  | [] => None
  | c :: rest =>
      if String.eqb name c then Some O
      else match index_of name rest with
           | Some k => Some (S k)
           | None => None
           end
  end.

Definition has_column (t : table) (name : string) : bool :=
  match index_of name (columns t) with Some _ => true | None => false end.

(** [row[name]], for a row of [t]. *)
Definition row_get (t : table) (row : list cell) (name : string)
  : result cell :=
  match index_of name (columns t) with
  | Some k => Ok (nth k row (null ops))
  | None => Raise (KeyError name)
  end.

(** [t[name]] *)
Definition column (t : table) (name : string) : result (list cell) :=
  match index_of name (columns t) with
  | Some k => Ok (map (fun row => nth k row (null ops)) (rows t))
  | None => Raise (KeyError name)
  end.

(** [t.groupby(by)[val].sum().reset_index()], as far as it can fail on a
    missing column. *)
Definition grouped_sum (t : table) (by_ val : string) : result unit :=
  _ <- column t by_ ;;
  _ <- column t val ;;
  ret tt.

(** The column arguments of a Plotly Express chart over [t]. *)
Fixpoint chart_columns (t : table) (args : list (string * string))
  : result unit :=
  match args with
  | [] => Ok tt
  | (arg, name) :: rest =>
      if has_column t name then chart_columns t rest
      else Raise (ValueError
                    ("Value of '" ++ arg
                     ++ "' is not the name of a column in 'data_frame'"))
  end.

(** [t[mask]] *)
Fixpoint select {A} (mask : list bool) (l : list A) : list A :=
  match mask, l with
  | b :: mask', x :: l' => if b then x :: select mask' l' else select mask' l'
  | _, _ => []
  end.

(** [.iloc[0]] *)
Definition iloc0 {A} (l : list A) : result A :=
  match l with
  | x :: _ => Ok x
  | [] => Raise (IndexError "single positional indexer is out-of-bounds")
  end.

(** [.max()] of a datetime column: [NaT] ([None]) when no month is set. *)
Fixpoint max_month (months : list (option Z)) : option Z :=
  match months with
  | [] => None
  | m :: rest =>
      match m, max_month rest with
      | Some a, Some b => Some (Z.max a b)
      | Some a, None => Some a
      | None, r => r
      end
  end.

(** [month == latest]; [NaT] equals nothing. *)
Definition month_is (latest month : option Z) : bool :=
  match latest, month with
  | Some a, Some b => Z.eqb a b
  | _, _ => false
  end.

(** The process-wide cache of [st.cache_data]: per function, the value and
    when it was stored. *)
Record world : Type := {
  cache : list (string * (table * Z));
  clock : Z;
  trace : list event
}.

Record run_input : Type := {
  environ : string -> option string;
  dotenv : string -> option string;
  sql_answer : string -> result table;
  sql_seconds : string -> nat;
  multiselect_answer : option (list cell)
}.

Definition getenv (i : run_input) (k : string) : option string :=
  match environ i k with
  | Some v => Some v
  | None => dotenv i k
  end.

Definition emit (e : event) : M world unit :=
  modify (fun w => {| cache := cache w; clock := clock w;
                      trace := (trace w ++ [e])%list |}).

Definition tick (seconds : nat) : M world unit :=
  modify (fun w => {| cache := cache w;
                      clock := (clock w + Z.of_nat seconds)%Z;
                      trace := trace w |}).

Fixpoint cache_lookup (key : string) (c : list (string * (table * Z)))
  : option (table * Z) :=
  match c with
  | [] => None
  | (k, v) :: rest => if String.eqb key k then Some v else cache_lookup key rest
  end.

Fixpoint cache_store (key : string) (v : table * Z)
    (c : list (string * (table * Z))) : list (string * (table * Z)) :=
  match c with
  | [] => [(key, v)]
  | (k, old) :: rest =>
      if String.eqb key k then (k, v) :: rest
      else (k, old) :: cache_store key v rest
  end.

(** [f"/sql/1.0/warehouses/{os.getenv('DATABRICKS_WAREHOUSE_ID')}"] *)
Definition http_path (i : run_input) : string :=
  "/sql/1.0/warehouses/"
  ++ match getenv i "DATABRICKS_WAREHOUSE_ID" with
     | Some s => s
     | None => "None"
     end.

(** [sqlQuery(query)]: one connection, one statement.  The outcome, and
    how long it takes, is the warehouse's. *)
Definition sqlQuery (i : run_input) (query : string) : M world table :=
  emit (SqlQuery (http_path i) query) ;;
  tick (sql_seconds i query) ;;
  lift (sql_answer i query).

(** [@st.cache_data(ttl=...)] on a function without arguments: an entry
    younger than [ttl] is returned as it is; otherwise the function runs
    and what it returns is stored with the time of storing.  Nothing is
    stored when the function raises. *)
Definition cache_data (ttl : Z) (key : string) (body : M world table)
  : M world table :=
  let recompute :=
    t <- body ;;
    modify (fun w => {| cache := cache_store key (t, clock w) (cache w);
                        clock := clock w; trace := trace w |}) ;;
    ret t in
  w <- get ;;
  match cache_lookup key (cache w) with
  | Some (t, stored) =>
      if (clock w <? stored + ttl)%Z then ret t else recompute
  | None => recompute
  end.

(** The cache holds an entry for [key] that is younger than [ttl]. *)
Definition fresh_entry (ttl : Z) (key : string) (w : world) : bool :=
  match cache_lookup key (cache w) with
  | Some (_, stored) => (clock w <? stored + ttl)%Z
  | None => false
  end.

Definition get_demographics_geo (i : run_input) : M world table :=
  cache_data 300 "get_demographics_geo" (sqlQuery i demographics_query).

Definition get_card_distribution (i : run_input) : M world table :=
  cache_data 300 "get_card_distribution" (sqlQuery i cards_query).

Definition get_monthly_transactions (i : run_input) : M world table :=
  cache_data 300 "get_monthly_transactions" (sqlQuery i transactions_query).

Definition get_crm_stats (i : run_input) : M world table :=
  cache_data 300 "get_crm_stats" (sqlQuery i crm_query).

Definition get_complaints_stats (i : run_input) : M world table :=
  cache_data 300 "get_complaints_stats" (sqlQuery i complaints_query).

(** The five named query functions: cache key, statement, function. *)
Definition loaders
  : list (string * string * (run_input -> M world table)) :=
  [ ("get_demographics_geo", demographics_query, get_demographics_geo);
    ("get_card_distribution", cards_query, get_card_distribution);
    ("get_monthly_transactions", transactions_query, get_monthly_transactions);
    ("get_crm_stats", crm_query, get_crm_stats);
    ("get_complaints_stats", complaints_query, get_complaints_stats) ].

(** Lines 100-104: the five tables of a run. *)
Record frames : Type := {
  df_demo : table;
  df_trans : table;
  df_cards : table;
  df_crm_calls : table;
  df_complaints : table
}.

Definition load_data (i : run_input) : M world frames :=
  demo <- get_demographics_geo i ;;
  trans <- get_monthly_transactions i ;;
  cards <- get_card_distribution i ;;
  crm_calls <- get_crm_stats i ;;
  complaints <- get_complaints_stats i ;;
  ret {| df_demo := demo; df_trans := trans; df_cards := cards;
         df_crm_calls := crm_calls; df_complaints := complaints |}.

(** Lines 107-114: the state filter of the sidebar. *)
Definition multiselect (i : run_input) (label : string)
    (options default : list cell) : M world (list cell) :=
  emit (Render "sidebar.multiselect" label) ;;
  ret match multiselect_answer i with
      | Some chosen => chosen
      | None => default
      end.

Definition isin (chosen : list cell) (c : cell) : bool :=
  existsb (cell_eqb ops c) chosen.

Definition filter_states (i : run_input) (demo : table) : M world table :=
  states <- lift (column demo "state_name") ;;
  all_states <- lift (sorted_unique ops states) ;;
  selected_states <- multiselect i "Select States (Client View)"
                       all_states (firstn 5 all_states) ;;
  match selected_states with
  | [] => ret demo
  | _ :: _ =>
      states' <- lift (column demo "state_name") ;;
      ret {| columns := columns demo;
             rows := select (map (isin selected_states) states') (rows demo) |}
  end.

(** Lines 126-186. *)
Definition tab_clients (demo_filtered cards : table) : M world unit :=
  emit (Render "subheader" "Client Demographics & Card Portfolio") ;;
  counts <- lift (column demo_filtered "client_count") ;;
  total_clients_in_view <- lift (col_sum ops counts) ;;
  total_text <- lift (format_cell ops "," total_clients_in_view) ;;
  emit (Metric "Total Clients (Selected States)" total_text) ;;
  lift (grouped_sum demo_filtered "age_group" "client_count") ;;
  emit (Chart "Client Distribution by Age Group") ;;
  lift (grouped_sum demo_filtered "sex" "client_count") ;;
  emit (Chart "Client Distribution by Gender") ;;
  emit (Render "divider" "") ;;
  lift (grouped_sum demo_filtered "state_name" "client_count") ;;
  emit (Chart "Top States by Client Count") ;;
  lift (chart_columns cards
          [("x", "card_type"); ("y", "card_count"); ("color", "card_type")]) ;;
  emit (Chart "Credit Card Portfolio Mix").

(** Lines 189-244. *)
Definition tab_trans (trans : table) : M world unit :=
  emit (Render "subheader" "Financial Performance Over Time") ;;
  raw_months <- lift (column trans "kpi_month") ;;
  months <- lift (mapM (to_datetime ops) raw_months) ;;
  let latest_month := max_month months in
  latest_data <- lift (iloc0 (select (map (month_is latest_month) months)
                                     (rows trans))) ;;
  total_amount <- lift (row_get trans latest_data "total_amount") ;;
  volume_text <- lift (format_cell ops ",.0f" total_amount) ;;
  emit (Metric "Latest Monthly Volume" ("$" ++ volume_text)) ;;
  transaction_count <- lift (row_get trans latest_data "transaction_count") ;;
  count_text <- lift (format_cell ops "," transaction_count) ;;
  emit (Metric "Latest Tx Count" count_text) ;;
  balance <- lift (row_get trans latest_data "average_ending_balance") ;;
  balance_text <- lift (format_cell ops ",.0f" balance) ;;
  emit (Metric "Avg Ending Balance" ("$" ++ balance_text)) ;;
  _ <- lift (column trans "kpi_month") ;;
  _ <- lift (column trans "total_amount") ;;
  _ <- lift (column trans "kpi_month") ;;
  _ <- lift (column trans "transaction_count") ;;
  emit (Chart "Monthly Transaction Volume vs Count") ;;
  lift (chart_columns trans
          [("x", "kpi_month"); ("y", "average_ending_balance")]) ;;
  emit (Chart "Average Account Balance Trends") ;;
  emit (Render "expander" "🔍 View Transaction Data") ;;
  emit (Render "dataframe" "df_trans").

(** Lines 247-283. *)
Definition tab_crm (crm_calls complaints : table) : M world unit :=
  emit (Render "subheader" "Customer Support Analysis") ;;
  lift (chart_columns crm_calls
          [("x", "hour"); ("y", "count"); ("color", "average_time")]) ;;
  emit (Chart "Call Center Volume by Hour of Day") ;;
  emit (Render "caption" "Bar color indicates average call duration (seconds).") ;;
  lift (chart_columns complaints
          [("x", "count"); ("y", "product"); ("color", "count")]) ;;
  emit (Chart "Complaints by Product Category") ;;
  emit (Render "expander" "🔍 View CRM Source Data") ;;
  emit (Render "write" "Calls by Priority") ;;
  emit (Render "dataframe" "df_crm_calls").

(** Lines 107-283: everything after the five tables are there. *)
Definition render (i : run_input) (f : frames) : M world unit :=
  demo_filtered <- filter_states i (df_demo f) ;;
  emit (Render "title" "🏦 Retail Banking Insights") ;;
  emit (Render "markdown" "Overview of Client Demographics, Transaction Trends, and CRM Performance based on Gold Layer data.") ;;
  emit (Render "tabs" "👥 Clients & Accounts, 💳 Transaction Trends, 📞 CRM & Support") ;;
  tab_clients demo_filtered (df_cards f) ;;
  tab_trans (df_trans f) ;;
  tab_crm (df_crm_calls f) (df_complaints f).

(** Lines 14-104: the start of a run, up to the five tables. *)
Definition startup (i : run_input) : M world frames :=
  _ <- assert_truthy (getenv i "DATABRICKS_WAREHOUSE_ID") assert_message ;;
  emit (Render "set_page_config" "Retail Banking Dashboard") ;;
  emit (Render "sidebar.title" "Filters") ;;
  load_data i.

(** One run of the script. *)
Definition page (i : run_input) : M world unit :=
  f <- startup i ;;
  render i f.

(** What the page needs of the transactions table once its first tab is
    drawn, and of all five tables. *)
Definition has_columns (t : table) (names : list string) : bool :=
  forallb (has_column t) names.

Definition non_degenerate (f : frames) : Prop :=
  has_columns (df_demo f) ["state_name"; "client_count"; "age_group"; "sex"] = true
  /\ has_columns (df_cards f) ["card_type"; "card_count"] = true
  /\ has_columns (df_trans f)
       ["kpi_month"; "total_amount"; "transaction_count";
        "average_ending_balance"] = true
  /\ rows (df_trans f) <> []
  /\ has_columns (df_crm_calls f) ["hour"; "count"; "average_time"] = true
  /\ has_columns (df_complaints f) ["product"; "count"] = true.

End Frames.

Arguments table cell : clear implicits.
Arguments world cell : clear implicits.
Arguments run_input cell : clear implicits.
Arguments frames cell : clear implicits.

End Dashboard.

(** ** Concrete inputs

    Runs to evaluate the pages on: a runtime, headers, answers of the
    collaborators, and a small warehouse. *)

Module Samples.
Import Chat.

(** The runtime: a [str] in single quotes without escapes, a [float] with
    two decimals. *)
Definition repr_str (s : string) : string := "'" ++ s ++ "'".
Definition repr_float (f : spec_float) : string := format_float false 2 f.

Definition repr_message (c : GenieAI.message_class) (body : GenieAI.content)
  : string :=
  match c with
  | GenieAI.HumanMessage => "HumanMessage"
  | GenieAI.AIMessage => "AIMessage"
  | GenieAI.OtherMessage => "BaseMessage"
  end
  ++ "(content="
  ++ repr repr_str repr_float (GenieAI.content_value body)
  ++ ")".

Definition only (k v : string) : string -> option string :=
  fun key => if String.eqb key k then Some v else None.

Definition nothing : string -> option string := fun _ => None.

(** A snapshot without accounts and without transactions. *)
Definition empty_snapshot : value :=
  VDict [ ("name", VStr "Ann");
          ("email", VStr "ann@example.com");
          ("user_id", VInt 7);
          ("accounts", VDict []);
          ("recent_transactions", VList []);
          ("preferences", VDict [ ("contact_method", VStr "email");
                                  ("budgeting_style", VStr "monthly") ]) ].

(** A snapshot with two accounts and two transactions; 1234.5 is
    [2469 * 2^-1] and 3.5 is [7 * 2^-1]. *)
Definition snapshot : value :=
  VDict [ ("name", VStr "Ann");
          ("email", VStr "ann@example.com");
          ("user_id", VInt 7);
          ("accounts", VDict [ ("Checking", VFloat (S754_finite false 2469 (-1)));
                               ("Savings", VInt 1000000) ]);
          ("recent_transactions",
           VList [ VDict [("merchant", VStr "Shop"); ("amount", VInt 12)];
                   VDict [("merchant", VStr "Cafe");
                          ("amount", VFloat (S754_finite false 7 (-1)))] ]);
          ("preferences", VDict [ ("contact_method", VStr "email");
                                  ("budgeting_style", VStr "monthly") ]) ].


Definition chat_hello : SimpleChat.run_input :=
  {| SimpleChat.environ := only "SERVING_ENDPOINT" "my-endpoint";
     SimpleChat.headers := only "X-Forwarded-Email" "ann@example.com";
     SimpleChat.is_endpoint_supported_answer := Ok true;
     SimpleChat.chat_input_answer := Some "Hello";
     SimpleChat.query_endpoint_answer := Raise (RemoteError "timeout") |}.


(** A composer that succeeds, to reach the endpoint call. *)
Definition fixed_prompt (user_info : value) : result string :=
  Ok "You are a helpful assistant.".

(** GenieAI: the agent raises; the agent answers without an AI message; the
    space id is not set. *)
Definition genie_fails : GenieAI.run_input :=
  {| GenieAI.environ := only "GENIE_ID" "space-1";
     GenieAI.dotenv := nothing;
     GenieAI.headers := nothing;
     GenieAI.build_agent_answer := Ok tt;
     GenieAI.chat_input_answer := Some "Hello";
     GenieAI.invoke_answer := Raise (RemoteError "timeout") |}.

Definition no_ai_result : GenieAI.agent_result :=
  GenieAI.ResultDict
    [ ("messages",
       GenieAI.Turns [GenieAI.Message GenieAI.HumanMessage (GenieAI.Text "Hello")]) ].

Definition genie_no_ai : GenieAI.run_input :=
  {| GenieAI.environ := nothing;
     GenieAI.dotenv := only "GENIE_ID" "space-1";
     GenieAI.headers := nothing;
     GenieAI.build_agent_answer := Ok tt;
     GenieAI.chat_input_answer := Some "Hello";
     GenieAI.invoke_answer := Ok no_ai_result |}.


(** The dashboard: cells are plain values. *)
Definition cell_eqb (a b : value) : bool :=
  match a, b with
  | VStr x, VStr y => String.eqb x y
  | VInt x, VInt y => Z.eqb x y
  | _, _ => false
  end.

Definition to_datetime (c : value) : result (option Z) :=
  match c with
  | VInt z => Ok (Some z)
  | VNone => Ok None
  | _ => Raise (ValueError "Unknown datetime string format")
  end.

Fixpoint insert_sorted (s : string) (l : list string) : list string :=
  match l with
  | [] => [s]
  | x :: rest =>
      match String.compare s x with
      | Lt => s :: l
      | Eq => l
      | Gt => x :: insert_sorted s rest
      end
  end.

Definition text_of (c : value) : result string :=
  match c with
  | VStr s => Ok s
  | _ => Raise (TypeError "'<' not supported between instances")
  end.

Definition sorted_unique (l : list value) : result (list value) :=
  texts <- mapM text_of l ;;
  ret (map VStr (fold_right insert_sorted [] texts)).

Definition int_of (c : value) : result Z :=
  match c with
  | VInt z => Ok z
  | _ => Raise (TypeError "unsupported operand type(s) for +")
  end.

Definition col_sum (l : list value) : result value :=
  ints <- mapM int_of l ;;
  ret (VInt (fold_right Z.add 0%Z ints)).

Definition format_cell (spec : string) (c : value) : result string :=
  if String.eqb spec ",.0f" then format_fixed true 0 c
  else
    match c with
    | VInt z => Ok (sign_text (z <? 0)%Z
                    ++ group_thousands (decimal_N (Z.abs_N z)))
    | _ => Raise (ValueError "Cannot specify ',' with this value")
    end.

Definition ops : Dashboard.frame_ops value :=
  {| Dashboard.null := VNone;
     Dashboard.cell_eqb := cell_eqb;
     Dashboard.to_datetime := to_datetime;
     Dashboard.sorted_unique := sorted_unique;
     Dashboard.col_sum := col_sum;
     Dashboard.format_cell := format_cell |}.

Definition demographics : Dashboard.table value :=
  Dashboard.Build_table
    ["state_name"; "age_group"; "sex"; "client_count"]
    [ [VStr "Texas"; VStr "30-39"; VStr "F"; VInt 1200];
      [VStr "Ohio"; VStr "40-49"; VStr "M"; VInt 800] ].

Definition cards : Dashboard.table value :=
  Dashboard.Build_table
    ["card_type"; "card_count"]
    [ [VStr "gold"; VInt 40]; [VStr "classic"; VInt 25] ].

Definition transactions : Dashboard.table value :=
  Dashboard.Build_table
    ["kpi_month"; "total_amount"; "transaction_count";
     "average_ending_balance"]
    [ [VInt 202401; VInt 150000; VInt 3100; VInt 5200];
      [VInt 202402; VInt 175500; VInt 3300; VInt 5350] ].

Definition no_transactions : Dashboard.table value :=
  Dashboard.Build_table (Dashboard.columns transactions) [].

Definition crm_calls : Dashboard.table value :=
  Dashboard.Build_table
    ["hour"; "count"; "average_time"]
    [ [VInt 9; VInt 31; VInt 240] ].

Definition complaints : Dashboard.table value :=
  Dashboard.Build_table
    ["product"; "count"]
    [ [VStr "Credit card"; VInt 12] ].

(** What the warehouse returns for each of the five statements. *)
Definition warehouse (trans : Dashboard.table value) (query : string)
  : result (Dashboard.table value) :=
  if String.eqb query Dashboard.demographics_query then Ok demographics
  else if String.eqb query Dashboard.cards_query then Ok cards
  else if String.eqb query Dashboard.transactions_query then Ok trans
  else if String.eqb query Dashboard.crm_query then Ok crm_calls
  else if String.eqb query Dashboard.complaints_query then Ok complaints
  else Raise (RemoteError "TABLE_OR_VIEW_NOT_FOUND").

(** The warehouse id is set, the host and the token are not. *)
Definition dashboard_run : Dashboard.run_input value :=
  {| Dashboard.environ := only "DATABRICKS_WAREHOUSE_ID" "wh-1";
     Dashboard.dotenv := nothing;
     Dashboard.sql_answer := warehouse transactions;
     Dashboard.sql_seconds := fun _ => 2;
     Dashboard.multiselect_answer := None |}.

Definition dashboard_no_transactions : Dashboard.run_input value :=
  {| Dashboard.environ := only "DATABRICKS_WAREHOUSE_ID" "wh-1";
     Dashboard.dotenv := nothing;
     Dashboard.sql_answer := warehouse no_transactions;
     Dashboard.sql_seconds := fun _ => 2;
     Dashboard.multiselect_answer := None |}.


Definition tables_without_transactions : Dashboard.frames value :=
  {| Dashboard.df_demo := demographics;
     Dashboard.df_trans := no_transactions;
     Dashboard.df_cards := cards;
     Dashboard.df_crm_calls := crm_calls;
     Dashboard.df_complaints := complaints |}.

Definition cold_start : Dashboard.world value :=
  {| Dashboard.cache := []; Dashboard.clock := 1000; Dashboard.trace := [] |}.


(** The chat pages on the sample runtime. *)
Definition chat_run : SimpleChat.run_input -> session_state -> run_result :=
  SimpleChat.run repr_str repr_float.

Definition genie_run : GenieAI.run_input -> session_state -> run_result :=
  GenieAI.run repr_str repr_float repr_message.

End Samples.

(** ** Further notions to state what the pages do *)

Module More.
Import Chat.

Definition is_build_agent (e : event) : bool :=
  match e with BuildAgent _ _ _ => true | _ => false end.

(** The prompts the runs of a SimpleChat session take in, in order. *)
Definition prompts_taken (inputs : list SimpleChat.run_input) : list string :=
  flat_map (fun i =>
              if SimpleChat.reaches_chat_input i
                 && truthy (SimpleChat.chat_input_answer i)
              then match SimpleChat.chat_input_answer i with
                   | Some p => [p]
                   | None => []
                   end
              else []) inputs.

(** The text [build_system_prompt] returns, by its variable parts. *)
Definition prompt_text
    (name email user_id n_accounts accounts_str transactions_str
     contact_method budgeting_style : string) : string :=
  String.concat nl
    [ "";
      "You are a helpful assistant. Always respond clearly, concisely, and provide actionable information when appropriate.";
      "";
      "# User Information";
      "Name: " ++ name;
      "Email: " ++ email;
      "User ID: " ++ user_id;
      "";
      "Number of banking accounts: " ++ n_accounts;
      "Account balances:";
      accounts_str;
      "";
      "Recent Transactions:";
      transactions_str;
      "";
      "# Banking Preferences";
      "Preferred Contact Method: " ++ contact_method;
      "Budgeting Style: " ++ budgeting_style;
      "";
      "# Context for RAG";
      "You have access to the user's banking info above. When answering questions, reference this data when relevant. ";
      "If the user asks about account balances, recent transactions, or budgeting advice, provide the info from above. ";
      "Do not make up other sensitive data.";
      "" ].

(** The fixed instructions every prompt opens and closes with. *)
Definition preamble : string :=
  nl ++ "You are a helpful assistant. Always respond clearly, concisely, and provide actionable information when appropriate."
  ++ nl ++ nl ++ "# User Information" ++ nl ++ "Name: ".

Definition grounding : string :=
  nl ++ "# Context for RAG" ++ nl
  ++ "You have access to the user's banking info above. When answering questions, reference this data when relevant. " ++ nl
  ++ "If the user asks about account balances, recent transactions, or budgeting advice, provide the info from above. " ++ nl
  ++ "Do not make up other sensitive data." ++ nl.

(** The five statements in the order the script loads the tables (lines
    100-104 of the dashboard). *)
Definition script_order : list string :=
  [ Dashboard.demographics_query; Dashboard.transactions_query;
    Dashboard.cards_query; Dashboard.crm_query;
    Dashboard.complaints_query ].

(** The statements of [queries] that get run when each is run only once
    those before it have returned. *)
Fixpoint attempted {A} (answer : string -> result A) (queries : list string)
  : list string :=
  match queries with
  | [] => []
  | q :: rest =>
      q :: match answer q with
           | Ok _ => attempted answer rest
           | Raise _ => []
           end
  end.

Fixpoint first_failure {A} (answer : string -> result A)
    (queries : list string) : option exn :=
  match queries with
  | [] => None
  | q :: rest =>
      match answer q with
      | Ok _ => first_failure answer rest
      | Raise e => Some e
      end
  end.

(** Every one of the five cache entries is younger than 300 seconds. *)
Definition warm {cell} (w : Dashboard.world cell) : Prop :=
  forall key query (f : Dashboard.run_input cell
                        -> M (Dashboard.world cell) (Dashboard.table cell)),
    In (key, query, f) (@Dashboard.loaders cell) ->
    Dashboard.fresh_entry 300 key w = true.

(** None of them is. *)
Definition cold {cell} (w : Dashboard.world cell) : Prop :=
  forall key query (f : Dashboard.run_input cell
                        -> M (Dashboard.world cell) (Dashboard.table cell)),
    In (key, query, f) (@Dashboard.loaders cell) ->
    Dashboard.fresh_entry 300 key w = false.

(** The table the cache holds for a function, whatever its age. *)
Definition cached {cell} (key : string) (w : Dashboard.world cell)
  : option (Dashboard.table cell) :=
  option_map fst (Dashboard.cache_lookup key (Dashboard.cache w)).

(** A step of the page that runs no SQL and leaves cache and clock alone. *)
Definition quiet {cell A} (c : M (Dashboard.world cell) A) : Prop :=
  forall w,
    Dashboard.cache (snd (c w)) = Dashboard.cache w
    /\ Dashboard.clock (snd (c w)) = Dashboard.clock w
    /\ filter Dashboard.is_sql (Dashboard.trace (snd (c w)))
       = filter Dashboard.is_sql (Dashboard.trace w).

(** The cell operations never raise. *)
Definition never_raise {cell} (ops : Dashboard.frame_ops cell) : Prop :=
  (forall c, is_ok (Dashboard.to_datetime ops c) = true)
  /\ (forall l, is_ok (Dashboard.sorted_unique ops l) = true)
  /\ (forall l, is_ok (Dashboard.col_sum ops l) = true)
  /\ (forall spec c, is_ok (Dashboard.format_cell ops spec c) = true).

(** Some row of the table has a month that is not [NaT]. *)
Definition dated {cell} (ops : Dashboard.frame_ops cell)
    (t : Dashboard.table cell) : Prop :=
  exists row c m,
    In row (Dashboard.rows t)
    /\ Dashboard.row_get ops t row "kpi_month" = Ok c
    /\ Dashboard.to_datetime ops c = Ok (Some m).

End More.

(** ** Further sample runs *)

Module Cases.
Import Chat Samples.

(** A session in which one turn was answered. *)
Definition greeted : session_state :=
  {| messages := Some [user_message "Hello"; assistant_message (VStr "Hi")];
     visibility := Some "visible";
     disabled := Some false |}.

Definition greeted_world : world := {| session := greeted; trace := [] |}.

Definition chat_with (prompt : option string) (supported : result bool)
    (answer : result value) : SimpleChat.run_input :=
  {| SimpleChat.environ := only "SERVING_ENDPOINT" "my-endpoint";
     SimpleChat.headers := only "X-Forwarded-Email" "ann@example.com";
     SimpleChat.is_endpoint_supported_answer := supported;
     SimpleChat.chat_input_answer := prompt;
     SimpleChat.query_endpoint_answer := answer |}.

(** SimpleChat: the endpoint answers with a content; it answers without
    one; nothing is submitted; the capability check fails. *)
Definition chat_answered : SimpleChat.run_input :=
  chat_with (Some "Hello") (Ok true) (Ok (VDict [("content", VStr "Hi")])).

Definition chat_malformed : SimpleChat.run_input :=
  chat_with (Some "Hello") (Ok true) (Ok (VDict [("text", VStr "Hi")])).

Definition chat_idle : SimpleChat.run_input :=
  chat_with None (Ok true) (Raise (RemoteError "unreachable")).

Definition chat_check_fails : SimpleChat.run_input :=
  chat_with (Some "Hello") (Raise (RemoteError "forbidden"))
    (Raise (RemoteError "unreachable")).

(** GenieAI: the agent answers with two AI messages and a tool message
    after them. *)
Definition ai_result : GenieAI.agent_result :=
  GenieAI.ResultDict
    [ ("messages",
       GenieAI.Turns
         [ GenieAI.Message GenieAI.HumanMessage (GenieAI.Text "Hello");
           GenieAI.Message GenieAI.AIMessage (GenieAI.Text "Looking it up.");
           GenieAI.Message GenieAI.AIMessage (GenieAI.Text "Sales rose.");
           GenieAI.Message GenieAI.OtherMessage (GenieAI.Text "rows: 3") ]) ].

(** A result whose messages entry is a number. *)
Definition odd_result : GenieAI.agent_result :=
  GenieAI.ResultDict [("messages", GenieAI.Data (VInt 3))].

Definition genie_with (prompt : option string) (built : result unit)
    (answer : result GenieAI.agent_result) : GenieAI.run_input :=
  {| GenieAI.environ := only "GENIE_ID" "space-1";
     GenieAI.dotenv := nothing;
     GenieAI.headers := nothing;
     GenieAI.build_agent_answer := built;
     GenieAI.chat_input_answer := prompt;
     GenieAI.invoke_answer := answer |}.

Definition genie_answered : GenieAI.run_input :=
  genie_with (Some "Hello") (Ok tt) (Ok ai_result).

Definition genie_idle : GenieAI.run_input :=
  genie_with None (Ok tt) (Ok ai_result).

Definition genie_build_fails : GenieAI.run_input :=
  genie_with (Some "Hello") (Raise (RemoteError "no such space"))
    (Ok ai_result).

(** A snapshot whose second balance is kept as text. *)
Definition text_snapshot : value :=
  VDict [ ("name", VStr "Ann");
          ("accounts", VDict [ ("Checking", VInt 10);
                               ("Savings", VStr "1000");
                               ("Brokerage", VInt 5) ]) ].

(** The prompt composed from [snapshot]. *)
Definition snapshot_prompt : string :=
  match SimpleChat.build_system_prompt repr_str repr_float snapshot with
  | Ok text => text
  | Raise _ => ""
  end.

(** The dashboard: a run that selects one state; a warehouse that is
    down; a transactions table whose months are all missing. *)
Definition dashboard_ohio : Dashboard.run_input value :=
  {| Dashboard.environ := only "DATABRICKS_WAREHOUSE_ID" "wh-1";
     Dashboard.dotenv := nothing;
     Dashboard.sql_answer := warehouse transactions;
     Dashboard.sql_seconds := fun _ => 2;
     Dashboard.multiselect_answer := Some [VStr "Ohio"] |}.

Definition dashboard_down : Dashboard.run_input value :=
  {| Dashboard.environ := only "DATABRICKS_WAREHOUSE_ID" "wh-1";
     Dashboard.dotenv := nothing;
     Dashboard.sql_answer := fun _ => Raise (RemoteError "unavailable");
     Dashboard.sql_seconds := fun _ => 30;
     Dashboard.multiselect_answer := None |}.

Definition undated_transactions : Dashboard.table value :=
  Dashboard.Build_table (Dashboard.columns transactions)
    [ [VNone; VInt 150000; VInt 3100; VInt 5200];
      [VNone; VInt 175500; VInt 3300; VInt 5350] ].

Definition sample_frames : Dashboard.frames value :=
  {| Dashboard.df_demo := demographics;
     Dashboard.df_trans := transactions;
     Dashboard.df_cards := cards;
     Dashboard.df_crm_calls := crm_calls;
     Dashboard.df_complaints := complaints |}.

(** The world after the five tables are loaded on the cold cache. *)
Definition loaded_world : Dashboard.world value :=
  snd (Dashboard.load_data dashboard_run cold_start).

(** The same cache a hundred seconds later, on an empty page. *)
Definition later_world : Dashboard.world value :=
  {| Dashboard.cache := Dashboard.cache loaded_world;
     Dashboard.clock := 1100;
     Dashboard.trace := [] |}.

(** The world after the demographics statement failed on the cold cache. *)
Definition failed_world : Dashboard.world value :=
  snd (Dashboard.get_demographics_geo dashboard_down cold_start).

(** Cells that are integers throughout (states and products by code), with
    operations that always return. *)
Fixpoint insert_code (z : Z) (l : list Z) : list Z :=
  match l with
  | [] => [z]
  | x :: rest =>
      match (z ?= x)%Z with
      | Lt => z :: l
      | Eq => l
      | Gt => x :: insert_code z rest
      end
  end.

Definition integer_ops : Dashboard.frame_ops Z :=
  {| Dashboard.null := 0%Z;
     Dashboard.cell_eqb := Z.eqb;
     Dashboard.to_datetime := fun z => Ok (Some z);
     Dashboard.sorted_unique := fun l => Ok (fold_right insert_code [] l);
     Dashboard.col_sum := fun l => Ok (fold_right Z.add 0%Z l);
     Dashboard.format_cell :=
       fun _ z => Ok (sign_text (z <? 0)%Z
                      ++ group_thousands (decimal_N (Z.abs_N z))) |}.

Definition integer_frames : Dashboard.frames Z :=
  {| Dashboard.df_demo :=
       Dashboard.Build_table
         ["state_name"; "age_group"; "sex"; "client_count"]
         [ [48; 3; 1; 1200]; [39; 4; 2; 800] ]%Z;
     Dashboard.df_trans :=
       Dashboard.Build_table
         ["kpi_month"; "total_amount"; "transaction_count";
          "average_ending_balance"]
         [ [202401; 150000; 3100; 5200];
           [202402; 175500; 3300; 5350] ]%Z;
     Dashboard.df_cards :=
       Dashboard.Build_table ["card_type"; "card_count"]
         [ [1; 40]; [2; 25] ]%Z;
     Dashboard.df_crm_calls :=
       Dashboard.Build_table ["hour"; "count"; "average_time"]
         [ [9; 31; 240] ]%Z;
     Dashboard.df_complaints :=
       Dashboard.Build_table ["product"; "count"] [ [7; 12] ]%Z |}.

Definition integer_run : Dashboard.run_input Z :=
  {| Dashboard.environ := only "DATABRICKS_WAREHOUSE_ID" "wh-1";
     Dashboard.dotenv := nothing;
     Dashboard.sql_answer :=
       fun query =>
         if String.eqb query Dashboard.demographics_query
         then Ok (Dashboard.df_demo integer_frames)
         else if String.eqb query Dashboard.cards_query
         then Ok (Dashboard.df_cards integer_frames)
         else if String.eqb query Dashboard.transactions_query
         then Ok (Dashboard.df_trans integer_frames)
         else if String.eqb query Dashboard.crm_query
         then Ok (Dashboard.df_crm_calls integer_frames)
         else Ok (Dashboard.df_complaints integer_frames);
     Dashboard.sql_seconds := fun _ => 1;
     Dashboard.multiselect_answer := Some [39%Z] |}.

Definition integer_start : Dashboard.world Z :=
  {| Dashboard.cache := []; Dashboard.clock := 0; Dashboard.trace := [] |}.

End Cases.

(** * Theorems *)

(** ** The runtime *)

Example format_samples :
  format_fixed true 2 (VFloat (S754_finite false 5 (-1))) = Ok "2.50"
  /\ format_fixed true 2 (VInt 1234567) = Ok "1,234,567.00"
  /\ format_fixed false 2 (VInt 1234567) = Ok "1234567.00"
  /\ format_fixed true 2 (VInt (-1000)) = Ok "-1,000.00"
  /\ format_fixed true 2 (VFloat (S754_finite false 1 (-3))) = Ok "0.12"
  /\ format_fixed true 2 (VFloat (S754_finite false 3 (-3))) = Ok "0.38"
  /\ format_fixed true 2 (VFloat (S754_finite true 1 (-10))) = Ok "-0.00"
  /\ format_fixed true 2 (VInt (2 ^ 63 + 1)%Z) = Ok "9,223,372,036,854,775,808.00"
  /\ format_fixed true 2 (VInt (10 ^ 400)%Z)
     = Raise (OverflowError "int too large to convert to float")
  /\ format_fixed true 0 (VInt 999) = Ok "999".
Proof. repeat split; vm_compute; reflexivity. Qed.

Example prompt_sample :
  SimpleChat.build_system_prompt Samples.repr_str Samples.repr_float
    Samples.snapshot
  = Ok "
You are a helpful assistant. Always respond clearly, concisely, and provide actionable information when appropriate.

# User Information
Name: Ann
Email: ann@example.com
User ID: 7

Number of banking accounts: 2
Account balances:
- Checking: €1,234.50
- Savings: €1,000,000.00

Recent Transactions:
1. Shop - €12.00
2. Cafe - €3.50

# Banking Preferences
Preferred Contact Method: email
Budgeting Style: monthly

# Context for RAG
You have access to the user's banking info above. When answering questions, reference this data when relevant. 
If the user asks about account balances, recent transactions, or budgeting advice, provide the info from above. 
Do not make up other sensitive data.
".
Proof. vm_compute. reflexivity. Qed.

Example prompt_errors :
  SimpleChat.build_system_prompt Samples.repr_str Samples.repr_float
    (VDict [("accounts", VDict [("Checking", VStr "a lot")])])
  = Raise (ValueError "Unknown format code 'f' for object of type 'str'")
  /\ SimpleChat.build_system_prompt Samples.repr_str Samples.repr_float
       (VDict [("accounts", VList [])])
     = Raise (AttributeError "'list' object has no attribute 'items'")
  /\ SimpleChat.build_system_prompt Samples.repr_str Samples.repr_float
       (VDict [("accounts", VDict []); ("recent_transactions", VList [VInt 3])])
     = Raise (TypeError "'int' object is not subscriptable")
  /\ SimpleChat.build_system_prompt Samples.repr_str Samples.repr_float
       (VDict [("accounts", VDict []); ("recent_transactions", VList [])])
     = Raise (KeyError "name").
Proof. repeat split. Qed.

(** ** The chat pages: a run equals its closed form *)

Section ChatFacts.
Import Chat.

Lemma forM_replay (l : list message) (f : message -> M world unit) (w : world) :
  (forall m w', f m w' = (Ok tt, {| session := session w';
                                    trace := (trace w' ++ replay_events [m])%list |})) ->
  forM_ l f w
  = (Ok tt, {| session := session w;
               trace := (trace w ++ replay_events l)%list |}).
Proof.
  intros Hf. revert w. induction l as [|m l IH]; intros w.
  - cbn. rewrite app_nil_r. destruct w; reflexivity.
  - cbn. rewrite Hf. rewrite IH. cbn. rewrite <- !app_assoc. reflexivity.
Qed.


Lemma filter_replay (p : event -> bool) (l : list message) :
  (forall r, p (ChatMessageBox r) = false) ->
  (forall v, p (Markdown v) = false) ->
  filter p (replay_events l) = [].
Proof.
  intros Hbox Hmd. induction l as [|m l IH]; [reflexivity|].
  cbn. rewrite Hbox, Hmd. exact IH.
Qed.



Lemma conversation_with_messages (l : list message) (s : session_state) :
  conversation (with_messages l s) = l.
Proof. reflexivity. Qed.

Lemma length_render_turns (ts : list turn) :
  List.length (render_turns ts) = 2 * count_replied ts + count_unreplied ts.
Proof.
  unfold render_turns, count_replied, count_unreplied.
  induction ts as [|t ts IH]; [reflexivity|].
  cbn [flat_map filter]. rewrite length_app, IH.
  destruct t; cbn; lia.
Qed.

Lemma turns_split (ts : list turn) :
  List.length ts = count_replied ts + count_unreplied ts.
Proof.
  unfold count_replied, count_unreplied.
  induction ts as [|t ts IH]; [reflexivity|].
  destruct t; cbn; lia.
Qed.
End ChatFacts.

Ltac replay_side :=
  intros; unfold Chat.emit, modify; cbn; rewrite <- ?app_assoc; reflexivity.

Section SimpleChatFacts.
Import Chat SimpleChat.
Variable repr_str : string -> string.
Variable repr_float : spec_float -> string.

Lemma prompt_of_identity (h : string -> option string) :
  build_system_prompt repr_str repr_float (get_user_info h)
  = Raise (KeyError "accounts").
Proof. reflexivity. Qed.

Variable compose : value -> result string.

Lemma submit_with_run i ep p w l :
  messages (session w) = Some l ->
  submit_with compose i ep p w
  = let '(r, l', evs) := submitted compose i ep p l in
    (r, {| session := with_messages l' (session w);
           trace := (trace w ++ evs)%list |}).
Proof.
  intros Hl. unfold submit_with, submitted, respond, query_endpoint.
  destruct w as [[msgs vis dis] tr]. cbn in Hl. subst msgs.
  cbn. destruct (compose (get_user_info (headers i))) as [sp|e]; cbn.
  - destruct (query_endpoint_answer i) as [resp|e]; cbn.
    + destruct (getitem resp "content") as [r|e]; cbn;
        rewrite <- ?app_assoc; reflexivity.
    + rewrite <- ?app_assoc; reflexivity.
  - rewrite <- ?app_assoc; reflexivity.
Qed.

Local Arguments submit_with : simpl never.

Lemma run_with_summary i s :
  run_with compose i s = summary compose i s.
Proof.
  unfold run_with, summary, page_with, is_endpoint_supported, chat_input,
    replay_history, get_messages.
  destruct s as [msgs vis dis].
  destruct (environ i "SERVING_ENDPOINT") as [[|c ep]|]; cbn; try reflexivity.
  destruct (is_endpoint_supported_answer i) as [[|]|e]; cbn.
  - destruct vis as [v|], msgs as [l|]; cbn;
      rewrite ?forM_replay by replay_side; cbn;
      (destruct (chat_input_answer i) as [[|c' p]|]; cbn;
       [reflexivity | | reflexivity]);
      (erewrite submit_with_run by reflexivity);
      cbn; destruct (submitted compose i (String c ep) (String c' p) _)
             as [[r l'] evs]; cbn; rewrite <- ?app_assoc; reflexivity.
  - destruct vis; reflexivity.
  - reflexivity.
Qed.

(** What a submitted prompt leaves in the history. *)
Lemma submitted_history i ep p l :
  snd (fst (submitted compose i ep p l))
  = (l ++ match compose (get_user_info (headers i)) with
          | Ok _ =>
              match query_endpoint_answer i with
              | Ok response =>
                  match getitem response "content" with
                  | Ok reply => turn_messages (Replied p reply)
                  | Raise _ => turn_messages (NoReply p)
                  end
              | Raise _ => turn_messages (NoReply p)
              end
          | Raise _ => turn_messages (NoReply p)
          end)%list.
Proof.
  unfold submitted.
  destruct (compose _); [destruct (query_endpoint_answer i) as [resp|];
                         [destruct (getitem resp "content")|]|];
    cbn; rewrite <- ?app_assoc; reflexivity.
Qed.

Lemma run_with_grows i s :
  conversation (session_after (run_with compose i s))
  = (conversation s
     ++ match turn_with compose i with
        | Some t => turn_messages t
        | None => []
        end)%list.
Proof.
  rewrite run_with_summary. unfold summary, turn_with, reaches_chat_input.
  destruct (environ i "SERVING_ENDPOINT") as [[|c ep]|]; cbn;
    try (now rewrite app_nil_r).
  destruct (is_endpoint_supported_answer i) as [[|]|e]; cbn.
  - destruct (chat_input_answer i) as [[|c' p]|] eqn:Hin; cbn;
      try (now rewrite app_nil_r).
    pose proof (submitted_history i (String c ep) (String c' p)
                  (conversation s)) as H.
    destruct (submitted compose i (String c ep) (String c' p) (conversation s))
      as [[r l'] evs]. cbn in H |- *. rewrite H.
    destruct (compose _); [destruct (query_endpoint_answer i) as [resp|];
                           [destruct (getitem resp "content")|]|];
      reflexivity.
  - rewrite app_nil_r. unfold with_visibility, conversation.
    destruct (visibility s); reflexivity.
  - now rewrite app_nil_r.
Qed.

Lemma session_with_grows inputs s :
  conversation (run_session_with compose inputs s)
  = (conversation s
     ++ render_turns
          (flat_map (fun i => match turn_with compose i with
                              | Some t => [t]
                              | None => []
                              end) inputs))%list.
Proof.
  revert s. induction inputs as [|i inputs IH]; intros s; cbn.
  - now rewrite app_nil_r.
  - rewrite IH, run_with_grows. unfold render_turns.
    rewrite flat_map_app, app_assoc. f_equal. f_equal.
    destruct (turn_with compose i); cbn; now rewrite ?app_nil_r.
Qed.
End SimpleChatFacts.

Section GenieFacts.
Import Chat GenieAI.
Variable repr_str : string -> string.
Variable repr_float : spec_float -> string.
Variable repr_message : message_class -> content -> string.

Lemma agent_submit_run i p w l :
  messages (session w) = Some l ->
  submit repr_str repr_float repr_message i p w
  = let '(r, l', evs) := submitted repr_str repr_float repr_message i p l in
    (r, {| session := with_messages l' (session w);
           trace := (trace w ++ evs)%list |}).
Proof.
  intros Hl. unfold submit, submitted, agent_invoke.
  destruct w as [[msgs vis dis] tr]. cbn in Hl. subst msgs.
  cbn. destruct (invoke_answer i) as [res|e]; cbn.
  - destruct (pick_reply repr_str repr_float repr_message res) as [r|e]; cbn;
      rewrite <- ?app_assoc; reflexivity.
  - rewrite <- ?app_assoc; reflexivity.
Qed.

Local Arguments submit : simpl never.

Lemma agent_run_summary i s :
  run repr_str repr_float repr_message i s
  = summary repr_str repr_float repr_message i s.
Proof.
  unfold run, summary, page, build_agent, chat_input, replay_history,
    get_messages, sidebar.
  destruct s as [msgs vis dis].
  destruct (getenv i "GENIE_ID") as [[|c id]|]; cbn; try reflexivity.
  destruct (build_agent_answer i) as [[]|e]; cbn; [|reflexivity].
  destruct msgs as [l|]; cbn; rewrite ?forM_replay by replay_side; cbn;
    (destruct (chat_input_answer i) as [[|c' p]|]; cbn;
     [reflexivity | | reflexivity]);
    (erewrite agent_submit_run by reflexivity);
    cbn; destruct (submitted repr_str repr_float repr_message i (String c' p) _)
           as [[r l'] evs];
    cbn; rewrite <- ?app_assoc; reflexivity.
Qed.

Lemma agent_submitted_history i p l :
  snd (fst (submitted repr_str repr_float repr_message i p l))
  = (l ++ match invoke_answer i with
          | Ok result =>
              match pick_reply repr_str repr_float repr_message result with
              | Ok reply => turn_messages (Replied p reply)
              | Raise _ => turn_messages (NoReply p)
              end
          | Raise _ => turn_messages (NoReply p)
          end)%list.
Proof.
  unfold submitted.
  destruct (invoke_answer i) as [res|]; [destruct (pick_reply _ _ _ res)|];
    cbn; rewrite <- ?app_assoc; reflexivity.
Qed.

Lemma agent_run_grows i s :
  conversation (session_after (run repr_str repr_float repr_message i s))
  = (conversation s
     ++ match turn_of repr_str repr_float repr_message i with
        | Some t => turn_messages t
        | None => []
        end)%list.
Proof.
  rewrite agent_run_summary. unfold summary, turn_of, reaches_chat_input.
  destruct (getenv i "GENIE_ID") as [[|c id]|]; cbn;
    try (now rewrite app_nil_r).
  destruct (build_agent_answer i) as [[]|e]; cbn;
    try (now rewrite app_nil_r).
  destruct (chat_input_answer i) as [[|c' p]|] eqn:Hin; cbn;
    try (now rewrite app_nil_r).
  pose proof (agent_submitted_history i (String c' p) (conversation s)) as H.
  destruct (submitted repr_str repr_float repr_message i (String c' p)
              (conversation s)) as [[r l'] evs].
  cbn in H |- *. rewrite H.
  destruct (invoke_answer i) as [res|]; [destruct (pick_reply _ _ _ res)|];
    reflexivity.
Qed.

Lemma agent_session_grows inputs s :
  conversation (run_session repr_str repr_float repr_message inputs s)
  = (conversation s
     ++ render_turns
          (session_turns repr_str repr_float repr_message inputs))%list.
Proof.
  revert s. induction inputs as [|i inputs IH]; intros s; cbn.
  - now rewrite app_nil_r.
  - rewrite IH, agent_run_grows. unfold render_turns.
    rewrite flat_map_app, app_assoc. f_equal. f_equal.
    destruct (turn_of _ _ _ i); cbn; now rewrite ?app_nil_r.
Qed.
End GenieFacts.

(** ** The claims about the conversation *)

Section Conversation.
Import Chat.
Variable repr_str : string -> string.
Variable repr_float : spec_float -> string.
Variable repr_message : GenieAI.message_class -> GenieAI.content -> string.

(** C1.  In both chat pages, for every session (the script re-run on every
    interaction, each run with whatever its collaborators answer) and from
    every session state: the history after the session is the history
    before it followed by the messages of the submitted turns in the order
    of submission, a user message and its reply for a turn that got a
    reply, the user message alone for a turn that got none.  (A turn is
    submitted in a run whose chat input returns a prompt that is not
    empty.)  So nothing is deleted, edited or reordered, and from an empty
    history the number of messages is twice the replied turns plus the
    turns without reply. *)
Theorem conversation_grows_by_turns :
  (forall (inputs : list SimpleChat.run_input) (s : session_state),
      let ts := SimpleChat.session_turns repr_str repr_float inputs in
      let final := SimpleChat.run_session repr_str repr_float inputs s in
      conversation final = (conversation s ++ render_turns ts)%list
      /\ List.length (conversation final)
         = List.length (conversation s)
           + (2 * count_replied ts + count_unreplied ts)
      /\ List.length ts = count_replied ts + count_unreplied ts)
  /\
  (forall (inputs : list GenieAI.run_input) (s : session_state),
      let ts := GenieAI.session_turns repr_str repr_float repr_message inputs in
      let final := GenieAI.run_session repr_str repr_float repr_message inputs s in
      conversation final = (conversation s ++ render_turns ts)%list
      /\ List.length (conversation final)
         = List.length (conversation s)
           + (2 * count_replied ts + count_unreplied ts)
      /\ List.length ts = count_replied ts + count_unreplied ts).
Proof.
  split; intros inputs s ts final; subst ts final.
  - unfold SimpleChat.run_session, SimpleChat.session_turns, SimpleChat.turn_of.
    rewrite session_with_grows.
    repeat split.
    + rewrite length_app, length_render_turns. reflexivity.
    + apply turns_split.
  - rewrite agent_session_grows. repeat split.
    + rewrite length_app, length_render_turns. reflexivity.
    + apply turns_split.
Qed.
End Conversation.

(** ** The claims about the SimpleChat page *)

Ltac count_trace :=
  unfold Chat.count; cbn;
  rewrite ?filter_app, ?filter_replay by reflexivity; cbn;
  rewrite ?filter_app, ?filter_replay by reflexivity; try reflexivity.

Ltac find_event :=
  cbn;
  repeat first [ solve [left; reflexivity]
               | right
               | (apply in_or_app; right) ].

Section SimpleChatClaims.
Import Chat SimpleChat.
Variable repr_str : string -> string.
Variable repr_float : spec_float -> string.

(** C3.  The record that [get_user_info] builds has the keys [user_name],
    [user_email] and [user_id] only, so [build_system_prompt] applied to
    it raises [KeyError] on its first lookup, ['accounts'], whatever the
    headers are; no run of the page calls the endpoint; a run that takes
    in a submitted prompt ends in that [KeyError], the turn without
    reply. *)
Theorem identity_record_never_reaches_endpoint :
  (forall h : string -> option string,
      build_system_prompt repr_str repr_float (get_user_info h)
      = Raise (KeyError "accounts"))
  /\ (forall (i : run_input) (s : session_state),
         count is_query_endpoint (effects (run repr_str repr_float i s)) = 0)
  /\ (forall (i : run_input) (s : session_state) (t : turn),
         turn_of repr_str repr_float i = Some t ->
         outcome (run repr_str repr_float i s) = Raise (KeyError "accounts")
         /\ t = NoReply (turn_prompt t)).
Proof.
  split; [|split].
  - intros h. reflexivity.
  - intros i s. unfold run. rewrite run_with_summary. unfold summary.
    destruct (environ i "SERVING_ENDPOINT") as [[|c ep]|]; cbn;
      try reflexivity.
    destruct (is_endpoint_supported_answer i) as [[|]|e]; cbn;
      try reflexivity.
    destruct (chat_input_answer i) as [[|c' p]|]; cbn; count_trace.
  - intros i s t. unfold run, turn_of, turn_with, reaches_chat_input.
    rewrite run_with_summary. unfold summary.
    destruct (environ i "SERVING_ENDPOINT") as [[|c ep]|]; cbn;
      try discriminate.
    destruct (is_endpoint_supported_answer i) as [[|]|e]; cbn;
      try discriminate.
    destruct (chat_input_answer i) as [[|c' p]|]; cbn; try discriminate.
    intros H. injection H as <-. split; reflexivity.
Qed.

Variable compose : value -> result string.

End SimpleChatClaims.

Section StringFacts.
Lemma append_assoc (a b c : string) : ((a ++ b) ++ c = a ++ (b ++ c))%string.
Proof. induction a as [|x a IH]; cbn; [reflexivity | now rewrite IH]. Qed.

Lemma contains_here (sub post : string) : contains (sub ++ post) sub.
Proof. exists "", post. reflexivity. Qed.

Lemma contains_cons (c : ascii) (s sub : string) :
  contains s sub -> contains (String c s) sub.
Proof.
  intros (pre & post & ->). exists (String c pre), post. reflexivity.
Qed.

Lemma contains_skip (a s sub : string) :
  contains s sub -> contains (a ++ s) sub.
Proof.
  intros (pre & post & ->). exists (a ++ pre), post.
  now rewrite append_assoc.
Qed.
End StringFacts.

Ltac find_substring :=
  repeat first [ solve [ eexists ""; eexists; cbn; reflexivity ]
               | apply contains_cons
               | apply contains_skip ].

(** ** The claims about the prompt composer *)

Section ComposerClaims.
Import Chat SimpleChat.
Variable repr_str : string -> string.
Variable repr_float : spec_float -> string.

(** C2.  For every snapshot with an empty [accounts] mapping and an empty
    [recent_transactions] sequence (and the other fields the composer
    reads), [build_system_prompt] returns, without raising, a text that
    holds the account count 0, the account header with no row under it and
    the transaction header with no row under it. *)
Theorem empty_sections_are_well_formed
    (user_info recent name email user_id preferences contact budgeting : value) :
  getitem user_info "accounts" = Ok (VDict []) ->
  getitem user_info "recent_transactions" = Ok recent ->
  iter recent = Ok [] ->
  getitem user_info "name" = Ok name ->
  getitem user_info "email" = Ok email ->
  getitem user_info "user_id" = Ok user_id ->
  getitem user_info "preferences" = Ok preferences ->
  getitem preferences "contact_method" = Ok contact ->
  getitem preferences "budgeting_style" = Ok budgeting ->
  exists text : string,
    build_system_prompt repr_str repr_float user_info = Ok text
    /\ contains text
         ("Number of banking accounts: 0" ++ nl
          ++ "Account balances:" ++ nl
          ++ nl
          ++ nl
          ++ "Recent Transactions:" ++ nl
          ++ nl
          ++ nl
          ++ "# Banking Preferences" ++ nl).
Proof.
  intros Hacc Hrec Hiter Hname Hemail Hid Hpref Hcontact Hbudget.
  unfold build_system_prompt.
  rewrite Hacc. cbn. rewrite Hrec. cbn. rewrite Hiter. cbn.
  rewrite Hname. cbn. rewrite Hemail. cbn. rewrite Hid. cbn.
  rewrite Hpref. cbn. rewrite Hcontact. cbn. rewrite Hbudget. cbn.
  eexists. split; [reflexivity|].
  find_substring.
Qed.

End ComposerClaims.

(** ** The claims about a failed call and about the agent's result *)

Section FailedCall.
Import Chat.
Variable repr_str : string -> string.
Variable repr_float : spec_float -> string.
Variable repr_message : GenieAI.message_class -> GenieAI.content -> string.

(** C5.  In a run that takes in a submitted prompt and whose remote call
    raises (the endpoint's in SimpleChat, once a system prompt is
    composed; the agent's in GenieAI): the run ends in that exception, the
    history is the one before the run followed by the user message alone
    (the endpoint was sent the history with that message already in it),
    and the remote call was made exactly once. *)
Theorem failed_call_keeps_user_message :
  (forall (compose : value -> result string)
          (i : SimpleChat.run_input) (s : session_state)
          (endpoint prompt system_prompt : string) (e : exn),
      SimpleChat.environ i "SERVING_ENDPOINT" = Some endpoint ->
      endpoint <> "" ->
      SimpleChat.is_endpoint_supported_answer i = Ok true ->
      SimpleChat.chat_input_answer i = Some prompt ->
      prompt <> "" ->
      compose (get_user_info (SimpleChat.headers i)) = Ok system_prompt ->
      SimpleChat.query_endpoint_answer i = Raise e ->
      let r := SimpleChat.run_with compose i s in
      outcome r = Raise e
      /\ conversation (session_after r)
         = (conversation s ++ [user_message prompt])%list
      /\ count is_query_endpoint (effects r) = 1
      /\ In (QueryEndpoint endpoint
               (conversation s ++ [user_message prompt])%list 400
               system_prompt) (effects r))
  /\
  (forall (i : GenieAI.run_input) (s : session_state)
          (genie_id prompt : string) (e : exn),
      GenieAI.getenv i "GENIE_ID" = Some genie_id ->
      genie_id <> "" ->
      GenieAI.build_agent_answer i = Ok tt ->
      GenieAI.chat_input_answer i = Some prompt ->
      prompt <> "" ->
      GenieAI.invoke_answer i = Raise e ->
      let r := GenieAI.run repr_str repr_float repr_message i s in
      outcome r = Raise e
      /\ conversation (session_after r)
         = (conversation s ++ [user_message prompt])%list
      /\ count is_agent_invoke (effects r) = 1
      /\ In (AgentInvoke prompt) (effects r)).
Proof.
  split.
  - intros compose i s ep p sp e Henv Hep Hsup Hin Hp Hsp Hans r. subst r.
    rewrite run_with_summary. unfold SimpleChat.summary, SimpleChat.submitted.
    rewrite Henv, Hsup, Hin, Hsp, Hans.
    destruct ep as [|c ep]; [congruence|].
    destruct p as [|c' p]; [congruence|]. cbn.
    repeat split.
    + count_trace.
    + find_event.
  - intros i s id p e Henv Hid Hbuild Hin Hp Hans r. subst r.
    rewrite agent_run_summary. unfold GenieAI.summary, GenieAI.submitted.
    rewrite Henv, Hbuild, Hin, Hans.
    destruct id as [|c id]; [congruence|].
    destruct p as [|c' p]; [congruence|]. cbn.
    repeat split.
    + count_trace.
    + find_event.
Qed.
End FailedCall.

Section AgentResult.
Import Chat GenieAI.
Variable repr_str : string -> string.
Variable repr_float : spec_float -> string.
Variable repr_message : message_class -> content -> string.

Lemma last_in {A} (l : list A) (d : A) : In (last l d) (d :: l).
Proof.
  revert d. induction l as [|x l IH]; intros d; [cbn; tauto|].
  destruct l as [|y l]; [cbn; tauto|].
  change (last (x :: y :: l) d) with (last (y :: l) d).
  destruct (IH d) as [H|H]; [left; exact H | right; right; exact H].
Qed.

Lemma ai_content (x : item) :
  is_ai x = true -> exists body, item_content x = Ok (content_value body).
Proof.
  destruct x as [c body|v]; [|discriminate]. intros _. now exists body.
Qed.

(** C6, as the code has it.  For every agent result with a message list
    without AI message, the reply is the text of the whole result,
    [str(result)], and that text is not empty; for every agent result
    whose ["messages"] entry, when there is one, can be iterated, a reply
    is returned (nothing raises) and it is not [None]; no run of the page
    emits a log record. *)
Theorem fallback_reply_is_the_rendered_result :
  (forall (r : agent_result) (l : list item),
      messages_entry r = Some (Ok l) ->
      filter is_ai l = [] ->
      pick_reply repr_str repr_float repr_message r
      = Ok (VStr (result_str repr_str repr_float repr_message r))
      /\ result_str repr_str repr_float repr_message r <> "")
  /\ (forall r : agent_result,
         (forall e, messages_entry r <> Some (Raise e)) ->
         exists reply,
           pick_reply repr_str repr_float repr_message r = Ok reply
           /\ reply <> VNone)
  /\ (forall (i : run_input) (s : session_state),
         count is_log_record
           (effects (run repr_str repr_float repr_message i s)) = 0).
Proof.
  split; [|split].
  - intros r l Hentry Hnone. unfold pick_reply. rewrite Hentry. cbn.
    rewrite Hnone. split; [reflexivity|].
    destruct r as [d|v]; cbn; [discriminate|].
    destruct v; cbn in Hentry |- *; try discriminate.
  - intros r Hwf. unfold pick_reply.
    destruct (messages_entry r) as [[l|e]|].
    + cbn. destruct (filter is_ai l) as [|first others] eqn:Hf.
      * eexists. split; [reflexivity | discriminate].
      * assert (Hin : In (last others first) (filter is_ai l)).
        { rewrite Hf. apply last_in. }
        apply filter_In in Hin. destruct Hin as [_ Hai].
        destruct (ai_content _ Hai) as [body Hbody].
        exists (content_value body). split; [exact Hbody|].
        destruct body; discriminate.
    + exfalso. now apply (Hwf e).
    + eexists. split; [reflexivity | discriminate].
  - intros i s. rewrite agent_run_summary. unfold summary, submitted, sidebar.
    destruct (getenv i "GENIE_ID") as [[|c id]|]; cbn; try reflexivity.
    destruct (build_agent_answer i) as [[]|e]; cbn; try reflexivity.
    destruct (chat_input_answer i) as [[|c' p]|]; cbn; try count_trace.
    destruct (invoke_answer i) as [res|e]; cbn; try count_trace.
    destruct (pick_reply repr_str repr_float repr_message res); cbn;
      count_trace.
Qed.
End AgentResult.

(** ** The dashboard: the cache *)

Section CacheFacts.
Import Dashboard.
Variable cell : Type.
Variable ops : frame_ops cell.

Lemma sqlQuery_run (i : run_input cell) (query : string) (w : world cell) :
  sqlQuery i query w
  = (sql_answer i query,
     {| cache := cache w;
        clock := (clock w + Z.of_nat (sql_seconds i query))%Z;
        trace := (trace w ++ [SqlQuery (http_path i) query])%list |}).
Proof. reflexivity. Qed.

Lemma lookup_store_same key (v : table cell * Z) c :
  cache_lookup key (cache_store key v c) = Some v.
Proof.
  induction c as [|[k old] c IH]; cbn.
  - now rewrite String.eqb_refl.
  - destruct (String.eqb key k) eqn:E; cbn; rewrite E; [reflexivity | exact IH].
Qed.

Lemma lookup_store_other key key' (v : table cell * Z) c :
  key <> key' ->
  cache_lookup key (cache_store key' v c) = cache_lookup key c.
Proof.
  intros Hne. induction c as [|[k old] c IH]; cbn.
  - destruct (String.eqb key key') eqn:E; [|reflexivity].
    apply String.eqb_eq in E. contradiction.
  - destruct (String.eqb key' k) eqn:E; cbn.
    + apply String.eqb_eq in E. subst k.
      destruct (String.eqb key key') eqn:E'; [|reflexivity].
      apply String.eqb_eq in E'. contradiction.
    + destruct (String.eqb key k); [reflexivity | exact IH].
Qed.

(** The three ways a call of a cached function goes. *)
Lemma cache_hit ttl key body (w : world cell) t stored :
  cache_lookup key (cache w) = Some (t, stored) ->
  (clock w <? stored + ttl)%Z = true ->
  cache_data ttl key body w = (Ok t, w).
Proof.
  intros Hl Hc. unfold cache_data. cbn. rewrite Hl, Hc. reflexivity.
Qed.

Lemma cache_miss ttl key i query (w : world cell) :
  fresh_entry ttl key w = false ->
  cache_data ttl key (sqlQuery i query) w
  = let now := (clock w + Z.of_nat (sql_seconds i query))%Z in
    let tr := (trace w ++ [SqlQuery (http_path i) query])%list in
    match sql_answer i query with
    | Ok t => (Ok t, {| cache := cache_store key (t, now) (cache w);
                        clock := now; trace := tr |})
    | Raise e => (Raise e, {| cache := cache w; clock := now; trace := tr |})
    end.
Proof.
  unfold fresh_entry, cache_data. cbn.
  destruct (cache_lookup key (cache w)) as [[t stored]|].
  - intros ->. destruct (sql_answer i query); reflexivity.
  - intros _. destruct (sql_answer i query); reflexivity.
Qed.

(** Every one of the five functions is [cache_data 300] over [sqlQuery]. *)
Lemma loaders_shape key query (f : run_input cell -> M (world cell) (table cell)) :
  In (key, query, f) (@loaders cell) ->
  forall i, f i = cache_data 300 key (sqlQuery i query).
Proof.
  intros Hin i. cbn in Hin.
  repeat (destruct Hin as [Heq|Hin]; [inversion Heq; reflexivity|]).
  contradiction.
Qed.

Lemma sql_calls_app (a b : list event) : sql_calls (a ++ b) = sql_calls a + sql_calls b.
Proof. unfold sql_calls. now rewrite filter_app, length_app. Qed.

End CacheFacts.

(** ** The dashboard: what a rendered page needs of its tables *)

Lemma bind_run {W A B} (c : M W A) (k : A -> M W B) (w : W) :
  (x <- c ;; k x) w
  = match c w with
    | (Ok a, w') => k a w'
    | (Raise e, w') => (Raise e, w')
    end.
Proof. reflexivity. Qed.

(** Case analysis on the innermost stuck [match] of the goal. *)
Ltac split_match :=
  match goal with
  | |- context [match ?x with _ => _ end] =>
      lazymatch x with
      | context [match _ with _ => _ end] => fail
      | _ => destruct x eqn:?
      end
  end.

(** Case analysis along a page fragment, every column test unfolded to its
    lookup. *)
Ltac walk_columns :=
  unfold Dashboard.has_column;
  repeat (split_match; cbn; unfold Dashboard.has_column).

Section RenderFacts.
Import Dashboard.
Variable cell : Type.
Variable ops : frame_ops cell.

Lemma select_nil {A} (mask : list bool) : @select A mask [] = [].
Proof. destruct mask as [|[|] mask]; reflexivity. Qed.

Lemma tab_clients_needs (demo cards : table cell) (w : world cell) :
  fst (tab_clients ops demo cards w) = Ok tt ->
  has_columns demo ["state_name"; "client_count"; "age_group"; "sex"] = true
  /\ has_columns cards ["card_type"; "card_count"] = true.
Proof.
  unfold tab_clients, grouped_sum, column, has_columns, lift. cbn.
  walk_columns; intros H; try discriminate H;
    try (split; reflexivity); congruence.
Qed.

Lemma tab_trans_needs (trans : table cell) (w : world cell) :
  fst (tab_trans ops trans w) = Ok tt ->
  has_columns trans ["kpi_month"; "total_amount"; "transaction_count";
                     "average_ending_balance"] = true
  /\ rows trans <> [].
Proof.
  unfold tab_trans.
  destruct (rows trans) as [|row rest] eqn:Hrows.
  - unfold column, lift. cbn. rewrite Hrows. cbn.
    destruct (index_of "kpi_month" (columns trans)); cbn; discriminate.
  - intros H. split; [|discriminate]. revert H.
    unfold row_get, column, has_columns, lift, iloc0. cbn. rewrite Hrows.
    walk_columns; intros H; try discriminate H; try reflexivity; congruence.
Qed.

Lemma tab_crm_needs (crm_calls complaints : table cell) (w : world cell) :
  fst (tab_crm crm_calls complaints w) = Ok tt ->
  has_columns crm_calls ["hour"; "count"; "average_time"] = true
  /\ has_columns complaints ["product"; "count"] = true.
Proof.
  unfold tab_crm, has_columns, lift. cbn.
  walk_columns; intros H; try discriminate H;
    try (split; reflexivity); congruence.
Qed.

Lemma filter_states_needs (i : run_input cell) (demo demo' : table cell)
    (w w' : world cell) :
  filter_states ops i demo w = (Ok demo', w') ->
  columns demo' = columns demo
  /\ has_column demo "state_name" = true.
Proof.
  unfold filter_states, multiselect, column, lift. cbn.
  walk_columns; intros H; try discriminate H;
    inversion H; subst; split; reflexivity.
Qed.
End RenderFacts.

Section DashboardClaims.
Import Dashboard.
Variable cell : Type.
Variable ops : frame_ops cell.

Local Arguments filter_states : simpl never.
Local Arguments tab_clients : simpl never.
Local Arguments tab_trans : simpl never.
Local Arguments tab_crm : simpl never.

Lemma has_columns_ext (a b : table cell) (names : list string) :
  columns a = columns b ->
  has_columns a names = has_columns b names.
Proof.
  intros H. unfold has_columns, has_column. now rewrite H.
Qed.

(** A render that ends well went through the filter and the three tabs. *)
Lemma render_ok (i : run_input cell) (f : frames cell) (w : world cell) :
  fst (render ops i f w) = Ok tt ->
  exists (demo : table cell) (w0 w1 w2 w3 : world cell),
    filter_states ops i (df_demo f) w = (Ok demo, w0)
    /\ fst (tab_clients ops demo (df_cards f) w1) = Ok tt
    /\ fst (tab_trans ops (df_trans f) w2) = Ok tt
    /\ fst (tab_crm (df_crm_calls f) (df_complaints f) w3) = Ok tt.
Proof.
  unfold render. rewrite bind_run.
  destruct (filter_states ops i (df_demo f) w) as [[demo|e] w0] eqn:Hf;
    [|discriminate].
  cbn.
  match goal with
  | |- context [tab_clients ops demo (df_cards f) ?w] =>
      destruct (tab_clients ops demo (df_cards f) w) as [[[]|e] w1'] eqn:Hc
  end; [|discriminate].
  destruct (tab_trans ops (df_trans f) w1') as [[[]|e] w2'] eqn:Ht;
    [|discriminate].
  intros Hcrm.
  eexists demo, w0, _, w1', w2'. rewrite Hc, Ht. repeat split. exact Hcrm.
Qed.

(** C10.  A transactions table without rows makes the transactions tab
    raise: [IndexError] at [.iloc[0]] when the table has its [kpi_month]
    column ([KeyError] before that when it has not); so the render, and
    the whole run once the five tables are loaded, ends in an exception.
    A run that ends well had five tables that are all non-degenerate: each
    with the columns the page reads ([state_name] among them for the
    demographics), the transactions with at least one row. *)
Theorem empty_transactions_abort_the_page :
  (forall (trans : table cell) (w : world cell),
      rows trans = [] ->
      fst (tab_trans ops trans w)
      = if has_column trans "kpi_month"
        then Raise (IndexError "single positional indexer is out-of-bounds")
        else Raise (KeyError "kpi_month"))
  /\ (forall (i : run_input cell) (f : frames cell) (w : world cell),
         rows (df_trans f) = [] ->
         exists e, fst (render ops i f w) = Raise e)
  /\ (forall (i : run_input cell) (f : frames cell) (w w' : world cell),
         startup i w = (Ok f, w') ->
         rows (df_trans f) = [] ->
         exists e, fst (page ops i w) = Raise e)
  /\ (forall (i : run_input cell) (w : world cell),
         fst (page ops i w) = Ok tt ->
         exists (f : frames cell) (w' : world cell),
           startup i w = (Ok f, w') /\ non_degenerate f).
Proof.
  assert (Hrender : forall i f w, rows (df_trans f) = [] ->
                                  exists e, fst (render ops i f w) = Raise e).
  { intros i f w Hrows.
    destruct (fst (render ops i f w)) as [[]|e] eqn:Hr; [|now exists e].
    destruct (render_ok _ _ _ Hr) as (demo & w0 & w1 & w2 & w3 & _ & _ & Ht & _).
    apply tab_trans_needs in Ht. destruct Ht as [_ Hne]. contradiction. }
  split; [|split; [|split]].
  - intros trans w Hrows. unfold tab_trans, column, has_column, lift. cbn.
    rewrite Hrows. cbn.
    destruct (index_of "kpi_month" (columns trans)); reflexivity.
  - exact Hrender.
  - intros i f w w' Hstart Hrows. unfold page. rewrite bind_run, Hstart.
    apply Hrender, Hrows.
  - intros i w. unfold page. rewrite bind_run.
    destruct (startup i w) as [[f|e] w'] eqn:Hstart; [|discriminate].
    intros Hr. exists f, w'. split; [reflexivity|].
    destruct (render_ok _ _ _ Hr)
      as (demo & w0 & w1 & w2 & w3 & Hf & Hc & Ht & Hcrm).
    apply filter_states_needs in Hf. destruct Hf as [Hcols _].
    apply tab_clients_needs in Hc. destruct Hc as [Hdemo Hcards].
    apply tab_trans_needs in Ht. destruct Ht as [Htrans Hrows].
    apply tab_crm_needs in Hcrm. destruct Hcrm as [Hcalls Hcomp].
    rewrite (has_columns_ext _ _ _ Hcols) in Hdemo.
    unfold non_degenerate. repeat split; assumption.
Qed.
End DashboardClaims.

(** ** The claim about the required identifiers *)

Section Startup.
Import Chat.
Variable repr_str : string -> string.
Variable repr_float : spec_float -> string.
Variable repr_message : GenieAI.message_class -> GenieAI.content -> string.

End Startup.

(** ** The claims at concrete inputs *)

Section Instances.
Import Chat Samples.

(** C2 at [empty_snapshot]. *)
Lemma empty_sections_witness :
  (getitem empty_snapshot "accounts" = Ok (VDict [])
   /\ getitem empty_snapshot "recent_transactions" = Ok (VList []))
  /\ exists text : string,
       SimpleChat.build_system_prompt repr_str repr_float empty_snapshot
       = Ok text
       /\ contains text
            ("Number of banking accounts: 0" ++ nl
             ++ "Account balances:" ++ nl
             ++ nl
             ++ nl
             ++ "Recent Transactions:" ++ nl
             ++ nl
             ++ nl
             ++ "# Banking Preferences" ++ nl).
Proof.
  split; [split; reflexivity|].
  apply (empty_sections_are_well_formed repr_str repr_float
           empty_snapshot (VList [])
           (VStr "Ann") (VStr "ann@example.com") (VInt 7)
           (VDict [ ("contact_method", VStr "email");
                    ("budgeting_style", VStr "monthly") ])
           (VStr "email") (VStr "monthly"));
    reflexivity.
Defined.

(** C3 at a run that takes in the prompt "Hello". *)
Lemma identity_record_witness :
  SimpleChat.turn_of repr_str repr_float chat_hello = Some (NoReply "Hello")
  /\ outcome (chat_run chat_hello fresh_session) = Raise (KeyError "accounts").
Proof.
  split; [reflexivity|].
  apply (proj2 (proj2 (identity_record_never_reaches_endpoint
                         repr_str repr_float))
           chat_hello fresh_session (NoReply "Hello") eq_refl).
Defined.


(** C5 at a SimpleChat run whose endpoint times out (with a composer that
    succeeds) and at a GenieAI run whose agent times out. *)
Lemma failed_call_witness :
  (SimpleChat.query_endpoint_answer chat_hello = Raise (RemoteError "timeout")
   /\ conversation
        (session_after
           (SimpleChat.run_with fixed_prompt chat_hello fresh_session))
      = [user_message "Hello"])
  /\ (GenieAI.invoke_answer genie_fails = Raise (RemoteError "timeout")
      /\ conversation (session_after (genie_run genie_fails fresh_session))
         = [user_message "Hello"]).
Proof.
  assert (Hep : "my-endpoint" <> "") by discriminate.
  assert (Hid : "space-1" <> "") by discriminate.
  assert (Hp : "Hello" <> "") by discriminate.
  pose proof (failed_call_keeps_user_message repr_str repr_float repr_message)
    as (Hchat & Hgenie).
  split; (split; [reflexivity|]).
  - exact (proj1 (proj2 (Hchat fixed_prompt chat_hello fresh_session
                           "my-endpoint" "Hello"
                           "You are a helpful assistant."
                           (RemoteError "timeout")
                           eq_refl Hep eq_refl eq_refl Hp eq_refl eq_refl))).
  - exact (proj1 (proj2 (Hgenie genie_fails fresh_session "space-1" "Hello"
                           (RemoteError "timeout")
                           eq_refl Hid eq_refl eq_refl Hp eq_refl))).
Defined.

(** C6 as the spec has it fails: the agent answers without an AI message,
    the fallback text is returned and shown, and the run emits no log
    record. *)
Lemma fallback_is_not_logged :
  GenieAI.messages_entry no_ai_result
  = Some (Ok [GenieAI.Message GenieAI.HumanMessage (GenieAI.Text "Hello")])
  /\ GenieAI.pick_reply repr_str repr_float repr_message no_ai_result
     = Ok (VStr "{'messages': [HumanMessage(content='Hello')]}")
  /\ outcome (genie_run genie_no_ai fresh_session) = Ok tt
  /\ conversation (session_after (genie_run genie_no_ai fresh_session))
     = [ user_message "Hello";
         assistant_message
           (VStr "{'messages': [HumanMessage(content='Hello')]}") ]
  /\ count is_log_record (effects (genie_run genie_no_ai fresh_session)) = 0.
Proof. repeat split. Qed.

(** C6 as amended, at the same result. *)
Lemma fallback_reply_witness :
  filter GenieAI.is_ai
    [GenieAI.Message GenieAI.HumanMessage (GenieAI.Text "Hello")] = []
  /\ GenieAI.pick_reply repr_str repr_float repr_message no_ai_result
     = Ok (VStr (GenieAI.result_str repr_str repr_float repr_message
                   no_ai_result))
  /\ GenieAI.result_str repr_str repr_float repr_message no_ai_result <> "".
Proof.
  split; [reflexivity|].
  exact (proj1 (fallback_reply_is_the_rendered_result
                  repr_str repr_float repr_message)
           no_ai_result
           [GenieAI.Message GenieAI.HumanMessage (GenieAI.Text "Hello")]
           eq_refl eq_refl).
Defined.





(** C10 at a warehouse whose monthly-transactions table has no row, and at
    one whose five tables are in order. *)
Lemma empty_transactions_witness :
  (Dashboard.rows no_transactions = []
   /\ exists e, fst (Dashboard.page ops dashboard_no_transactions cold_start)
                = Raise e)
  /\ (fst (Dashboard.page ops dashboard_run cold_start) = Ok tt
      /\ exists f w',
           Dashboard.startup dashboard_run cold_start = (Ok f, w')
           /\ Dashboard.non_degenerate f).
Proof.
  pose proof (empty_transactions_abort_the_page value ops)
    as (_ & _ & Habort & Hrendered).
  assert (Hstart : Dashboard.startup dashboard_no_transactions cold_start
                   = (Ok tables_without_transactions,
                      snd (Dashboard.startup dashboard_no_transactions
                             cold_start)))
    by (vm_compute; reflexivity).
  assert (Hok : fst (Dashboard.page ops dashboard_run cold_start) = Ok tt)
    by (vm_compute; reflexivity).
  split; (split; [first [reflexivity | exact Hok]|]).
  - exact (Habort dashboard_no_transactions tables_without_transactions
             cold_start _ Hstart eq_refl).
  - exact (Hrendered dashboard_run cold_start Hok).
Defined.
End Instances.

(** * Further properties of the code *)

(** ** The chat pages *)

Section RespondFacts.
Import Chat More.

(** X1.  Lines 113-126 of SimpleChat, from a history [l] and with a system
    prompt: the endpoint is asked once, with the whole history, at most 400
    tokens and the system prompt.  When it answers with a [dict] that has a
    ["content"], that content is shown and appended as the assistant's
    message and nothing else changes; the system prompt is not stored. *)
Theorem respond_appends_the_content
    (i : SimpleChat.run_input) (endpoint system_prompt : string)
    (w : world) (l : list message) (d : list (string * value)) (reply : value) :
  messages (session w) = Some l ->
  SimpleChat.query_endpoint_answer i = Ok (VDict d) ->
  dict_get "content" d = Some reply ->
  SimpleChat.respond i endpoint system_prompt w
  = (Ok tt,
     {| session := with_messages (l ++ [assistant_message reply])%list (session w);
        trace := (trace w ++ [ ChatMessageBox Assistant;
                               QueryEndpoint endpoint l 400 system_prompt;
                               Markdown reply ])%list |}).
Proof.
  intros Hl Hans Hget. unfold SimpleChat.respond, SimpleChat.query_endpoint.
  destruct w as [[msgs vis dis] tr]. cbn in Hl. subst msgs.
  cbn. rewrite Hans. cbn. rewrite Hget. cbn.
  rewrite <- !app_assoc. reflexivity.
Qed.

(** X2.  Lines 113-126 of SimpleChat when the endpoint's answer has no
    ["content"]: a [dict] without the key raises [KeyError], any other
    value raises [TypeError]; the endpoint was asked once, nothing is shown
    after the call and the history is left as it was. *)
Theorem respond_rejects_a_malformed_answer
    (i : SimpleChat.run_input) (endpoint system_prompt : string)
    (w : world) (l : list message) (response : value) :
  messages (session w) = Some l ->
  SimpleChat.query_endpoint_answer i = Ok response ->
  (forall d reply, response = VDict d -> dict_get "content" d <> Some reply) ->
  exists e : exn,
    SimpleChat.respond i endpoint system_prompt w
    = (Raise e,
       {| session := session w;
          trace := (trace w ++ [ ChatMessageBox Assistant;
                                 QueryEndpoint endpoint l 400 system_prompt ])%list |})
    /\ match response with
       | VDict _ => e = KeyError "content"
       | _ => exists msg, e = TypeError msg
       end.
Proof.
  intros Hl Hans Hno. unfold SimpleChat.respond, SimpleChat.query_endpoint.
  destruct w as [[msgs vis dis] tr]. cbn in Hl. subst msgs.
  cbn. rewrite Hans. cbn.
  destruct response as [|s|z|f|l0|d]; cbn;
    try (eexists; split; [rewrite <- !app_assoc; reflexivity | eexists; reflexivity]).
  destruct (dict_get "content" d) as [reply|] eqn:Hget.
  - exfalso. now apply (Hno d reply).
  - eexists; split; [rewrite <- !app_assoc; reflexivity | reflexivity].
Qed.
End RespondFacts.

Section ChatRuns.
Import Chat More.
Variable repr_str : string -> string.
Variable repr_float : spec_float -> string.
Variable repr_message : GenieAI.message_class -> GenieAI.content -> string.

(** X3.  A re-run without a submitted prompt ([None], or the empty text,
    which the [if prompt := ...] test also rejects) of a page that is up:
    the stored history is shown again, message by message in its order,
    then the chat input; no endpoint or agent call is made and the history
    is left as it was. *)
Theorem idle_rerun_replays_the_history :
  (forall (compose : value -> result string)
          (i : SimpleChat.run_input) (s : session_state) (endpoint : string),
      SimpleChat.environ i "SERVING_ENDPOINT" = Some endpoint ->
      endpoint <> "" ->
      SimpleChat.is_endpoint_supported_answer i = Ok true ->
      truthy (SimpleChat.chat_input_answer i) = false ->
      let r := SimpleChat.run_with compose i s in
      outcome r = Ok tt
      /\ effects r
         = ([ SetPageConfig "centered"; IsEndpointSupported endpoint;
              Title "🧱 Chatbot App";
              Markdown (VStr SimpleChat.supported_notice) ]
            ++ replay_events (conversation s)
            ++ [ChatInput "What is up?"])%list
      /\ conversation (session_after r) = conversation s)
  /\
  (forall (i : GenieAI.run_input) (s : session_state) (genie_id : string),
      GenieAI.getenv i "GENIE_ID" = Some genie_id ->
      genie_id <> "" ->
      GenieAI.build_agent_answer i = Ok tt ->
      truthy (GenieAI.chat_input_answer i) = false ->
      let r := GenieAI.run repr_str repr_float repr_message i s in
      outcome r = Ok tt
      /\ effects r
         = (GenieAI.sidebar i
            ++ [BuildAgent genie_id "Genie"
                  "This Genie space has access to sales data in Europe"]
            ++ replay_events (conversation s)
            ++ [ChatInput "Ask me about data…"])%list
      /\ count is_agent_invoke (effects r) = 0
      /\ conversation (session_after r) = conversation s).
Proof.
  split.
  - intros compose i s ep Henv Hep Hsup Hidle r. subst r.
    rewrite run_with_summary. unfold SimpleChat.summary.
    rewrite Henv, Hsup, Hidle.
    destruct ep as [|c ep]; [congruence|]. cbn. repeat split.
  - intros i s id Henv Hid Hbuild Hidle r. subst r.
    rewrite agent_run_summary. unfold GenieAI.summary.
    rewrite Henv, Hbuild, Hidle.
    destruct id as [|c id]; [congruence|]. cbn. repeat split.
    count_trace.
Qed.

(** X4.  The remote set-up of a page is repeated on every run: a SimpleChat
    run whose [SERVING_ENDPOINT] is set makes exactly one capability check,
    and a GenieAI run whose [GENIE_ID] is set constructs the agent exactly
    once, for that id, whether or not a prompt is submitted and however the
    run ends. *)
Theorem set_up_is_repeated_every_run :
  (forall (compose : value -> result string)
          (i : SimpleChat.run_input) (s : session_state),
      truthy (SimpleChat.environ i "SERVING_ENDPOINT") = true ->
      count is_capability_check (effects (SimpleChat.run_with compose i s)) = 1)
  /\
  (forall (i : GenieAI.run_input) (s : session_state),
      truthy (GenieAI.getenv i "GENIE_ID") = true ->
      count is_build_agent
        (effects (GenieAI.run repr_str repr_float repr_message i s)) = 1).
Proof.
  split.
  - intros compose i s Henv. rewrite run_with_summary.
    unfold SimpleChat.summary, SimpleChat.submitted. rewrite Henv.
    destruct (SimpleChat.environ i "SERVING_ENDPOINT") as [ep|];
      [|discriminate].
    destruct (SimpleChat.is_endpoint_supported_answer i) as [[|]|e]; cbn;
      try reflexivity.
    destruct (SimpleChat.chat_input_answer i) as [[|c p]|]; cbn;
      try count_trace.
    destruct (compose _) as [sp|e]; cbn; try count_trace.
    destruct (SimpleChat.query_endpoint_answer i) as [resp|e]; cbn;
      try count_trace.
    destruct (getitem resp "content"); cbn; count_trace.
  - intros i s Henv. rewrite agent_run_summary.
    unfold GenieAI.summary, GenieAI.submitted, GenieAI.sidebar. rewrite Henv.
    destruct (GenieAI.getenv i "GENIE_ID") as [id|]; [|discriminate].
    destruct (GenieAI.build_agent_answer i) as [[]|e]; cbn; try reflexivity.
    destruct (GenieAI.chat_input_answer i) as [[|c p]|]; cbn;
      try count_trace.
    destruct (GenieAI.invoke_answer i) as [res|e]; cbn; try count_trace.
    destruct (GenieAI.pick_reply _ _ _ res); cbn; count_trace.
Qed.

(** X5.  The SimpleChat page as it is written never records an assistant
    message: after any session, from any session state, the history is the
    earlier one followed by one user message per prompt taken in, in
    order. *)
Theorem simple_chat_records_user_messages_only
    (inputs : list SimpleChat.run_input) (s : session_state) :
  conversation (SimpleChat.run_session repr_str repr_float inputs s)
  = (conversation s ++ map user_message (prompts_taken inputs))%list.
Proof.
  unfold SimpleChat.run_session. rewrite session_with_grows. f_equal.
  unfold prompts_taken, render_turns.
  induction inputs as [|i inputs IH]; [reflexivity|].
  cbn [flat_map]. rewrite flat_map_app, map_app, IH. f_equal.
  unfold SimpleChat.turn_with.
  destruct (SimpleChat.reaches_chat_input i
            && truthy (SimpleChat.chat_input_answer i)); [|reflexivity].
  destruct (SimpleChat.chat_input_answer i) as [p|]; reflexivity.
Qed.

(** X14.  A set-up call that raises ends the run with its exception before
    anything of the chat is shown: no title, no history, no chat input;
    the session state is as it was.  In SimpleChat this is the capability
    check, in GenieAI the construction of the agent. *)
Theorem failed_set_up_ends_the_run :
  (forall (compose : value -> result string)
          (i : SimpleChat.run_input) (s : session_state)
          (endpoint : string) (e : exn),
      SimpleChat.environ i "SERVING_ENDPOINT" = Some endpoint ->
      endpoint <> "" ->
      SimpleChat.is_endpoint_supported_answer i = Raise e ->
      SimpleChat.run_with compose i s
      = {| outcome := Raise e; session_after := s;
           effects := [SetPageConfig "centered";
                       IsEndpointSupported endpoint] |})
  /\
  (forall (i : GenieAI.run_input) (s : session_state)
          (genie_id : string) (e : exn),
      GenieAI.getenv i "GENIE_ID" = Some genie_id ->
      genie_id <> "" ->
      GenieAI.build_agent_answer i = Raise e ->
      let r := GenieAI.run repr_str repr_float repr_message i s in
      r = {| outcome := Raise e; session_after := s;
             effects := (GenieAI.sidebar i
                         ++ [BuildAgent genie_id "Genie"
                               "This Genie space has access to sales data in Europe"])%list |}
      /\ count is_chat_input (effects r) = 0).
Proof.
  split.
  - intros compose i s ep e Henv Hep Hsup.
    rewrite run_with_summary. unfold SimpleChat.summary.
    rewrite Henv, Hsup. destruct ep as [|c ep]; [congruence|]. reflexivity.
  - intros i s id e Henv Hid Hbuild r. subst r.
    rewrite agent_run_summary. unfold GenieAI.summary.
    rewrite Henv, Hbuild. destruct id as [|c id]; [congruence|].
    split; [reflexivity|]. unfold GenieAI.sidebar. cbn. count_trace.
Qed.
End ChatRuns.

(** ** The agent's result *)

Section AgentReplies.
Import Chat GenieAI More.
Variable repr_str : string -> string.
Variable repr_float : spec_float -> string.
Variable repr_message : message_class -> content -> string.

Lemma last_after {A} (pre post : list A) (x d : A) :
  last (pre ++ x :: post)%list d = last (x :: post) d.
Proof.
  induction pre as [|y pre IH]; [reflexivity|].
  rewrite <- app_comm_cons. destruct (pre ++ x :: post)%list eqn:E.
  - destruct pre; discriminate.
  - exact IH.
Qed.

Lemma last_of_filter_ai (x : item) (post : list item) :
  is_ai x = true -> filter is_ai post = [] ->
  forall pre d, last (filter is_ai (pre ++ x :: post)) d = x.
Proof.
  intros Hx Hpost pre d. rewrite filter_app. cbn [filter].
  rewrite Hx, Hpost, last_after. reflexivity.
Qed.

(** X7.  Of the messages of an agent result, the reply is the content of
    the last AI message: whatever comes before it (AI messages among them)
    and whatever other messages come after it. *)
Theorem reply_is_the_last_ai_message
    (r : agent_result) (pre post : list item) (body : content) :
  messages_entry r = Some (Ok (pre ++ Message AIMessage body :: post)%list) ->
  filter is_ai post = [] ->
  pick_reply repr_str repr_float repr_message r = Ok (content_value body).
Proof.
  intros Hentry Hpost. unfold pick_reply. rewrite Hentry. cbn.
  pose proof (last_of_filter_ai (Message AIMessage body) post
                eq_refl Hpost pre) as Hlast.
  destruct (filter is_ai (pre ++ Message AIMessage body :: post)) as [|first others] eqn:Hf.
  - rewrite filter_app in Hf. cbn in Hf.
    destruct (filter is_ai pre); discriminate.
  - specialize (Hlast first).
    assert (Hl : last others first = Message AIMessage body).
    { destruct others as [|o others]; [exact Hlast|].
      rewrite <- Hlast. reflexivity. }
    rewrite Hl. reflexivity.
Qed.

(** X8.  Picking the reply raises in one case only: the result is a [dict]
    whose ["messages"] entry cannot be iterated, and the exception is then
    the one of the iteration.  In every other case a reply is returned. *)
Theorem reply_raises_only_on_uniterable_messages (r : agent_result) (e : exn) :
  pick_reply repr_str repr_float repr_message r = Raise e
  <-> messages_entry r = Some (Raise e).
Proof.
  unfold pick_reply. destruct (messages_entry r) as [[l|e']|]; cbn.
  - split; [|discriminate].
    destruct (filter is_ai l) as [|first others] eqn:Hf; [discriminate|].
    assert (Hin : In (last others first) (filter is_ai l)).
    { rewrite Hf. apply last_in. }
    apply filter_In in Hin. destruct Hin as [_ Hai].
    destruct (ai_content _ Hai) as [body ->]. discriminate.
  - split; intros H; inversion H; reflexivity.
  - split; discriminate.
Qed.

(** X9.  A GenieAI turn whose agent returns a result from which a reply is
    picked: the agent is invoked once, with the prompt alone (no history is
    sent); the reply is shown and the history grows by the user message and
    the assistant's reply, in that order. *)
Theorem answered_agent_turn
    (i : run_input) (s : session_state) (genie_id prompt : string)
    (result : agent_result) (reply : value) :
  getenv i "GENIE_ID" = Some genie_id ->
  genie_id <> "" ->
  build_agent_answer i = Ok tt ->
  chat_input_answer i = Some prompt ->
  prompt <> "" ->
  invoke_answer i = Ok result ->
  pick_reply repr_str repr_float repr_message result = Ok reply ->
  let r := run repr_str repr_float repr_message i s in
  outcome r = Ok tt
  /\ conversation (session_after r)
     = (conversation s ++ [user_message prompt; assistant_message reply])%list
  /\ effects r
     = (sidebar i
        ++ [BuildAgent genie_id "Genie"
              "This Genie space has access to sales data in Europe"]
        ++ replay_events (conversation s)
        ++ [ ChatInput "Ask me about data…";
             ChatMessageBox User; Markdown (VStr prompt);
             AgentInvoke prompt;
             ChatMessageBox Assistant; Markdown reply ])%list
  /\ count is_agent_invoke (effects r) = 1.
Proof.
  intros Henv Hid Hbuild Hin Hp Hans Hpick r. subst r.
  rewrite agent_run_summary. unfold summary, submitted.
  rewrite Henv, Hbuild, Hin, Hans, Hpick.
  destruct genie_id as [|c id]; [congruence|].
  destruct prompt as [|c' p]; [congruence|]. cbn.
  repeat split.
  - rewrite <- app_assoc. reflexivity.
  - rewrite <- !app_assoc. reflexivity.
  - count_trace.
Qed.
End AgentReplies.

(** ** The prompt composer *)

Section ComposerShape.
Import Chat SimpleChat More.
Variable repr_str : string -> string.
Variable repr_float : spec_float -> string.

Lemma mapM_ok {A B} (f : A -> result B) (l : list A) (ys : list B) :
  mapM f l = Ok ys -> Forall2 (fun x y => f x = Ok y) l ys.
Proof.
  revert ys. induction l as [|x l IH]; intros ys; cbn.
  - intros H. inversion H. constructor.
  - destruct (f x) as [y|e] eqn:Hx; [|discriminate].
    destruct (mapM f l) as [ys'|e]; [|discriminate].
    intros H. inversion H. subst. constructor; [exact Hx | now apply IH].
Qed.

Lemma mapM_first_failure {A B} (f : A -> result B) (pre post : list A)
    (x : A) (e : exn) :
  Forall (fun a => is_ok (f a) = true) pre ->
  f x = Raise e ->
  mapM f (pre ++ x :: post) = Raise e.
Proof.
  intros Hpre Hx. induction Hpre as [|a pre Ha _ IH]; cbn.
  - now rewrite Hx.
  - destruct (f a); [|discriminate]. now rewrite IH.
Qed.

(** What a returned prompt is made of. *)
Lemma prompt_parts (user_info : value) (text : string) :
  build_system_prompt repr_str repr_float user_info = Ok text ->
  exists accounts recent transactions lines tlines
         name email user_id preferences contact budgeting,
    getitem user_info "accounts" = Ok (VDict accounts)
    /\ mapM account_line accounts = Ok lines
    /\ getitem user_info "recent_transactions" = Ok recent
    /\ iter recent = Ok transactions
    /\ mapM (transaction_line repr_str repr_float) (enumerate transactions)
       = Ok tlines
    /\ getitem user_info "name" = Ok name
    /\ getitem user_info "email" = Ok email
    /\ getitem user_info "user_id" = Ok user_id
    /\ getitem user_info "preferences" = Ok preferences
    /\ getitem preferences "contact_method" = Ok contact
    /\ getitem preferences "budgeting_style" = Ok budgeting
    /\ text = prompt_text (str repr_str repr_float name)
                (str repr_str repr_float email)
                (str repr_str repr_float user_id)
                (decimal_Z (Z.of_nat (List.length accounts)))
                (String.concat nl lines) (String.concat nl tlines)
                (str repr_str repr_float contact)
                (str repr_str repr_float budgeting).
Proof.
  unfold build_system_prompt.
  destruct (getitem user_info "accounts") as [acc|] eqn:Hacc; [|discriminate].
  cbn. destruct acc as [| | | | |accounts]; try discriminate. cbn.
  destruct (mapM account_line accounts) as [lines|] eqn:Hlines;
    [|discriminate]. cbn.
  destruct (getitem user_info "recent_transactions") as [recent|] eqn:Hrec;
    [|discriminate]. cbn.
  destruct (iter recent) as [transactions|] eqn:Hiter; [|discriminate]. cbn.
  destruct (mapM _ (enumerate transactions)) as [tlines|] eqn:Htl;
    [|discriminate]. cbn.
  destruct (getitem user_info "name") as [name|] eqn:Hname; [|discriminate].
  cbn. destruct (getitem user_info "email") as [email|] eqn:Hemail;
    [|discriminate].
  cbn. destruct (getitem user_info "user_id") as [uid|] eqn:Hid;
    [|discriminate].
  cbn. destruct (getitem user_info "preferences") as [prefs|] eqn:Hpref;
    [|discriminate].
  cbn. destruct (getitem prefs "contact_method") as [contact|] eqn:Hc;
    [|discriminate].
  cbn. destruct (getitem prefs "budgeting_style") as [budget|] eqn:Hb;
    [|discriminate].
  cbn. intros H. inversion H.
  exists accounts, recent, transactions, lines, tlines,
    name, email, uid, prefs, contact, budget.
  repeat (split; [assumption || reflexivity|]). reflexivity.
Qed.

Lemma enumerate_positions {A} (l : list A) :
  map fst (enumerate l) = seq 0 (List.length l)
  /\ map snd (enumerate l) = l.
Proof.
  unfold enumerate. generalize 0. induction l as [|x l IH]; intros n.
  - split; reflexivity.
  - cbn. destruct (IH (S n)) as [-> ->]. split; reflexivity.
Qed.

(** X10.  Whatever the snapshot holds, a prompt that the composer returns
    opens with the fixed instructions and the user-information heading and
    closes with the fixed grounding instructions: the variable parts are
    all in between. *)
Theorem prompt_is_framed_by_fixed_text (user_info : value) (text : string) :
  build_system_prompt repr_str repr_float user_info = Ok text ->
  exists body : string, text = preamble ++ body ++ grounding.
Proof.
  intros H.
  destruct (prompt_parts _ _ H)
    as (accounts & recent & transactions & lines & tlines & name & email
        & uid & prefs & contact & budget & _ & _ & _ & _ & _ & _ & _ & _ & _
        & _ & _ & ->).
  exists (str repr_str repr_float name ++ nl
          ++ "Email: " ++ str repr_str repr_float email ++ nl
          ++ "User ID: " ++ str repr_str repr_float uid ++ nl ++ nl
          ++ "Number of banking accounts: "
          ++ decimal_Z (Z.of_nat (List.length accounts)) ++ nl
          ++ "Account balances:" ++ nl
          ++ String.concat nl lines ++ nl ++ nl
          ++ "Recent Transactions:" ++ nl
          ++ String.concat nl tlines ++ nl ++ nl
          ++ "# Banking Preferences" ++ nl
          ++ "Preferred Contact Method: "
          ++ str repr_str repr_float contact ++ nl
          ++ "Budgeting Style: " ++ str repr_str repr_float budget ++ nl).
  unfold prompt_text, preamble, grounding.
  rewrite !append_assoc. cbn. rewrite ?append_assoc. reflexivity.
Qed.

(** X11.  A returned prompt lists one line per account, in the order of the
    [accounts] dict, each [- key: €amount] with the amount in [,.2f], and
    one line per recent transaction, in list order and numbered from 1,
    each [n. merchant - €amount] with the amount in [.2f]; the account
    count printed above them is the number of account lines. *)
Theorem prompt_lists_every_row_in_order (user_info : value) (text : string) :
  build_system_prompt repr_str repr_float user_info = Ok text ->
  exists (accounts : list (string * value)) (recent : value)
         (transactions : list value) (lines tlines : list string),
    getitem user_info "accounts" = Ok (VDict accounts)
    /\ getitem user_info "recent_transactions" = Ok recent
    /\ iter recent = Ok transactions
    /\ Forall2 (fun kv line =>
                  exists amount,
                    format_fixed true 2 (snd kv) = Ok amount
                    /\ line = "- " ++ fst kv ++ ": €" ++ amount)
               accounts lines
    /\ Forall2 (fun it line =>
                  exists merchant amount amount_text,
                    getitem (snd it) "merchant" = Ok merchant
                    /\ getitem (snd it) "amount" = Ok amount
                    /\ format_fixed false 2 amount = Ok amount_text
                    /\ line = decimal_N (N.of_nat (fst it + 1)) ++ ". "
                              ++ str repr_str repr_float merchant
                              ++ " - €" ++ amount_text)
               (combine (seq 0 (List.length transactions)) transactions)
               tlines
    /\ contains text
         ("Number of banking accounts: "
          ++ decimal_Z (Z.of_nat (List.length lines)) ++ nl
          ++ "Account balances:" ++ nl
          ++ String.concat nl lines ++ nl ++ nl
          ++ "Recent Transactions:" ++ nl
          ++ String.concat nl tlines ++ nl ++ nl
          ++ "# Banking Preferences" ++ nl).
Proof.
  intros H.
  destruct (prompt_parts _ _ H)
    as (accounts & recent & transactions & lines & tlines & name & email
        & uid & prefs & contact & budget & Hacc & Hlines & Hrec & Hiter
        & Htl & _ & _ & _ & _ & _ & _ & ->).
  exists accounts, recent, transactions, lines, tlines.
  apply mapM_ok in Hlines. apply mapM_ok in Htl.
  repeat split; try assumption.
  - eapply Forall2_impl; [|exact Hlines].
    intros kv line. unfold account_line. cbn.
    destruct (format_fixed true 2 (snd kv)) as [amount|]; [|discriminate].
    intros E. inversion E. exists amount. split; reflexivity.
  - eapply Forall2_impl; [|exact Htl].
    intros it line. unfold transaction_line. cbn.
    destruct (getitem (snd it) "merchant") as [merchant|]; [|discriminate].
    cbn. destruct (getitem (snd it) "amount") as [amount|]; [|discriminate].
    cbn. destruct (format_fixed false 2 amount) as [amount_text|] eqn:Hf;
      [|discriminate].
    intros E. inversion E. exists merchant, amount, amount_text.
    repeat split; try reflexivity. exact Hf.
  - rewrite <- (Forall2_length Hlines).
    exists (preamble ++ str repr_str repr_float name ++ nl
            ++ "Email: " ++ str repr_str repr_float email ++ nl
            ++ "User ID: " ++ str repr_str repr_float uid ++ nl ++ nl),
           ("Preferred Contact Method: "
            ++ str repr_str repr_float contact ++ nl
            ++ "Budgeting Style: " ++ str repr_str repr_float budget ++ nl
            ++ grounding).
    unfold prompt_text, preamble, grounding.
    rewrite !append_assoc. cbn. rewrite ?append_assoc. reflexivity.
Qed.

(** X12.  The account lines are formatted in dict order and the first
    balance that cannot be formatted as a number ends the composer with
    its exception, whatever the accounts after it and the rest of the
    snapshot hold; in particular a balance kept as text raises
    [ValueError]. *)
Theorem first_bad_balance_aborts_the_composer
    (user_info : value) (pre post : list (string * value))
    (key : string) (balance : value) (e : exn) :
  getitem user_info "accounts" = Ok (VDict (pre ++ (key, balance) :: post)) ->
  Forall (fun kv => is_ok (format_fixed true 2 (snd kv)) = true) pre ->
  format_fixed true 2 balance = Raise e ->
  build_system_prompt repr_str repr_float user_info = Raise e
  /\ (forall s, balance = VStr s ->
               e = ValueError "Unknown format code 'f' for object of type 'str'").
Proof.
  intros Hacc Hpre Hbad. split.
  - unfold build_system_prompt. rewrite Hacc. cbn.
    rewrite (mapM_first_failure account_line pre post (key, balance) e).
    + reflexivity.
    + eapply Forall_impl; [|exact Hpre].
      intros kv. unfold account_line. cbn.
      now destruct (format_fixed true 2 (snd kv)).
    + unfold account_line. cbn. now rewrite Hbad.
  - intros s ->. cbn in Hbad. now inversion Hbad.
Qed.

Lemma mapM_all_ok {A B} (f : A -> result B) (l : list A) :
  Forall (fun a => is_ok (f a) = true) l ->
  exists ys, mapM f l = Ok ys.
Proof.
  induction 1 as [|a l Ha _ [ys IH]]; cbn.
  - now exists [].
  - destruct (f a) as [y|]; [|discriminate]. rewrite IH. now eexists.
Qed.

(** X13.  The composer returns a prompt for every snapshot that is a dict
    with the six keys it reads, whose accounts are a dict of values that
    format as numbers, whose recent transactions are a list of entries
    with a [merchant] and an [amount] that formats as a number, and whose
    preferences have the two keys read. *)
Theorem well_formed_snapshot_yields_a_prompt
    (user_info preferences : value)
    (accounts : list (string * value)) (transactions : list value)
    (name email user_id contact budgeting : value) :
  getitem user_info "accounts" = Ok (VDict accounts) ->
  Forall (fun kv => is_ok (format_fixed true 2 (snd kv)) = true) accounts ->
  getitem user_info "recent_transactions" = Ok (VList transactions) ->
  Forall (fun t => exists merchant amount,
                     getitem t "merchant" = Ok merchant
                     /\ getitem t "amount" = Ok amount
                     /\ is_ok (format_fixed false 2 amount) = true)
         transactions ->
  getitem user_info "name" = Ok name ->
  getitem user_info "email" = Ok email ->
  getitem user_info "user_id" = Ok user_id ->
  getitem user_info "preferences" = Ok preferences ->
  getitem preferences "contact_method" = Ok contact ->
  getitem preferences "budgeting_style" = Ok budgeting ->
  exists text : string,
    build_system_prompt repr_str repr_float user_info = Ok text.
Proof.
  intros Hacc Hbal Hrec Htr Hname Hemail Hid Hpref Hc Hb.
  assert (Hlines : exists lines, mapM account_line accounts = Ok lines).
  { apply mapM_all_ok. eapply Forall_impl; [|exact Hbal].
    intros kv. unfold account_line. cbn.
    now destruct (format_fixed true 2 (snd kv)). }
  assert (Htl : exists tlines,
             mapM (transaction_line repr_str repr_float)
                  (enumerate transactions) = Ok tlines).
  { apply mapM_all_ok. apply Forall_forall. intros [k t] Hin.
    assert (Ht : In t transactions).
    { destruct (enumerate_positions transactions) as [_ Hsnd].
      rewrite <- Hsnd. change t with (snd (k, t)). now apply in_map. }
    rewrite Forall_forall in Htr.
    destruct (Htr t Ht) as (merchant & amount & Hm & Ha & Hf).
    unfold transaction_line. cbn. rewrite Hm, Ha. cbn.
    now destruct (format_fixed false 2 amount). }
  destruct Hlines as [lines Hlines]. destruct Htl as [tlines Htl].
  unfold build_system_prompt.
  rewrite Hacc. cbn. rewrite Hlines. cbn. rewrite Hrec. cbn.
  rewrite Htl. cbn. rewrite Hname. cbn. rewrite Hemail. cbn.
  rewrite Hid. cbn. rewrite Hpref. cbn. rewrite Hc. cbn. rewrite Hb. cbn.
  now eexists.
Qed.
End ComposerShape.

(** ** The dashboard: loading the five tables *)

Section LoadFacts.
Import Dashboard More.
Variable cell : Type.
Variable ops : frame_ops cell.

Local Arguments cache_data : simpl never.
Local Arguments sqlQuery : simpl never.

(** A call that returns leaves its table in the cache. *)
Lemma call_caches key query (i : run_input cell) (w w1 : world cell) t :
  cache_data 300 key (sqlQuery i query) w = (Ok t, w1) ->
  cached key w1 = Some t.
Proof.
  unfold cached. destruct (fresh_entry 300 key w) eqn:Hfresh.
  - unfold fresh_entry in Hfresh.
    destruct (cache_lookup key (cache w)) as [[t0 stored]|] eqn:Hl;
      [|discriminate].
    rewrite (cache_hit _ _ _ _ _ _ _ Hl Hfresh). intros E. inversion E; subst.
    now rewrite Hl.
  - rewrite (cache_miss _ _ _ _ _ _ Hfresh). cbv zeta.
    destruct (sql_answer i query); [|discriminate].
    intros E. inversion E; subst. cbn. now rewrite lookup_store_same.
Qed.

(** A call leaves the entries of the other functions alone. *)
Lemma call_keeps key key' query (i : run_input cell) (w : world cell) :
  key <> key' ->
  cache_lookup key (cache (snd (cache_data 300 key' (sqlQuery i query) w)))
  = cache_lookup key (cache w).
Proof.
  intros Hne. destruct (fresh_entry 300 key' w) eqn:Hfresh.
  - unfold fresh_entry in Hfresh.
    destruct (cache_lookup key' (cache w)) as [[t0 stored]|] eqn:Hl;
      [|discriminate].
    now rewrite (cache_hit _ _ _ _ _ _ _ Hl Hfresh).
  - rewrite (cache_miss _ _ _ _ _ _ Hfresh). cbv zeta.
    destruct (sql_answer i query); cbn; [|reflexivity].
    now apply lookup_store_other.
Qed.

(** The clock never runs backwards over a call. *)
Lemma call_clock key query (i : run_input cell) (w : world cell) :
  (clock w <= clock (snd (cache_data 300 key (sqlQuery i query) w)))%Z.
Proof.
  destruct (fresh_entry 300 key w) eqn:Hfresh.
  - unfold fresh_entry in Hfresh.
    destruct (cache_lookup key (cache w)) as [[t0 stored]|] eqn:Hl;
      [|discriminate].
    rewrite (cache_hit _ _ _ _ _ _ _ Hl Hfresh). cbn. lia.
  - rewrite (cache_miss _ _ _ _ _ _ Hfresh). cbv zeta.
    destruct (sql_answer i query); cbn; lia.
Qed.

(** An entry that is not fresh stays so over the call of another function. *)
Lemma stale_stays_stale key key' query (i : run_input cell) (w : world cell) :
  key <> key' ->
  fresh_entry 300 key w = false ->
  fresh_entry 300 key (snd (cache_data 300 key' (sqlQuery i query) w)) = false.
Proof.
  intros Hne. unfold fresh_entry. rewrite (call_keeps _ _ _ _ _ Hne).
  pose proof (call_clock key' query i w) as Hclock.
  destruct (cache_lookup key (cache w)) as [[t stored]|]; [|reflexivity].
  rewrite !Z.ltb_ge. lia.
Qed.

Lemma warm_call key query f (i : run_input cell) (w : world cell) :
  warm w ->
  In (key, query, f) (@loaders cell) ->
  exists t, cache_data 300 key (sqlQuery i query) w = (Ok t, w)
            /\ cached key w = Some t.
Proof.
  intros Hwarm Hin. specialize (Hwarm _ _ _ Hin). unfold fresh_entry in Hwarm.
  unfold cached.
  destruct (cache_lookup key (cache w)) as [[t stored]|] eqn:Hl;
    [|discriminate].
  exists t. split; [|reflexivity].
  now apply (cache_hit _ _ _ _ _ _ stored).
Qed.

Ltac loader_in := cbn; repeat first [left; reflexivity | right].

(** X15.  While all five cache entries are younger than 300 seconds the
    page loads its five tables from the cache alone: each table is the
    cached one, no SQL statement is run, and cache, clock and page are
    left as they were. *)
Theorem warm_cache_serves_every_table (i : run_input cell) (w : world cell) :
  warm w ->
  exists f : frames cell,
    load_data i w = (Ok f, w)
    /\ cached "get_demographics_geo" w = Some (df_demo f)
    /\ cached "get_monthly_transactions" w = Some (df_trans f)
    /\ cached "get_card_distribution" w = Some (df_cards f)
    /\ cached "get_crm_stats" w = Some (df_crm_calls f)
    /\ cached "get_complaints_stats" w = Some (df_complaints f).
Proof.
  intros Hwarm.
  edestruct (warm_call "get_demographics_geo" demographics_query
               get_demographics_geo i w Hwarm) as (t1 & E1 & C1); [loader_in|].
  edestruct (warm_call "get_monthly_transactions" transactions_query
               get_monthly_transactions i w Hwarm) as (t2 & E2 & C2); [loader_in|].
  edestruct (warm_call "get_card_distribution" cards_query
               get_card_distribution i w Hwarm) as (t3 & E3 & C3); [loader_in|].
  edestruct (warm_call "get_crm_stats" crm_query
               get_crm_stats i w Hwarm) as (t4 & E4 & C4); [loader_in|].
  edestruct (warm_call "get_complaints_stats" complaints_query
               get_complaints_stats i w Hwarm) as (t5 & E5 & C5); [loader_in|].
  exists {| df_demo := t1; df_trans := t2; df_cards := t3;
            df_crm_calls := t4; df_complaints := t5 |}.
  split; [|repeat split; assumption].
  unfold load_data, get_demographics_geo, get_monthly_transactions,
    get_card_distribution, get_crm_stats, get_complaints_stats.
  rewrite bind_run, E1, bind_run, E2, bind_run, E3, bind_run, E4,
    bind_run, E5.
  reflexivity.
Qed.

(** The five calls of a load that returned. *)
Lemma load_steps (i : run_input cell) (w w' : world cell) (f : frames cell) :
  load_data i w = (Ok f, w') ->
  exists w1 w2 w3 w4 : world cell,
    get_demographics_geo i w = (Ok (df_demo f), w1)
    /\ get_monthly_transactions i w1 = (Ok (df_trans f), w2)
    /\ get_card_distribution i w2 = (Ok (df_cards f), w3)
    /\ get_crm_stats i w3 = (Ok (df_crm_calls f), w4)
    /\ get_complaints_stats i w4 = (Ok (df_complaints f), w').
Proof.
  unfold load_data. rewrite bind_run.
  destruct (get_demographics_geo i w) as [[t1|e] w1] eqn:E1; [|discriminate].
  rewrite bind_run.
  destruct (get_monthly_transactions i w1) as [[t2|e] w2] eqn:E2;
    [|discriminate].
  rewrite bind_run.
  destruct (get_card_distribution i w2) as [[t3|e] w3] eqn:E3;
    [|discriminate].
  rewrite bind_run.
  destruct (get_crm_stats i w3) as [[t4|e] w4] eqn:E4; [|discriminate].
  rewrite bind_run.
  destruct (get_complaints_stats i w4) as [[t5|e] w5] eqn:E5;
    [|discriminate].
  intros E. inversion E; subst. cbn. exists w1, w2, w3, w4.
  repeat split; assumption.
Qed.

Ltac kept_over H :=
  match type of H with
  | cache_data 300 ?key' (sqlQuery ?i ?q) ?w = (_, ?w') =>
      let K := fresh "K" in
      match goal with
      | |- context [cache_lookup ?key (cache w')] =>
          assert (K : cache_lookup key (cache w') = cache_lookup key (cache w))
            by (pose proof (call_keeps key key' q i w ltac:(discriminate)) as K;
                rewrite H in K; exact K);
          rewrite K; clear K
      end
  end.

(** X16.  A load that returned has left all five tables it returned in the
    cache, so a run whose cache is that one, made while the five entries
    are younger than 300 seconds, loads the same five tables without
    running SQL. *)
Theorem loaded_tables_are_served_again
    (i : run_input cell) (w w1 : world cell) (f : frames cell) :
  load_data i w = (Ok f, w1) ->
  (cached "get_demographics_geo" w1 = Some (df_demo f)
   /\ cached "get_monthly_transactions" w1 = Some (df_trans f)
   /\ cached "get_card_distribution" w1 = Some (df_cards f)
   /\ cached "get_crm_stats" w1 = Some (df_crm_calls f)
   /\ cached "get_complaints_stats" w1 = Some (df_complaints f))
  /\ (forall (i2 : run_input cell) (w2 : world cell),
         cache w2 = cache w1 ->
         warm w2 ->
         load_data i2 w2 = (Ok f, w2)).
Proof.
  intros Hload.
  assert (Hcached :
            cached "get_demographics_geo" w1 = Some (df_demo f)
            /\ cached "get_monthly_transactions" w1 = Some (df_trans f)
            /\ cached "get_card_distribution" w1 = Some (df_cards f)
            /\ cached "get_crm_stats" w1 = Some (df_crm_calls f)
            /\ cached "get_complaints_stats" w1 = Some (df_complaints f)).
  { destruct (load_steps _ _ _ _ Hload) as (a & b & c & d & E1 & E2 & E3 & E4 & E5).
    unfold get_demographics_geo, get_monthly_transactions,
      get_card_distribution, get_crm_stats, get_complaints_stats in *.
    pose proof (call_caches _ _ _ _ _ _ E1) as C1.
    pose proof (call_caches _ _ _ _ _ _ E2) as C2.
    pose proof (call_caches _ _ _ _ _ _ E3) as C3.
    pose proof (call_caches _ _ _ _ _ _ E4) as C4.
    pose proof (call_caches _ _ _ _ _ _ E5) as C5.
    unfold cached in *.
    repeat split.
    - kept_over E5. kept_over E4. kept_over E3. kept_over E2. exact C1.
    - kept_over E5. kept_over E4. kept_over E3. exact C2.
    - kept_over E5. kept_over E4. exact C3.
    - kept_over E5. exact C4.
    - exact C5. }
  split; [exact Hcached|].
  intros i2 w2 Hcache Hwarm.
  destruct Hcached as (G1 & G2 & G3 & G4 & G5).
  edestruct (warm_call "get_demographics_geo" demographics_query
               get_demographics_geo i2 w2 Hwarm) as (t1 & E1 & C1); [loader_in|].
  edestruct (warm_call "get_monthly_transactions" transactions_query
               get_monthly_transactions i2 w2 Hwarm) as (t2 & E2 & C2); [loader_in|].
  edestruct (warm_call "get_card_distribution" cards_query
               get_card_distribution i2 w2 Hwarm) as (t3 & E3 & C3); [loader_in|].
  edestruct (warm_call "get_crm_stats" crm_query
               get_crm_stats i2 w2 Hwarm) as (t4 & E4 & C4); [loader_in|].
  edestruct (warm_call "get_complaints_stats" complaints_query
               get_complaints_stats i2 w2 Hwarm) as (t5 & E5 & C5); [loader_in|].
  unfold cached in *. rewrite Hcache in *.
  unfold load_data, get_demographics_geo, get_monthly_transactions,
    get_card_distribution, get_crm_stats, get_complaints_stats.
  rewrite bind_run, E1, bind_run, E2, bind_run, E3, bind_run, E4,
    bind_run, E5.
  destruct f as [a1 a2 a3 a4 a5]. cbn in *.
  replace t1 with a1 by congruence. replace t2 with a2 by congruence.
  replace t3 with a3 by congruence. replace t4 with a4 by congruence.
  replace t5 with a5 by congruence. reflexivity.
Qed.

(** A call on an entry that is not fresh: the statement is run, its answer
    is the call's, and what was not fresh stays so. *)
Lemma cold_call key query (i : run_input cell) (w : world cell) :
  fresh_entry 300 key w = false ->
  exists w' : world cell,
    cache_data 300 key (sqlQuery i query) w = (sql_answer i query, w')
    /\ trace w' = (trace w ++ [SqlQuery (http_path i) query])%list
    /\ clock w' = (clock w + Z.of_nat (sql_seconds i query))%Z
    /\ (is_ok (sql_answer i query) = false -> cache w' = cache w)
    /\ (forall key2, key2 <> key ->
                     fresh_entry 300 key2 w = false ->
                     fresh_entry 300 key2 w' = false).
Proof.
  intros Hfresh.
  exists (snd (cache_data 300 key (sqlQuery i query) w)).
  split; [|split; [|split; [|split]]].
  - rewrite (cache_miss _ _ _ _ _ _ Hfresh). cbv zeta.
    now destruct (sql_answer i query).
  - rewrite (cache_miss _ _ _ _ _ _ Hfresh). cbv zeta.
    now destruct (sql_answer i query).
  - rewrite (cache_miss _ _ _ _ _ _ Hfresh). cbv zeta.
    now destruct (sql_answer i query).
  - rewrite (cache_miss _ _ _ _ _ _ Hfresh). cbv zeta.
    now destruct (sql_answer i query).
  - intros key2 Hne. now apply stale_stays_stale.
Qed.

Ltac cold_step H q i :=
  let w' := fresh "w" in
  let E := fresh "E" in
  let T := fresh "T" in
  let C := fresh "C" in
  let K := fresh "K" in
  let S := fresh "S" in
  let A := fresh "A" in
  destruct (cold_call _ q i _ H) as (w' & E & T & C & K & S);
  rewrite bind_run, E;
  destruct (sql_answer i q) eqn:A.

Ltac cold_leaf :=
  cbn [fst snd ret M_monad]; unfold script_order;
  cbn [attempted first_failure map list_sum];
  repeat match goal with
         | A : sql_answer _ _ = _ |- _ => rewrite A; clear A
         end;
  cbn [attempted first_failure map list_sum];
  repeat match goal with
         | T : trace _ = _ |- _ => rewrite T; clear T
         | C : clock _ = _ |- _ => rewrite C; clear C
         end;
  split; [rewrite <- ?app_assoc; reflexivity|];
  split; [intros ?; split; congruence|];
  rewrite ?Nat2Z.inj_add; cbn; lia.

(** X17.  On a cache without a fresh entry the five statements are run in
    the order of the script (demographics, transactions, cards, calls,
    complaints), each on the warehouse path of the run, up to and
    including the first one that raises; the load ends in that exception,
    or returns when none raises; the clock has advanced by the time the
    statements run took. *)
Theorem cold_cache_runs_statements_in_script_order
    (i : run_input cell) (w : world cell) :
  cold w ->
  trace (snd (load_data i w))
  = (trace w ++ map (SqlQuery (http_path i))
                   (attempted (sql_answer i) script_order))%list
  /\ (forall e, fst (load_data i w) = Raise e
                <-> first_failure (sql_answer i) script_order = Some e)
  /\ clock (snd (load_data i w))
     = (clock w
        + Z.of_nat (list_sum (map (sql_seconds i)
                                  (attempted (sql_answer i) script_order))))%Z.
Proof.
  intros Hcold.
  assert (F1 : fresh_entry 300 "get_demographics_geo" w = false)
    by (eapply Hcold; loader_in).
  assert (F2 : fresh_entry 300 "get_monthly_transactions" w = false)
    by (eapply Hcold; loader_in).
  assert (F3 : fresh_entry 300 "get_card_distribution" w = false)
    by (eapply Hcold; loader_in).
  assert (F4 : fresh_entry 300 "get_crm_stats" w = false)
    by (eapply Hcold; loader_in).
  assert (F5 : fresh_entry 300 "get_complaints_stats" w = false)
    by (eapply Hcold; loader_in).
  clear Hcold.
  unfold load_data, get_demographics_geo, get_monthly_transactions,
    get_card_distribution, get_crm_stats, get_complaints_stats.
  cold_step F1 demographics_query i; [|cold_leaf].
  apply S in F2, F3, F4, F5; try discriminate. clear S.
  cold_step F2 transactions_query i; [|cold_leaf].
  apply S in F3, F4, F5; try discriminate. clear S.
  cold_step F3 cards_query i; [|cold_leaf].
  apply S in F4, F5; try discriminate. clear S.
  cold_step F4 crm_query i; [|cold_leaf].
  apply S in F5; try discriminate. clear S.
  cold_step F5 complaints_query i; cold_leaf.
Qed.

(** X18.  A statement that raised is not remembered: the call of the query
    function ends in the exception of the statement and leaves the cache
    as it was, and the next call of that function, in any run on that
    cache at that time or later, runs the statement again. *)
Theorem failed_statement_is_run_again
    (key query : string) (f : run_input cell -> M (world cell) (table cell))
    (i : run_input cell) (w w1 : world cell) (e : exn) :
  In (key, query, f) (@loaders cell) ->
  f i w = (Raise e, w1) ->
  sql_answer i query = Raise e
  /\ cache w1 = cache w
  /\ sql_calls (trace w1) = sql_calls (trace w) + 1
  /\ (forall (i2 : run_input cell) (w2 : world cell),
         cache w2 = cache w1 ->
         (clock w1 <= clock w2)%Z ->
         trace (snd (f i2 w2))
         = (trace w2 ++ [SqlQuery (http_path i2) query])%list).
Proof.
  intros Hin. rewrite (loaders_shape _ _ _ _ Hin). intros Hcall.
  destruct (fresh_entry 300 key w) eqn:Hfresh.
  - exfalso. unfold fresh_entry in Hfresh.
    destruct (cache_lookup key (cache w)) as [[t stored]|] eqn:Hl;
      [|discriminate].
    rewrite (cache_hit _ _ _ _ _ _ _ Hl Hfresh) in Hcall. discriminate.
  - destruct (cold_call key query i w Hfresh)
      as (w' & E & T & C & K & _).
    rewrite E in Hcall. inversion Hcall as [[Hans Hw]]. subst w'.
    rewrite Hans in K. specialize (K eq_refl).
    split; [reflexivity|]. split; [exact K|]. split.
    + rewrite T, sql_calls_app. reflexivity.
    + intros i2 w2 Hcache Hlater. rewrite (loaders_shape _ _ _ _ Hin).
      assert (Hstale : fresh_entry 300 key w2 = false).
      { unfold fresh_entry in *. rewrite Hcache, K.
        destruct (cache_lookup key (cache w)) as [[t stored]|];
          [|reflexivity].
        rewrite Z.ltb_ge in *. lia. }
      destruct (cold_call key query i2 w2 Hstale) as (w3 & E3 & T3 & _).
      rewrite E3. exact T3.
Qed.
End LoadFacts.

(** ** The dashboard: drawing the page *)

Section QuietFacts.
Import Dashboard More.
Variable cell : Type.

Lemma quiet_ret {A} (a : A) : quiet (cell := cell) (ret a).
Proof. intros w. repeat split. Qed.

Lemma quiet_lift {A} (r : result A) : quiet (cell := cell) (lift r).
Proof. intros w. repeat split. Qed.

Lemma quiet_emit (e : event) : is_sql e = false -> quiet (cell := cell) (emit e).
Proof.
  intros He w. cbn. repeat split.
  rewrite filter_app. cbn. rewrite He. now rewrite app_nil_r.
Qed.

Lemma quiet_bind {A B} (c : M (world cell) A) (k : A -> M (world cell) B) :
  quiet c -> (forall a, quiet (k a)) -> quiet (x <- c ;; k x).
Proof.
  intros Hc Hk w. rewrite bind_run. specialize (Hc w).
  destruct (c w) as [[a|e] w1]; cbn in Hc |- *.
  - destruct (Hk a w1) as (H1 & H2 & H3). destruct Hc as (G1 & G2 & G3).
    repeat split; congruence.
  - exact Hc.
Qed.
End QuietFacts.

Ltac quiet_steps :=
  repeat first [ apply quiet_ret
               | apply quiet_lift
               | apply quiet_emit; reflexivity
               | apply quiet_bind; [|intros ?] ].

Section RenderShape.
Import Dashboard More.
Variable cell : Type.
Variable ops : frame_ops cell.

Lemma quiet_render (i : run_input cell) (f : frames cell) :
  quiet (render ops i f).
Proof.
  unfold render, filter_states, multiselect, tab_clients, tab_trans, tab_crm.
  quiet_steps.
  match goal with |- quiet (match ?l with _ => _ end) => destruct l end;
    quiet_steps.
Qed.

(** A call of a query function runs at most one statement. *)
Lemma call_runs_at_most_one key query (i : run_input cell) (w : world cell) :
  sql_calls (trace (snd (cache_data 300 key (sqlQuery i query) w)))
  <= sql_calls (trace w) + 1.
Proof.
  destruct (fresh_entry 300 key w) eqn:Hfresh.
  - unfold fresh_entry in Hfresh.
    destruct (cache_lookup key (cache w)) as [[t0 stored]|] eqn:Hl;
      [|discriminate].
    rewrite (cache_hit _ _ _ _ _ _ _ Hl Hfresh). cbn. lia.
  - rewrite (cache_miss _ _ _ _ _ _ Hfresh). cbv zeta.
    destruct (sql_answer i query); cbn [snd trace];
      rewrite sql_calls_app; cbn; lia.
Qed.

Ltac bounded_call key q i w :=
  let H := fresh "H" in
  pose proof (call_runs_at_most_one key q i w) as H;
  rewrite bind_run;
  destruct (cache_data 300 key (sqlQuery i q) w) as [[?|?] ?];
  cbn [snd] in H |- *; [|lia].

Lemma load_runs_at_most_five (i : run_input cell) (w : world cell) :
  sql_calls (trace (snd (load_data i w))) <= sql_calls (trace w) + 5.
Proof.
  unfold load_data, get_demographics_geo, get_monthly_transactions,
    get_card_distribution, get_crm_stats, get_complaints_stats.
  bounded_call "get_demographics_geo" demographics_query i w.
  bounded_call "get_monthly_transactions" transactions_query i w0.
  bounded_call "get_card_distribution" cards_query i w1.
  bounded_call "get_crm_stats" crm_query i w2.
  bounded_call "get_complaints_stats" complaints_query i w3.
  cbn. lia.
Qed.

(** X19.  Drawing the page (the state filter, the title and the three
    tabs) runs no SQL statement and leaves cache and clock as they are,
    however it ends; so all SQL of a run is run while the five tables are
    loaded, a run executes at most five statements, and the cache a run
    leaves is the one its loading left. *)
Theorem drawing_the_page_runs_no_sql :
  (forall (i : run_input cell) (f : frames cell) (w : world cell),
      cache (snd (render ops i f w)) = cache w
      /\ clock (snd (render ops i f w)) = clock w
      /\ sql_calls (trace (snd (render ops i f w))) = sql_calls (trace w))
  /\ (forall (i : run_input cell) (w : world cell),
         cache (snd (page ops i w)) = cache (snd (startup i w))
         /\ sql_calls (trace (snd (page ops i w)))
            = sql_calls (trace (snd (startup i w)))
         /\ sql_calls (trace (snd (page ops i w))) <= sql_calls (trace w) + 5).
Proof.
  assert (Hrender : forall i f w,
             cache (snd (render ops i f w)) = cache w
             /\ clock (snd (render ops i f w)) = clock w
             /\ sql_calls (trace (snd (render ops i f w)))
                = sql_calls (trace w)).
  { intros i f w. destruct (quiet_render i f w) as (H1 & H2 & H3).
    unfold sql_calls. now rewrite H3. }
  split; [exact Hrender|].
  intros i w.
  assert (Hpage : cache (snd (page ops i w)) = cache (snd (startup i w))
                  /\ sql_calls (trace (snd (page ops i w)))
                     = sql_calls (trace (snd (startup i w)))).
  { unfold page. rewrite bind_run.
    destruct (startup i w) as [[f|e] w1]; cbn [snd]; [|split; reflexivity].
    destruct (Hrender i f w1) as (H1 & _ & H3). now split. }
  destruct Hpage as [Hc Hs]. split; [exact Hc|]. split; [exact Hs|].
  rewrite Hs. clear Hc Hs.
  unfold startup, assert_truthy, raise.
  destruct (getenv i "DATABRICKS_WAREHOUSE_ID") as [[|c id]|];
    cbn -[load_data]; try lia.
  etransitivity; [apply load_runs_at_most_five|].
  cbn [trace]. rewrite !sql_calls_app. cbn. lia.
Qed.

Lemma select_by_column {A B} (p : B -> bool) (g : A -> B) (l : list A) :
  select (map p (map g l)) l = filter (fun x => p (g x)) l.
Proof.
  induction l as [|x l IH]; [reflexivity|].
  cbn. rewrite IH. reflexivity.
Qed.

(** X20.  The state filter: the options are the sorted distinct states of
    the demographics, the default selection their first five; the filtered
    table has the columns of the demographics and, of its rows, those
    whose state is among the selected ones, in their order; an empty
    selection keeps every row instead of none.  Only the widget is added
    to the page. *)
Theorem state_filter_keeps_the_selected_rows
    (i : run_input cell) (demo demo' : table cell) (w w' : world cell) :
  filter_states ops i demo w = (Ok demo', w') ->
  exists (k : nat) (all_states : list cell),
    index_of "state_name" (columns demo) = Some k
    /\ sorted_unique ops (map (fun row => nth k row (null ops)) (rows demo))
       = Ok all_states
    /\ columns demo' = columns demo
    /\ rows demo'
       = match match multiselect_answer i with
               | Some chosen => chosen
               | None => firstn 5 all_states
               end with
         | [] => rows demo
         | chosen =>
             filter (fun row => isin ops chosen (nth k row (null ops)))
                    (rows demo)
         end
    /\ w' = {| cache := cache w; clock := clock w;
               trace := (trace w
                         ++ [Render "sidebar.multiselect"
                               "Select States (Client View)"])%list |}.
Proof.
  unfold filter_states, multiselect, column, lift.
  destruct (index_of "state_name" (columns demo)) as [k|] eqn:Hk;
    [|cbn; discriminate].
  cbn -[firstn].
  destruct (sorted_unique ops _) as [all_states|] eqn:Hall;
    [|cbn; discriminate].
  cbn -[firstn]. intros H. exists k, all_states.
  split; [reflexivity|]. split; [exact Hall|].
  destruct (match multiselect_answer i with
            | Some chosen => chosen
            | None => firstn 5 all_states
            end) as [|c chosen] eqn:Hsel.
  - inversion H; subst. repeat split.
  - inversion H; subst. cbn.
    repeat split. apply select_by_column.
Qed.

Lemma select_none {A} (months : list (option Z)) (l : list A) :
  select (map (month_is None) months) l = [].
Proof.
  revert l. induction months as [|m months IH]; intros [|x l];
    try reflexivity.
  cbn. apply IH.
Qed.

Lemma max_month_undated (months : list (option Z)) :
  Forall (fun m => m = None) months -> max_month months = None.
Proof.
  induction 1 as [|m months -> _ IH]; [reflexivity|]. cbn. exact IH.
Qed.

Lemma max_month_greatest (months : list (option Z)) (m : Z) :
  max_month months = Some m ->
  In (Some m) months /\ (forall m', In (Some m') months -> (m' <= m)%Z).
Proof.
  revert m. induction months as [|[a|] months IH]; intros m; cbn.
  - discriminate.
  - destruct (max_month months) as [b|] eqn:Hb.
    + intros E. inversion E; subst. destruct (IH b eq_refl) as [Hin Hle].
      split.
      * destruct (Z.max_spec a b) as [[_ ->]|[_ ->]]; [right|left]; auto.
      * intros m' [E'|Hin']; [inversion E'; lia|].
        specialize (Hle m' Hin'). lia.
    + intros E. inversion E; subst. split; [now left|].
      intros m' [E'|Hin']; [inversion E'; lia|].
      exfalso. clear IH E.
      induction months as [|[c|] months IH']; cbn in *.
      * contradiction.
      * destruct (max_month months); discriminate.
      * destruct Hin' as [?|Hin']; [discriminate|]. now apply IH'.
  - intros E. destruct (IH m E) as [Hin Hle]. split; [now right|].
    intros m' [E'|Hin']; [discriminate|]. now apply Hle.
Qed.

Lemma first_selected {A B} (p : B -> bool) (l : list B) (xs : list A) (x : A) :
  iloc0 (select (map p l) xs) = Ok x ->
  exists (k : nat) (b : B),
    nth_error l k = Some b /\ p b = true /\ nth_error xs k = Some x
    /\ (forall j b', j < k -> nth_error l j = Some b' -> p b' = false).
Proof.
  revert xs. induction l as [|b l IH]; intros [|y xs]; cbn;
    try discriminate.
  destruct (p b) eqn:Hp.
  - cbn. intros E. inversion E; subst. exists 0, b.
    repeat split; try reflexivity; try assumption. intros j b' Hj. lia.
  - intros E. destruct (IH xs E) as (k & b0 & Hk & Hb & Hx & Hfirst).
    exists (S k), b0. repeat split; try assumption.
    intros [|j] b' Hj; cbn.
    + intros E'. inversion E'; subst. exact Hp.
    + apply Hfirst. lia.
Qed.

Lemma month_is_same (latest : option Z) (m : option Z) :
  month_is latest m = true -> exists z, latest = Some z /\ m = Some z.
Proof.
  destruct latest as [a|], m as [b|]; cbn; try discriminate.
  intros E. apply Z.eqb_eq in E. subst. now exists b.
Qed.

Local Arguments column : simpl never.
Local Arguments row_get : simpl never.
Local Arguments chart_columns : simpl never.
Local Arguments iloc0 : simpl never.
Local Arguments select : simpl never.
Local Arguments max_month : simpl never.
Local Arguments mapM : simpl never.

(** X21.  The transactions tab on a table whose months are all [NaT]
    (in particular on a table without rows): the greatest month is [NaT],
    which equals no month, so no row is selected and [.iloc[0]] raises
    [IndexError]; only the subheader was shown.  A month that cannot be
    converted ends the tab with the exception of the conversion. *)
Theorem undated_months_abort_the_tab
    (trans : table cell) (w : world cell) (raw : list cell) :
  column ops trans "kpi_month" = Ok raw ->
  (forall months,
      mapM (to_datetime ops) raw = Ok months ->
      Forall (fun m => m = None) months ->
      tab_trans ops trans w
      = (Raise (IndexError "single positional indexer is out-of-bounds"),
         {| cache := cache w; clock := clock w;
            trace := (trace w
                      ++ [Render "subheader"
                            "Financial Performance Over Time"])%list |}))
  /\ (forall e,
         mapM (to_datetime ops) raw = Raise e ->
         fst (tab_trans ops trans w) = Raise e).
Proof.
  intros Hraw. split.
  - intros months Hmonths Hnat. unfold tab_trans, lift. cbn.
    rewrite Hraw. cbn. rewrite Hmonths. cbn.
    rewrite (max_month_undated _ Hnat), select_none. reflexivity.
  - intros e He. unfold tab_trans, lift. cbn.
    rewrite Hraw. cbn. rewrite He. reflexivity.
Qed.

(** X22.  A transactions tab that is drawn to its end shows the three
    metrics of one row: the first row, in table order, whose month is the
    greatest month of the table; the metrics are its [total_amount] in
    [,.0f] after a dollar sign, its [transaction_count] in [,] and its
    [average_ending_balance] in [,.0f] after a dollar sign, followed by
    the two charts and the table itself. *)
Theorem latest_metrics_are_of_the_greatest_month
    (trans : table cell) (w w' : world cell) :
  tab_trans ops trans w = (Ok tt, w') ->
  exists (raw : list cell) (months : list (option Z)) (k : nat) (m : Z)
         (row : list cell) (total count balance : cell)
         (volume_text count_text balance_text : string),
    column ops trans "kpi_month" = Ok raw
    /\ mapM (to_datetime ops) raw = Ok months
    /\ nth_error months k = Some (Some m)
    /\ nth_error (rows trans) k = Some row
    /\ (forall m', In (Some m') months -> (m' <= m)%Z)
    /\ (forall j, j < k -> nth_error months j <> Some (Some m))
    /\ row_get ops trans row "total_amount" = Ok total
    /\ format_cell ops ",.0f" total = Ok volume_text
    /\ row_get ops trans row "transaction_count" = Ok count
    /\ format_cell ops "," count = Ok count_text
    /\ row_get ops trans row "average_ending_balance" = Ok balance
    /\ format_cell ops ",.0f" balance = Ok balance_text
    /\ trace w'
       = (trace w
          ++ [ Render "subheader" "Financial Performance Over Time";
               Metric "Latest Monthly Volume" ("$" ++ volume_text);
               Metric "Latest Tx Count" count_text;
               Metric "Avg Ending Balance" ("$" ++ balance_text);
               Chart "Monthly Transaction Volume vs Count";
               Chart "Average Account Balance Trends";
               Render "expander" "🔍 View Transaction Data";
               Render "dataframe" "df_trans" ])%list.
Proof.
  unfold tab_trans, lift. cbn.
  destruct (column ops trans "kpi_month") as [raw|] eqn:Hraw;
    [|discriminate].
  cbn. destruct (mapM (to_datetime ops) raw) as [months|] eqn:Hmonths;
    [|discriminate].
  cbn. destruct (iloc0 _) as [row|] eqn:Hrow; [|discriminate].
  cbn. destruct (row_get ops trans row "total_amount") as [total|] eqn:Ht;
    [|discriminate].
  cbn. destruct (format_cell ops ",.0f" total) as [vt|] eqn:Hvt;
    [|discriminate].
  cbn. destruct (row_get ops trans row "transaction_count") as [cnt|] eqn:Hc;
    [|discriminate].
  cbn. destruct (format_cell ops "," cnt) as [ct|] eqn:Hct; [|discriminate].
  cbn. destruct (row_get ops trans row "average_ending_balance")
    as [bal|] eqn:Hb; [|discriminate].
  cbn. destruct (format_cell ops ",.0f" bal) as [bt|] eqn:Hbt;
    [|discriminate].
  cbn. destruct (column ops trans "total_amount"); [|discriminate].
  cbn. destruct (column ops trans "transaction_count"); [|discriminate].
  cbn. destruct (chart_columns trans _) as [[]|]; [|discriminate].
  cbn. intros E. inversion E as [Hw]. clear E.
  destruct (first_selected _ _ _ _ Hrow) as (k & mo & Hk & Hsel & Hx & Hfirst).
  destruct (month_is_same _ _ Hsel) as (m & Hmax & ->).
  destruct (max_month_greatest _ _ Hmax) as [_ Hle].
  exists raw, months, k, m, row, total, cnt, bal, vt, ct, bt.
  repeat split; try assumption.
  - intros j Hj Hnth. specialize (Hfirst j (Some m) Hj Hnth).
    rewrite Hmax in Hfirst. cbn in Hfirst. now rewrite Z.eqb_refl in Hfirst.
  - rewrite <- !app_assoc. reflexivity.
Qed.
Lemma filter_states_page (i : run_input cell) (demo demo' : table cell)
    (w w' : world cell) :
  filter_states ops i demo w = (Ok demo', w') ->
  w' = {| cache := cache w; clock := clock w;
          trace := (trace w
                    ++ [Render "sidebar.multiselect"
                          "Select States (Client View)"])%list |}.
Proof.
  unfold filter_states, multiselect, lift. cbn -[firstn].
  destruct (column ops demo "state_name") as [states|]; [|discriminate].
  cbn -[firstn].
  destruct (sorted_unique ops states) as [all_states|]; [|discriminate].
  cbn -[firstn].
  destruct (match multiselect_answer i with
            | Some chosen => chosen
            | None => firstn 5 all_states
            end); cbn.
  - intros E. inversion E. reflexivity.
  - intros E. inversion E. reflexivity.
Qed.

Local Arguments grouped_sum : simpl never.

Lemma tab_clients_page (demo cards : table cell) (w w' : world cell) :
  tab_clients ops demo cards w = (Ok tt, w') ->
  exists (counts : list cell) (total : cell) (total_text : string),
    column ops demo "client_count" = Ok counts
    /\ col_sum ops counts = Ok total
    /\ format_cell ops "," total = Ok total_text
    /\ w' = {| cache := cache w; clock := clock w;
               trace := (trace w
                         ++ [ Render "subheader"
                                "Client Demographics & Card Portfolio";
                              Metric "Total Clients (Selected States)"
                                total_text;
                              Chart "Client Distribution by Age Group";
                              Chart "Client Distribution by Gender";
                              Render "divider" "";
                              Chart "Top States by Client Count";
                              Chart "Credit Card Portfolio Mix" ])%list |}.
Proof.
  unfold tab_clients, lift. cbn.
  destruct (column ops demo "client_count") as [counts|] eqn:Hcounts;
    [|discriminate].
  cbn. destruct (col_sum ops counts) as [total|] eqn:Htotal; [|discriminate].
  cbn. destruct (format_cell ops "," total) as [text|] eqn:Htext;
    [|discriminate].
  cbn. destruct (grouped_sum ops demo "age_group" "client_count") as [[]|];
    [|discriminate].
  cbn. destruct (grouped_sum ops demo "sex" "client_count") as [[]|];
    [|discriminate].
  cbn. destruct (grouped_sum ops demo "state_name" "client_count") as [[]|];
    [|discriminate].
  cbn. destruct (chart_columns cards _) as [[]|]; [|discriminate].
  cbn. intros E. inversion E. clear E.
  exists counts, total, text. repeat split; try assumption.
  rewrite <- !app_assoc. reflexivity.
Qed.

Lemma tab_trans_page (trans : table cell) (w w' : world cell) :
  tab_trans ops trans w = (Ok tt, w') ->
  exists volume_text count_text balance_text : string,
    w' = {| cache := cache w; clock := clock w;
            trace := (trace w
                      ++ [ Render "subheader" "Financial Performance Over Time";
                           Metric "Latest Monthly Volume" ("$" ++ volume_text);
                           Metric "Latest Tx Count" count_text;
                           Metric "Avg Ending Balance" ("$" ++ balance_text);
                           Chart "Monthly Transaction Volume vs Count";
                           Chart "Average Account Balance Trends";
                           Render "expander" "🔍 View Transaction Data";
                           Render "dataframe" "df_trans" ])%list |}.
Proof.
  unfold tab_trans, lift. cbn.
  destruct (column ops trans "kpi_month") as [raw|]; [|discriminate].
  cbn. destruct (mapM (to_datetime ops) raw) as [months|]; [|discriminate].
  cbn. destruct (iloc0 _) as [row|]; [|discriminate].
  cbn. destruct (row_get ops trans row "total_amount") as [total|];
    [|discriminate].
  cbn. destruct (format_cell ops ",.0f" total) as [vt|]; [|discriminate].
  cbn. destruct (row_get ops trans row "transaction_count") as [cnt|];
    [|discriminate].
  cbn. destruct (format_cell ops "," cnt) as [ct|]; [|discriminate].
  cbn. destruct (row_get ops trans row "average_ending_balance") as [bal|];
    [|discriminate].
  cbn. destruct (format_cell ops ",.0f" bal) as [bt|]; [|discriminate].
  cbn. destruct (column ops trans "total_amount"); [|discriminate].
  cbn. destruct (column ops trans "transaction_count"); [|discriminate].
  cbn. destruct (chart_columns trans _) as [[]|]; [|discriminate].
  cbn. intros E. inversion E. clear E.
  exists vt, ct, bt. rewrite <- !app_assoc. reflexivity.
Qed.

Lemma tab_crm_page (crm_calls complaints : table cell) (w w' : world cell) :
  tab_crm crm_calls complaints w = (Ok tt, w') ->
  w' = {| cache := cache w; clock := clock w;
          trace := (trace w
                    ++ [ Render "subheader" "Customer Support Analysis";
                         Chart "Call Center Volume by Hour of Day";
                         Render "caption" "Bar color indicates average call duration (seconds).";
                         Chart "Complaints by Product Category";
                         Render "expander" "🔍 View CRM Source Data";
                         Render "write" "Calls by Priority";
                         Render "dataframe" "df_crm_calls" ])%list |}.
Proof.
  unfold tab_crm, lift. cbn.
  destruct (chart_columns crm_calls _) as [[]|]; [|discriminate].
  cbn. destruct (chart_columns complaints _) as [[]|]; [|discriminate].
  cbn. intros E. inversion E. rewrite <- !app_assoc. reflexivity.
Qed.

Local Arguments filter_states : simpl never.
Local Arguments tab_clients : simpl never.
Local Arguments tab_trans : simpl never.
Local Arguments tab_crm : simpl never.

(** X26.  The layout of a page that is drawn to its end, after the five
    tables are there: the state filter in the sidebar, the title, the
    introduction and the three tabs; in the clients tab the total of
    [client_count] over the filtered demographics in [,], the charts by
    age group, by gender and by state, and the card chart; in the
    transactions tab the three metrics, the two charts and the table; in
    the support tab the two charts and the calls table.  The filter
    reaches the clients tab only. *)
Theorem completed_page_layout
    (i : run_input cell) (f : frames cell) (w w' : world cell) :
  render ops i f w = (Ok tt, w') ->
  exists (demo' : table cell) (w0 : world cell) (counts : list cell)
         (total : cell)
         (total_text volume_text count_text balance_text : string),
    filter_states ops i (df_demo f) w = (Ok demo', w0)
    /\ column ops demo' "client_count" = Ok counts
    /\ col_sum ops counts = Ok total
    /\ format_cell ops "," total = Ok total_text
    /\ trace w'
       = (trace w
          ++ [ Render "sidebar.multiselect" "Select States (Client View)";
               Render "title" "🏦 Retail Banking Insights";
               Render "markdown" "Overview of Client Demographics, Transaction Trends, and CRM Performance based on Gold Layer data.";
               Render "tabs" "👥 Clients & Accounts, 💳 Transaction Trends, 📞 CRM & Support";
               Render "subheader" "Client Demographics & Card Portfolio";
               Metric "Total Clients (Selected States)" total_text;
               Chart "Client Distribution by Age Group";
               Chart "Client Distribution by Gender";
               Render "divider" "";
               Chart "Top States by Client Count";
               Chart "Credit Card Portfolio Mix";
               Render "subheader" "Financial Performance Over Time";
               Metric "Latest Monthly Volume" ("$" ++ volume_text);
               Metric "Latest Tx Count" count_text;
               Metric "Avg Ending Balance" ("$" ++ balance_text);
               Chart "Monthly Transaction Volume vs Count";
               Chart "Average Account Balance Trends";
               Render "expander" "🔍 View Transaction Data";
               Render "dataframe" "df_trans";
               Render "subheader" "Customer Support Analysis";
               Chart "Call Center Volume by Hour of Day";
               Render "caption" "Bar color indicates average call duration (seconds).";
               Chart "Complaints by Product Category";
               Render "expander" "🔍 View CRM Source Data";
               Render "write" "Calls by Priority";
               Render "dataframe" "df_crm_calls" ])%list.
Proof.
  unfold render. rewrite bind_run.
  destruct (filter_states ops i (df_demo f) w) as [[demo'|] w0] eqn:Hf;
    [|discriminate].
  pose proof (filter_states_page _ _ _ _ _ Hf) as Hw0.
  cbn.
  match goal with
  | |- context [tab_clients ops demo' (df_cards f) ?w1] =>
      destruct (tab_clients ops demo' (df_cards f) w1) as [[[]|] w2] eqn:Hc;
      [|discriminate]
  end.
  destruct (tab_trans ops (df_trans f) w2) as [[[]|] w3] eqn:Ht;
    [|discriminate].
  intros Hcrm.
  apply tab_clients_page in Hc.
  destruct Hc as (counts & total & text & Hcounts & Htotal & Htext & ->).
  apply tab_trans_page in Ht. destruct Ht as (vt & ct & bt & ->).
  apply tab_crm_page in Hcrm. subst w'.
  exists demo', w0, counts, total, text, vt, ct, bt.
  split; [reflexivity|]. split; [exact Hcounts|]. split; [exact Htotal|].
  split; [exact Htext|].
  subst w0. cbn [trace]. rewrite <- !app_assoc. reflexivity.
Qed.
End RenderShape.

(** ** The dashboard: tables that draw *)

Ltac have_columns :=
  unfold Dashboard.has_columns, Dashboard.has_column in *; cbn in *;
  repeat match goal with
         | H : context [match Dashboard.index_of ?n ?c with _ => _ end]
           |- _ =>
             destruct (Dashboard.index_of n c) eqn:?; cbn in H;
             try discriminate H
         end.

Ltac found :=
  unfold Dashboard.has_column;
  repeat match goal with
         | H : Dashboard.index_of _ _ = Some _ |- _ => rewrite H
         end;
  cbn.

Section Completeness.
Import Dashboard More.
Variable cell : Type.
Variable ops : frame_ops cell.
Hypothesis Hops : never_raise ops.

Lemma forall2_in {A B} (R : A -> B -> Prop) (l : list A) (l' : list B) x :
  Forall2 R l l' -> In x l -> exists y, In y l' /\ R x y.
Proof.
  induction 1 as [|a b l l' Hab _ IH]; [contradiction|].
  intros [->|Hin].
  - exists b. split; [now left | exact Hab].
  - destruct (IH Hin) as (y & Hy & Hxy). exists y. split; [now right | exact Hxy].
Qed.

Lemma max_month_dated (months : list (option Z)) (m0 : Z) :
  In (Some m0) months -> exists m, max_month months = Some m.
Proof.
  induction months as [|[a|] months IH]; cbn.
  - contradiction.
  - intros _. destruct (max_month months); now eexists.
  - intros [?|Hin]; [discriminate | now apply IH].
Qed.

Lemma select_hits {A B} (p : B -> bool) (l : list B) (xs : list A) (b : B) :
  In b l -> p b = true -> List.length l = List.length xs ->
  exists x, iloc0 (select (map p l) xs) = Ok x.
Proof.
  revert xs. induction l as [|b0 l IH]; intros [|x xs]; cbn;
    try contradiction; try discriminate.
  intros Hin Hp Hlen. destruct (p b0) eqn:Hp0.
  - now exists x.
  - destruct Hin as [->|Hin]; [congruence|].
    apply IH; try assumption. now inversion Hlen.
Qed.

Ltac total_op :=
  match goal with
  | |- context [match ?x with Ok _ => _ | Raise _ => _ end] =>
      lazymatch x with
      | context [match _ with _ => _ end] => fail
      | _ =>
          let E := fresh "E" in
          destruct x eqn:E;
          [|exfalso;
            let T := fresh "T" in
            assert (T : is_ok x = true)
              by (destruct Hops as (T1 & T2 & T3 & T4);
                  first [apply T1 | apply T2 | apply T3 | apply T4]);
            rewrite E in T; discriminate T]
      end
  end.

Lemma filter_states_returns (i : run_input cell) (demo : table cell)
    (w : world cell) :
  has_column demo "state_name" = true ->
  exists demo' w',
    filter_states ops i demo w = (Ok demo', w')
    /\ columns demo' = columns demo.
Proof.
  intros Hcol. unfold filter_states, multiselect, column, lift, has_column in *.
  destruct (index_of "state_name" (columns demo)) as [k|]; [|discriminate].
  cbn -[firstn]. total_op. cbn -[firstn].
  match goal with
  | |- context [match ?sel with [] => _ | _ :: _ => _ end] => destruct sel
  end; cbn; eexists _, _; split; reflexivity.
Qed.

Lemma tab_clients_returns (demo cards : table cell) (w : world cell) :
  has_columns demo ["state_name"; "client_count"; "age_group"; "sex"] = true ->
  has_columns cards ["card_type"; "card_count"] = true ->
  fst (tab_clients ops demo cards w) = Ok tt.
Proof.
  intros Hdemo Hcards.
  unfold tab_clients, grouped_sum, column, lift. have_columns.
  repeat (total_op; cbn). found. reflexivity.
Qed.

Lemma tab_crm_returns (crm_calls complaints : table cell) (w : world cell) :
  has_columns crm_calls ["hour"; "count"; "average_time"] = true ->
  has_columns complaints ["product"; "count"] = true ->
  fst (tab_crm crm_calls complaints w) = Ok tt.
Proof.
  intros Hcalls Hcomp. unfold tab_crm, lift. have_columns. found.
  reflexivity.
Qed.

Lemma tab_trans_returns (trans : table cell) (w : world cell) :
  has_columns trans ["kpi_month"; "total_amount"; "transaction_count";
                     "average_ending_balance"] = true ->
  dated ops trans ->
  fst (tab_trans ops trans w) = Ok tt.
Proof.
  intros Hcols (row & c & m0 & Hrow & Hc & Hm0).
  unfold tab_trans, row_get, column, lift in *. have_columns.
  inversion Hc; subst c. clear Hc.
  match goal with
  | |- context [mapM (to_datetime ops) ?raw] =>
      destruct (mapM_all_ok (to_datetime ops) raw) as [months Hmonths]
  end.
  { apply Forall_forall. intros x _. destruct Hops as (T1 & _). apply T1. }
  rewrite Hmonths. cbn.
  pose proof (mapM_ok _ _ _ Hmonths) as Hall.
  assert (Hin : In (Some m0) months).
  { destruct (forall2_in _ _ _ _ Hall (in_map _ _ _ Hrow)) as (y & Hy & Hxy).
    cbn in Hxy. rewrite Hm0 in Hxy. now inversion Hxy; subst. }
  destruct (max_month_dated _ _ Hin) as [m Hmax].
  destruct (max_month_greatest _ _ Hmax) as [Hthere _].
  destruct (select_hits (month_is (max_month months)) months (rows trans)
              (Some m) Hthere) as [latest Hlatest].
  { rewrite Hmax. cbn. apply Z.eqb_refl. }
  { rewrite <- (Forall2_length Hall). now rewrite length_map. }
  rewrite Hlatest. cbn.
  repeat (total_op; cbn). found. reflexivity.
Qed.

Local Arguments filter_states : simpl never.
Local Arguments tab_clients : simpl never.
Local Arguments tab_trans : simpl never.
Local Arguments tab_crm : simpl never.

(** X23.  With cell operations that never raise, the conditions that a
    finished run implies are also enough: five tables that each have the
    columns the page reads, the transactions with a row whose month is not
    [NaT], are drawn to the end, the filter and all three tabs, in every
    run and for every selection of states. *)
Theorem well_formed_tables_draw_the_page
    (i : run_input cell) (f : frames cell) :
  non_degenerate f ->
  dated ops (df_trans f) ->
  (forall w : world cell, fst (render ops i f w) = Ok tt)
  /\ (forall w w' : world cell,
         startup i w = (Ok f, w') -> fst (page ops i w) = Ok tt).
Proof.
  intros (Hdemo & Hcards & Htrans & _ & Hcalls & Hcomp) Hdated.
  assert (Hrender : forall w, fst (render ops i f w) = Ok tt).
  { intros w. unfold render. rewrite bind_run.
    destruct (filter_states_returns i (df_demo f) w) as (demo' & w' & -> & Hsame).
    { unfold has_columns in Hdemo. cbn in Hdemo.
      now destruct (has_column (df_demo f) "state_name"). }
    rewrite <- (has_columns_ext _ _ _ _ Hsame) in Hdemo.
    cbn.
    match goal with
    | |- context [tab_clients ops demo' (df_cards f) ?w1] =>
        pose proof (tab_clients_returns demo' (df_cards f) w1 Hdemo Hcards)
          as Hc;
        destruct (tab_clients ops demo' (df_cards f) w1) as [[[]|e] w2];
        [|discriminate Hc]
    end.
    pose proof (tab_trans_returns (df_trans f) w2 Htrans Hdated) as Ht.
    destruct (tab_trans ops (df_trans f) w2) as [[[]|e] w3];
      [|discriminate Ht].
    apply tab_crm_returns; assumption. }
  split; [exact Hrender|].
  intros w w' Hstart. unfold page. rewrite bind_run, Hstart. apply Hrender.
Qed.
End Completeness.

(** ** The dashboard: where the statements go *)

Section WarehouseFacts.
Import Dashboard More.
Variable cell : Type.
Variable ops : frame_ops cell.

Lemma call_sql_events key query (i : run_input cell) (w : world cell) :
  exists qs : list string,
    incl qs [query]
    /\ filter is_sql (trace (snd (cache_data 300 key (sqlQuery i query) w)))
       = (filter is_sql (trace w) ++ map (SqlQuery (http_path i)) qs)%list.
Proof.
  destruct (fresh_entry 300 key w) eqn:Hfresh.
  - unfold fresh_entry in Hfresh.
    destruct (cache_lookup key (cache w)) as [[t0 stored]|] eqn:Hl;
      [|discriminate].
    rewrite (cache_hit _ _ _ _ _ _ _ Hl Hfresh). exists []. split.
    + intros x [].
    + cbn. now rewrite app_nil_r.
  - rewrite (cache_miss _ _ _ _ _ _ Hfresh). cbv zeta. exists [query]. split.
    + apply incl_refl.
    + destruct (sql_answer i query); cbn [snd trace];
        rewrite filter_app; reflexivity.
Qed.

Ltac traced_call key q i w :=
  let qs := fresh "qs" in
  let Hin := fresh "Hin" in
  let Hq := fresh "Hq" in
  destruct (call_sql_events key q i w) as (qs & Hin & Hq);
  rewrite bind_run;
  destruct (cache_data 300 key (sqlQuery i q) w) as [[?|?] ?];
  cbn [snd] in Hq |- *.

Lemma load_sql_events (i : run_input cell) (w : world cell) :
  exists qs : list string,
    incl qs script_order
    /\ filter is_sql (trace (snd (load_data i w)))
       = (filter is_sql (trace w) ++ map (SqlQuery (http_path i)) qs)%list.
Proof.
  unfold load_data, get_demographics_geo, get_monthly_transactions,
    get_card_distribution, get_crm_stats, get_complaints_stats.
  traced_call "get_demographics_geo" demographics_query i w.
  2:{ exists qs. split; [|exact Hq].
      intros x Hx. apply Hin in Hx. destruct Hx as [<-|[]].
      unfold script_order. cbn. tauto. }
  traced_call "get_monthly_transactions" transactions_query i w0.
  2:{ exists (qs ++ qs0)%list. split.
      - intros x Hx. apply in_app_or in Hx.
        destruct Hx as [Hx|Hx]; [apply Hin in Hx | apply Hin0 in Hx];
          destruct Hx as [<-|[]]; unfold script_order; cbn; tauto.
      - rewrite Hq0, Hq, map_app, app_assoc. reflexivity. }
  traced_call "get_card_distribution" cards_query i w1.
  2:{ exists (qs ++ qs0 ++ qs1)%list. split.
      - intros x Hx. repeat (apply in_app_or in Hx; destruct Hx as [Hx|Hx]);
          [apply Hin in Hx | apply Hin0 in Hx | apply Hin1 in Hx];
          destruct Hx as [<-|[]]; unfold script_order; cbn; tauto.
      - rewrite Hq1, Hq0, Hq, !map_app, <- !app_assoc. reflexivity. }
  traced_call "get_crm_stats" crm_query i w2.
  2:{ exists (qs ++ qs0 ++ qs1 ++ qs2)%list. split.
      - intros x Hx. repeat (apply in_app_or in Hx; destruct Hx as [Hx|Hx]);
          [apply Hin in Hx | apply Hin0 in Hx | apply Hin1 in Hx
           | apply Hin2 in Hx];
          destruct Hx as [<-|[]]; unfold script_order; cbn; tauto.
      - rewrite Hq2, Hq1, Hq0, Hq, !map_app, <- !app_assoc. reflexivity. }
  traced_call "get_complaints_stats" complaints_query i w3.
  all: exists (qs ++ qs0 ++ qs1 ++ qs2 ++ qs3)%list; split;
    [ intros x Hx; repeat (apply in_app_or in Hx; destruct Hx as [Hx|Hx]);
      [apply Hin in Hx | apply Hin0 in Hx | apply Hin1 in Hx
       | apply Hin2 in Hx | apply Hin3 in Hx];
      destruct Hx as [<-|[]]; unfold script_order; cbn; tauto
    | cbn [snd ret M_monad];
      rewrite ?Hq3, Hq2, Hq1, Hq0, Hq, !map_app, <- !app_assoc; try exact Hq3;
      reflexivity ].
Qed.

(** X24.  A run sends the warehouse nothing but the five statements of
    the script, each to the SQL path of the configured warehouse: every
    statement in the trace of a run that the trace did not hold before is
    one of the five and is sent to [/sql/1.0/warehouses/<id>], with the id
    that is set and not empty, never to the path of an unset id. *)
Theorem statements_go_to_the_configured_warehouse
    (i : run_input cell) (w : world cell) (path query : string) :
  In (SqlQuery path query) (trace (snd (page ops i w))) ->
  In (SqlQuery path query) (trace w)
  \/ (exists id : string,
         getenv i "DATABRICKS_WAREHOUSE_ID" = Some id
         /\ id <> ""
         /\ path = "/sql/1.0/warehouses/" ++ id
         /\ In query script_order).
Proof.
  intros Hin.
  assert (Hsql : In (SqlQuery path query)
                    (filter is_sql (trace (snd (startup i w))))).
  { assert (Hf : In (SqlQuery path query)
                    (filter is_sql (trace (snd (page ops i w)))))
      by (apply filter_In; split; [exact Hin | reflexivity]).
    revert Hf. unfold page. rewrite bind_run.
    destruct (startup i w) as [[f|e] w1]; cbn [snd]; [|tauto].
    destruct (quiet_render _ ops i f w1) as (_ & _ & ->). tauto. }
  clear Hin. revert Hsql. unfold startup, assert_truthy, raise, http_path.
  destruct (getenv i "DATABRICKS_WAREHOUSE_ID") as [[|c id]|] eqn:Henv;
    cbn -[load_data];
    try (intros H; apply filter_In in H; left; tauto).
  match goal with
  | |- context [load_data i ?w'] =>
      destruct (load_sql_events i w') as (qs & Hincl & ->)
  end.
  cbn [trace]. rewrite !filter_app. cbn. rewrite !app_nil_r.
  intros H. apply in_app_or in H. destruct H as [H|H].
  - apply filter_In in H. left. tauto.
  - right. apply in_map_iff in H. destruct H as (q & Hq & Hqs).
    inversion Hq; subst. exists (String c id).
    unfold http_path. rewrite Henv.
    repeat split; try reflexivity; [discriminate | now apply Hincl].
Qed.
End WarehouseFacts.

Section ChatTurn.
Import Chat More.

End ChatTurn.

(** ** The further properties at concrete inputs *)

Section MoreInstances.
Import Chat Samples Cases More.

(** X1 at a stored turn, with the endpoint answering "Hi". *)
Lemma respond_appends_witness :
  SimpleChat.respond chat_answered "my-endpoint" "Be brief." greeted_world
  = (Ok tt,
     {| session :=
          with_messages [ user_message "Hello"; assistant_message (VStr "Hi");
                          assistant_message (VStr "Hi") ] greeted;
        trace := [ ChatMessageBox Assistant;
                   QueryEndpoint "my-endpoint"
                     [user_message "Hello"; assistant_message (VStr "Hi")]
                     400 "Be brief.";
                   Markdown (VStr "Hi") ] |}).
Proof.
  exact (respond_appends_the_content chat_answered "my-endpoint" "Be brief."
           greeted_world
           [user_message "Hello"; assistant_message (VStr "Hi")]
           [("content", VStr "Hi")] (VStr "Hi") eq_refl eq_refl eq_refl).
Defined.

(** X2 at an answer that has a ["text"] and no ["content"]. *)
Lemma respond_rejects_witness :
  SimpleChat.query_endpoint_answer chat_malformed
  = Ok (VDict [("text", VStr "Hi")])
  /\ exists e : exn,
       fst (SimpleChat.respond chat_malformed "my-endpoint" "Be brief."
              greeted_world) = Raise e
       /\ e = KeyError "content".
Proof.
  split; [reflexivity|].
  destruct (respond_rejects_a_malformed_answer chat_malformed "my-endpoint"
              "Be brief." greeted_world
              [user_message "Hello"; assistant_message (VStr "Hi")]
              (VDict [("text", VStr "Hi")]) eq_refl eq_refl)
    as (e & Hrun & He).
  - intros d reply E. inversion E. subst d. discriminate.
  - exists e. split; [now rewrite Hrun | exact He].
Defined.

(** X3 at a re-run of each page over a stored turn. *)
Lemma idle_rerun_witness :
  (truthy (SimpleChat.chat_input_answer chat_idle) = false
   /\ conversation
        (session_after (SimpleChat.run_with fixed_prompt chat_idle greeted))
      = conversation greeted)
  /\ (truthy (GenieAI.chat_input_answer genie_idle) = false
      /\ conversation (session_after (genie_run genie_idle greeted))
         = conversation greeted).
Proof.
  assert (Hep : "my-endpoint" <> "") by discriminate.
  assert (Hid : "space-1" <> "") by discriminate.
  pose proof (idle_rerun_replays_the_history repr_str repr_float repr_message)
    as (Hchat & Hgenie).
  split; (split; [reflexivity|]).
  - exact (proj2 (proj2 (Hchat fixed_prompt chat_idle greeted "my-endpoint"
                           eq_refl Hep eq_refl eq_refl))).
  - exact (proj2 (proj2 (proj2 (Hgenie genie_idle greeted "space-1"
                                  eq_refl Hid eq_refl eq_refl)))).
Defined.

(** X4 at a run of each page that takes in a prompt. *)
Lemma set_up_witness :
  count is_capability_check (effects (chat_run chat_hello fresh_session)) = 1
  /\ count is_build_agent (effects (genie_run genie_fails fresh_session)) = 1.
Proof.
  pose proof (set_up_is_repeated_every_run repr_str repr_float repr_message)
    as (Hchat & Hgenie).
  split.
  - exact (Hchat (SimpleChat.build_system_prompt repr_str repr_float)
             chat_hello fresh_session eq_refl).
  - exact (Hgenie genie_fails fresh_session eq_refl).
Defined.


(** X7 at a result with two AI messages and a tool message after them. *)
Lemma last_ai_message_witness :
  GenieAI.pick_reply repr_str repr_float repr_message ai_result
  = Ok (VStr "Sales rose.").
Proof.
  exact (reply_is_the_last_ai_message repr_str repr_float repr_message
           ai_result
           [ GenieAI.Message GenieAI.HumanMessage (GenieAI.Text "Hello");
             GenieAI.Message GenieAI.AIMessage (GenieAI.Text "Looking it up.") ]
           [ GenieAI.Message GenieAI.OtherMessage (GenieAI.Text "rows: 3") ]
           (GenieAI.Text "Sales rose.") eq_refl eq_refl).
Defined.

(** X8 at a result whose messages entry is a number. *)
Lemma uniterable_messages_witness :
  GenieAI.pick_reply repr_str repr_float repr_message odd_result
  = Raise (TypeError "'int' object is not iterable").
Proof.
  exact (proj2 (reply_raises_only_on_uniterable_messages
                  repr_str repr_float repr_message odd_result
                  (TypeError "'int' object is not iterable")) eq_refl).
Defined.

(** X9 at a first turn that the agent answers. *)
Lemma answered_agent_witness :
  GenieAI.invoke_answer genie_answered = Ok ai_result
  /\ conversation (session_after (genie_run genie_answered fresh_session))
     = [user_message "Hello"; assistant_message (VStr "Sales rose.")].
Proof.
  assert (Hid : "space-1" <> "") by discriminate.
  assert (Hp : "Hello" <> "") by discriminate.
  split; [reflexivity|].
  exact (proj1 (proj2 (answered_agent_turn repr_str repr_float repr_message
                         genie_answered fresh_session "space-1" "Hello"
                         ai_result (VStr "Sales rose.")
                         eq_refl Hid eq_refl eq_refl Hp eq_refl eq_refl))).
Defined.

(** X10 at [snapshot]. *)
Lemma framed_prompt_witness :
  SimpleChat.build_system_prompt repr_str repr_float snapshot
  = Ok snapshot_prompt
  /\ exists body : string, snapshot_prompt = preamble ++ body ++ grounding.
Proof.
  split; [reflexivity|].
  exact (prompt_is_framed_by_fixed_text repr_str repr_float snapshot
           snapshot_prompt eq_refl).
Defined.

(** X11 at [snapshot]: two accounts, two transactions. *)
Lemma listed_rows_witness :
  SimpleChat.build_system_prompt repr_str repr_float snapshot
  = Ok snapshot_prompt
  /\ exists lines tlines : list string,
       List.length lines = 2 /\ List.length tlines = 2
       /\ contains snapshot_prompt
            ("Number of banking accounts: "
             ++ decimal_Z (Z.of_nat (List.length lines)) ++ nl
             ++ "Account balances:" ++ nl
             ++ String.concat nl lines ++ nl ++ nl
             ++ "Recent Transactions:" ++ nl
             ++ String.concat nl tlines ++ nl ++ nl
             ++ "# Banking Preferences" ++ nl).
Proof.
  split; [reflexivity|].
  destruct (prompt_lists_every_row_in_order repr_str repr_float snapshot
              snapshot_prompt eq_refl)
    as (accounts & recent & transactions & lines & tlines
        & Hacc & Hrec & Hiter & Hlines & Htl & Hcontains).
  exists lines, tlines.
  inversion Hacc. subst accounts. inversion Hrec. subst recent.
  inversion Hiter. subst transactions.
  split; [exact (eq_sym (Forall2_length Hlines))|].
  split; [exact (eq_sym (Forall2_length Htl)) | exact Hcontains].
Defined.

(** X12 at a snapshot whose second of three balances is text. *)
Lemma bad_balance_witness :
  getitem text_snapshot "accounts"
  = Ok (VDict [ ("Checking", VInt 10); ("Savings", VStr "1000");
                ("Brokerage", VInt 5) ])
  /\ SimpleChat.build_system_prompt repr_str repr_float text_snapshot
     = Raise (ValueError "Unknown format code 'f' for object of type 'str'").
Proof.
  split; [reflexivity|].
  refine (proj1 (first_bad_balance_aborts_the_composer repr_str repr_float
                   text_snapshot [("Checking", VInt 10)]
                   [("Brokerage", VInt 5)] "Savings" (VStr "1000")
                   (ValueError "Unknown format code 'f' for object of type 'str'")
                   eq_refl _ eq_refl)).
  repeat constructor.
Defined.

(** X13 at [snapshot]. *)
Lemma well_formed_snapshot_witness :
  exists text : string,
    SimpleChat.build_system_prompt repr_str repr_float snapshot = Ok text.
Proof.
  refine (well_formed_snapshot_yields_a_prompt repr_str repr_float
            snapshot
            (VDict [ ("contact_method", VStr "email");
                     ("budgeting_style", VStr "monthly") ])
            [ ("Checking", VFloat (S754_finite false 2469 (-1)));
              ("Savings", VInt 1000000) ]
            [ VDict [("merchant", VStr "Shop"); ("amount", VInt 12)];
              VDict [("merchant", VStr "Cafe");
                     ("amount", VFloat (S754_finite false 7 (-1)))] ]
            (VStr "Ann") (VStr "ann@example.com") (VInt 7)
            (VStr "email") (VStr "monthly")
            eq_refl _ eq_refl _ eq_refl eq_refl eq_refl eq_refl eq_refl
            eq_refl).
  - repeat constructor.
  - repeat (constructor;
            [eexists _, _; repeat split; reflexivity|]).
    constructor.
Defined.

(** X14 at a capability check and an agent construction that raise. *)
Lemma failed_set_up_witness :
  outcome (SimpleChat.run_with fixed_prompt chat_check_fails greeted)
  = Raise (RemoteError "forbidden")
  /\ outcome (genie_run genie_build_fails greeted)
     = Raise (RemoteError "no such space")
  /\ count is_chat_input (effects (genie_run genie_build_fails greeted)) = 0.
Proof.
  assert (Hep : "my-endpoint" <> "") by discriminate.
  assert (Hid : "space-1" <> "") by discriminate.
  pose proof (failed_set_up_ends_the_run repr_str repr_float repr_message)
    as (Hchat & Hgenie).
  pose proof (Hchat fixed_prompt chat_check_fails greeted "my-endpoint"
                (RemoteError "forbidden") eq_refl Hep eq_refl) as H1.
  pose proof (Hgenie genie_build_fails greeted "space-1"
                (RemoteError "no such space") eq_refl Hid eq_refl) as [H2 H3].
  split; [now rewrite H1|]. split; [|exact H3].
  unfold genie_run. now rewrite H2.
Defined.

End MoreInstances.

Section DashboardInstances.
Import Samples Cases More.

Ltac each_loader :=
  let Hin := fresh "Hin" in
  intros ? ? ? Hin; cbn in Hin;
  repeat (destruct Hin as [Hin|Hin]; [inversion Hin; reflexivity|]);
  contradiction.

Lemma loaded_world_is_warm : warm loaded_world.
Proof. each_loader. Defined.

Lemma later_world_is_warm : warm later_world.
Proof. each_loader. Defined.

Lemma cold_start_is_cold : cold cold_start.
Proof. each_loader. Defined.

(** X15 at the cache that a first run has filled, with the warehouse
    down. *)
Lemma warm_cache_witness :
  exists f : Dashboard.frames value,
    Dashboard.load_data dashboard_down loaded_world = (Ok f, loaded_world)
    /\ cached "get_monthly_transactions" loaded_world
       = Some (Dashboard.df_trans f).
Proof.
  destruct (warm_cache_serves_every_table value dashboard_down loaded_world
              loaded_world_is_warm)
    as (f & Hload & _ & Htrans & _).
  exists f. split; [exact Hload | exact Htrans].
Defined.

(** X16 at a first run on the cold cache and a run a hundred seconds
    later, with the warehouse down. *)
Lemma served_again_witness :
  Dashboard.load_data dashboard_run cold_start = (Ok sample_frames, loaded_world)
  /\ Dashboard.load_data dashboard_down later_world
     = (Ok sample_frames, later_world).
Proof.
  assert (Hload : Dashboard.load_data dashboard_run cold_start
                  = (Ok sample_frames, loaded_world))
    by (vm_compute; reflexivity).
  split; [exact Hload|].
  exact (proj2 (loaded_tables_are_served_again value dashboard_run
                  cold_start loaded_world sample_frames Hload)
           dashboard_down later_world eq_refl later_world_is_warm).
Defined.

(** X17 at the cold cache with the warehouse down: the first statement is
    the only one run. *)
Lemma cold_cache_witness :
  Dashboard.trace (snd (Dashboard.load_data dashboard_down cold_start))
  = [ Dashboard.SqlQuery "/sql/1.0/warehouses/wh-1"
        Dashboard.demographics_query ]
  /\ fst (Dashboard.load_data dashboard_down cold_start)
     = Raise (RemoteError "unavailable").
Proof.
  pose proof (cold_cache_runs_statements_in_script_order value
                dashboard_down cold_start cold_start_is_cold)
    as (Htrace & Hfails & _).
  split; [exact Htrace|].
  exact (proj2 (Hfails (RemoteError "unavailable")) eq_refl).
Defined.

(** X18 at the demographics function with the warehouse down. *)
Lemma failed_statement_witness :
  Dashboard.get_demographics_geo dashboard_down cold_start
  = (Raise (RemoteError "unavailable"), failed_world)
  /\ Dashboard.cache failed_world = Dashboard.cache cold_start
  /\ Dashboard.trace
       (snd (Dashboard.get_demographics_geo dashboard_run failed_world))
     = (Dashboard.trace failed_world
        ++ [ Dashboard.SqlQuery "/sql/1.0/warehouses/wh-1"
               Dashboard.demographics_query ])%list.
Proof.
  assert (Hcall : Dashboard.get_demographics_geo dashboard_down cold_start
                  = (Raise (RemoteError "unavailable"), failed_world))
    by (vm_compute; reflexivity).
  pose proof (failed_statement_is_run_again value
                "get_demographics_geo" Dashboard.demographics_query
                Dashboard.get_demographics_geo
                dashboard_down cold_start failed_world
                (RemoteError "unavailable")
                (or_introl eq_refl) Hcall)
    as (_ & Hcache & _ & Hagain).
  split; [exact Hcall|]. split; [exact Hcache|].
  apply (Hagain dashboard_run failed_world eq_refl). vm_compute. discriminate.
Defined.

(** X20 at a run that selects Ohio. *)
Lemma state_filter_witness :
  Dashboard.multiselect_answer dashboard_ohio = Some [VStr "Ohio"]
  /\ Dashboard.rows
       (match fst (Dashboard.filter_states ops dashboard_ohio demographics
                     cold_start) with
        | Ok t => t
        | Raise _ => demographics
        end)
     = filter (fun row => Dashboard.isin ops [VStr "Ohio"] (nth 0 row VNone))
              (Dashboard.rows demographics).
Proof.
  split; [reflexivity|].
  destruct (state_filter_keeps_the_selected_rows value ops dashboard_ohio
              demographics
              (Dashboard.Build_table
                 ["state_name"; "age_group"; "sex"; "client_count"]
                 [[VStr "Ohio"; VStr "40-49"; VStr "M"; VInt 800]])
              cold_start
              (snd (Dashboard.filter_states ops dashboard_ohio demographics
                      cold_start))
              eq_refl)
    as (k & all_states & Hk & _ & _ & Hrows & _).
  inversion Hk. subst k. reflexivity.
Defined.

(** X21 at a transactions table with two rows and no month. *)
Lemma undated_months_witness :
  Dashboard.column ops undated_transactions "kpi_month" = Ok [VNone; VNone]
  /\ fst (Dashboard.tab_trans ops undated_transactions cold_start)
     = Raise (IndexError "single positional indexer is out-of-bounds").
Proof.
  split; [reflexivity|].
  pose proof (proj1 (undated_months_abort_the_tab value ops
                       undated_transactions cold_start [VNone; VNone]
                       eq_refl)
                [None; None] eq_refl
                (Forall_cons _ eq_refl (Forall_cons _ eq_refl (Forall_nil _))))
    as H.
  now rewrite H.
Defined.

(** X22 at the sample transactions: the metrics are those of February. *)
Lemma latest_metrics_witness :
  fst (Dashboard.tab_trans ops transactions cold_start) = Ok tt
  /\ exists (k : nat) (m : Z) (row : list value) (volume : string),
       nth_error (Dashboard.rows transactions) k = Some row
       /\ (202402 <= m)%Z
       /\ In (Dashboard.Metric "Latest Monthly Volume" ("$" ++ volume))
            (Dashboard.trace
               (snd (Dashboard.tab_trans ops transactions cold_start))).
Proof.
  split; [reflexivity|].
  destruct (latest_metrics_are_of_the_greatest_month value ops transactions
              cold_start
              (snd (Dashboard.tab_trans ops transactions cold_start))
              eq_refl)
    as (raw & months & k & m & row & total & cnt & bal & vt & ct & bt
        & Hraw & Hmonths & _ & Hrow & Hle & _ & _ & _ & _ & _ & _ & _
        & Htrace).
  exists k, m, row, vt. split; [exact Hrow|]. split.
  - apply Hle. inversion Hraw. subst raw. inversion Hmonths. subst months.
    right. left. reflexivity.
  - rewrite Htrace. right. left. reflexivity.
Defined.

Lemma integer_ops_never_raise : never_raise integer_ops.
Proof. repeat split. Defined.

(** X23 at five tables of integer cells. *)
Lemma well_formed_tables_witness :
  Dashboard.non_degenerate integer_frames
  /\ dated integer_ops (Dashboard.df_trans integer_frames)
  /\ fst (Dashboard.page integer_ops integer_run integer_start) = Ok tt.
Proof.
  assert (Hnd : Dashboard.non_degenerate integer_frames)
    by (repeat split; discriminate).
  assert (Hdated : dated integer_ops (Dashboard.df_trans integer_frames)).
  { exists [202402; 175500; 3300; 5350]%Z, 202402%Z, 202402%Z.
    split; [right; left; reflexivity|]. split; reflexivity. }
  split; [exact Hnd|]. split; [exact Hdated|].
  refine (proj2 (well_formed_tables_draw_the_page Z integer_ops
                   integer_ops_never_raise integer_run integer_frames
                   Hnd Hdated)
            integer_start
            (snd (Dashboard.startup integer_run integer_start)) _).
  vm_compute. reflexivity.
Defined.

(** X24 at the first statement of a run on the cold cache. *)
Lemma configured_warehouse_witness :
  In (Dashboard.SqlQuery "/sql/1.0/warehouses/wh-1"
        Dashboard.demographics_query)
     (Dashboard.trace (snd (Dashboard.page ops dashboard_run cold_start)))
  /\ exists id : string,
       Dashboard.getenv dashboard_run "DATABRICKS_WAREHOUSE_ID" = Some id
       /\ id <> ""
       /\ "/sql/1.0/warehouses/wh-1" = "/sql/1.0/warehouses/" ++ id.
Proof.
  assert (Hin : In (Dashboard.SqlQuery "/sql/1.0/warehouses/wh-1"
                      Dashboard.demographics_query)
                   (Dashboard.trace
                      (snd (Dashboard.page ops dashboard_run cold_start))))
    by (vm_compute; right; right; left; reflexivity).
  split; [exact Hin|].
  destruct (statements_go_to_the_configured_warehouse value ops
              dashboard_run cold_start _ _ Hin)
    as [[]|(id & Henv & Hid & Hpath & _)].
  exists id. split; [exact Henv|]. split; [exact Hid | exact Hpath].
Defined.
(** X26 at a run that selects Ohio: the total is that of Ohio alone. *)
Lemma page_layout_witness :
  fst (Dashboard.render ops dashboard_ohio sample_frames cold_start) = Ok tt
  /\ In (Dashboard.Metric "Total Clients (Selected States)" "800")
        (Dashboard.trace
           (snd (Dashboard.render ops dashboard_ohio sample_frames
                   cold_start))).
Proof.
  split; [vm_compute; reflexivity|].
  destruct (completed_page_layout value ops dashboard_ohio sample_frames
              cold_start
              (snd (Dashboard.render ops dashboard_ohio sample_frames
                      cold_start)))
    as (demo' & w0 & counts & total & total_text & vt & ct & bt
        & Hf & Hcounts & Htotal & Htext & Htrace).
  - vm_compute. reflexivity.
  - rewrite Htrace.
    inversion Hf. subst demo'. inversion Hcounts. subst counts.
    inversion Htotal. subst total. inversion Htext. subst total_text.
    right. right. right. right. right. left. reflexivity.
Defined.
End DashboardInstances.
